(** * Knowledge-test routes (routes/knowledgeTests.js): a shallow embedding

    The Express router of [routes/knowledgeTests.js] creates multiple-choice
    tests from the text a generative model returns, grades submissions and
    asks the model to justify wrong answers.  This development embeds the
    handlers as Rocq functions and settles the properties the repository's
    specification states about them.

    JavaScript values are modelled as the JSON values a request body, the
    stored document and the model's reply consist of; numbers are IEEE-754
    binary64 values ([SpecFloat], 53 bits of precision); a [TypeError] thrown
    inside a handler is [None] in the [option] monad and becomes the
    handler's 500 reply, as its [try]/[catch] does.  The document of
    [knowledge_tests.json] is a value the handlers take and give back: the
    file is assumed to be readable and writable, and a stored test is the
    object the create handler pushed. *)

From Stdlib Require Import ZArith QArith Qround List String Ascii Bool Lia.
From Stdlib Require Import Floats.SpecFloat.
From stdpp Require Import base option list strings pretty gmap.

Local Open Scope string_scope.
Local Open Scope Z_scope.

(** ** Numbers: binary64

    A Number is a [spec_float] of precision 53 and maximal exponent 1024,
    in the canonical form [JSON.parse] and the operations below produce. *)

Module Number.

Definition prec : Z := 53.
Definition emax : Z := 1024.

(** The Number value of a mathematical integer (exact below 2^53). *)
Definition of_Z (z : Z) : spec_float := binary_normalize prec emax z 0 false.
Definition of_nat (n : nat) : spec_float := of_Z (Z.of_nat n).

Definition div (x y : spec_float) : spec_float := SFdiv prec emax x y.
Definition mul (x y : spec_float) : spec_float := SFmul prec emax x y.

(** [x === y] on two Numbers: NaN differs from itself, +0 equals -0. *)
Definition strict_eq (x y : spec_float) : bool := SFeqb x y.

(** SameValueZero on two Numbers: as [===], except that NaN equals NaN. *)
Definition same_value_zero (x y : spec_float) : bool :=
  match x, y with
  | S754_nan, S754_nan => true
  | _, _ => SFeqb x y
  end.

(** ToBoolean on a Number: false on +0, -0 and NaN. *)
Definition truthy (x : spec_float) : bool :=
  match x with
  | S754_zero _ | S754_nan => false
  | _ => true
  end.

(** [Math.round]: the closest integral Number, a tie going towards
    +infinity; a result of zero keeps the sign of the argument. *)
Definition Math_round (x : spec_float) : spec_float :=
  match x with
  | S754_finite s m (Zneg p) =>
      let d := 2 ^ Zpos p in
      let v := cond_Zopp s (Zpos m) in
      binary_normalize prec emax ((2 * v + d) / (2 * d)) 0 s
  | _ => x
  end.

(** [Math.max] on two array lengths or small counters. *)
Definition Math_max (a b : nat) : spec_float := of_nat (Nat.max a b).

Definition minus_one : spec_float := of_Z (-1).
Definition zero : spec_float := S754_zero false.

End Number.

Abbreviation number := spec_float.

(** ** Values *)

(** A JavaScript value as [JSON.parse] builds it, plus [undefined].  An
    object is its list of own properties; [own_prop] below takes the first
    binding of a key. *)
#[warnings="-register-all"]
Inductive value : Type :=
| VUndefined
| VNull
| VBool (b : bool)
| VNum (n : number)
| VStr (s : string)
| VArr (elems : list value)
| VObj (props : list (string * value)).

Definition typeof (v : value) : string :=
  match v with
  | VUndefined => "undefined"
  | VNull => "object"
  | VBool _ => "boolean"
  | VNum _ => "number"
  | VStr _ => "string"
  | VArr _ => "object"
  | VObj _ => "object"
  end.

(** ToBoolean. *)
Definition truthy (v : value) : bool :=
  match v with
  | VUndefined | VNull => false
  | VBool b => b
  | VNum n => Number.truthy n
  | VStr s => negb (String.eqb s "")
  | VArr _ | VObj _ => true
  end.

(** [a || b]. *)
Definition js_or (a b : value) : value := if truthy a then a else b.

(** [x = dflt] in a destructuring pattern: the default replaces only
    [undefined]. *)
Definition or_default (x dflt : value) : value :=
  match x with VUndefined => dflt | _ => x end.

Fixpoint own_prop (name : string) (props : list (string * value)) : option value :=
  match props with
  | [] => None
  | (k, v) :: rest => if String.eqb k name then Some v else own_prop name rest
  end.

(** [v.name], for the property names the handlers read ([qId],
    [selectedIndex], [questions], ...): none of them is an array index or a
    property of a built-in prototype, so the value is an own property of an
    object and [undefined] elsewhere.  Reading a property of [null] or
    [undefined] throws. *)
Definition get (v : value) (name : string) : option value :=
  match v with
  | VUndefined | VNull => None
  | VObj props => Some (default VUndefined (own_prop name props))
  | _ => Some VUndefined
  end.

(** [v?.name]. *)
Definition get_opt (v : value) (name : string) : value :=
  default VUndefined (get v name).

(** [v?.[0]]: the first element of an array, the first code unit of a
    string, the own property ["0"] of an object. *)
Definition index0_opt (v : value) : value :=
  match v with
  | VArr (x :: _) => x
  | VStr (String c _) => VStr (String c EmptyString)
  | VObj props => default VUndefined (own_prop "0" props)
  | _ => VUndefined
  end.

Definition isArray (v : value) : bool :=
  match v with VArr _ => true | _ => false end.

(** SameValueZero, the comparison of [Array.prototype.includes].  Two
    objects are the same only when they are one object; a value of the
    stored document and a value of a request body never are. *)
Definition same_value_zero (a b : value) : bool :=
  match a, b with
  | VUndefined, VUndefined => true
  | VNull, VNull => true
  | VBool x, VBool y => Bool.eqb x y
  | VNum x, VNum y => Number.same_value_zero x y
  | VStr x, VStr y => String.eqb x y
  | _, _ => false
  end.

Definition includes (l : list value) (x : value) : bool :=
  existsb (fun y => same_value_zero y x) l.

(** ** Strings

    A string is its sequence of code units; the development keeps to code
    units below 256. *)

Definition newline : ascii := "010"%char.

Fixpoint drop (n : nat) (s : string) : string :=
  match n, s with
  | S k, String _ rest => drop k rest
  | _, _ => s
  end.

Fixpoint take (n : nat) (s : string) : string :=
  match n, s with
  | S k, String c rest => String c (take k rest)
  | _, _ => ""
  end.

(** [t.slice(first)] and [t.slice(0, last)] for indices that are not
    negative. *)
Definition slice_from (first : Z) (t : string) : string := drop (Z.to_nat first) t.
Definition slice_to (last : Z) (t : string) : string := take (Z.to_nat last) t.

Definition is_open (c : ascii) : bool := Ascii.eqb c "{" || Ascii.eqb c "[".

(** [t.search(/[\{\[]/)]: the index of the first opening brace or bracket,
    or -1. *)
Fixpoint search_open (t : string) : Z :=
  match t with
  | "" => -1
  | String c rest =>
      if is_open c then 0
      else let k := search_open rest in if k <? 0 then -1 else k + 1
  end.

(** [t.lastIndexOf(c)] for a one-character [c], or -1. *)
Fixpoint lastIndexOf (c : ascii) (t : string) : Z :=
  match t with
  | "" => -1
  | String a rest =>
      let k := lastIndexOf c rest in
      if 0 <=? k then k + 1 else if Ascii.eqb a c then 0 else -1
  end.

(** The length of the match of [/```(?:json)?\n?/] at the start of [s], and
    of [/```/]; 0 when there is none. *)
Definition fence_json_match (s : string) : nat :=
  if String.prefix "```" s then
    let j := if String.prefix "json" (drop 3 s) then 4%nat else 0%nat in
    let n := if String.prefix (String newline "") (drop (3 + j) s) then 1%nat else 0%nat in
    (3 + j + n)%nat
  else 0%nat.

Definition fence_match (s : string) : nat :=
  if String.prefix "```" s then 3%nat else 0%nat.

(** [s.replace(re, "")] for a global pattern whose match at a position has
    the length [match_length] gives: matches are taken leftmost first and do
    not overlap.  [skip] counts the code units of the current match still to
    drop. *)
Fixpoint replace_all (match_length : string -> nat) (skip : nat) (s : string) : string :=
  match s with
  | "" => ""
  | String c rest =>
      match skip with
      | S k => replace_all match_length k rest
      | O =>
          match match_length s with
          | S k => replace_all match_length k rest
          | O => String c (replace_all match_length 0 rest)
          end
      end
  end.

(** White space and line terminators among the code units below 256. *)
Definition is_space (c : ascii) : bool :=
  let n := nat_of_ascii c in
  ((9 <=? n)%nat && (n <=? 13)%nat) || (n =? 32)%nat || (n =? 160)%nat.

Fixpoint trimStart (s : string) : string :=
  match s with
  | String c rest => if is_space c then trimStart rest else s
  | "" => ""
  end.

Fixpoint trimEnd (s : string) : string :=
  match s with
  | "" => ""
  | String c rest =>
      let r := trimEnd rest in
      if is_space c && String.eqb r "" then "" else String c r
  end.

Definition trim (s : string) : string := trimEnd (trimStart s).

(** Text written with apostrophes for the double quotes of the source. *)
Fixpoint dq (s : string) : string :=
  match s with
  | "" => ""
  | String c rest => String (if Ascii.eqb c "'" then "034"%char else c) (dq rest)
  end.

(** ** The object behind [answersMap]

    The submit handler folds the answers into [{}], an ordinary object whose
    prototype is [Object.prototype].  The only accessor that prototype has
    is [__proto__]: assigning an object or [null] to it replaces the
    prototype of the receiver, assigning anything else does nothing.  Every
    other assignment defines an own property. *)

Variant prototype : Type :=
| ObjectPrototype
| NullPrototype
| ValuePrototype (v : value).

Record object : Type := mkObject {
  own : gmap string value;
  proto : prototype
}.

Definition empty_object : object := mkObject ∅ ObjectPrototype.

(** The own property [k] of an array: an element, or [length]. *)
Fixpoint array_element (k : string) (i : nat) (elems : list value) : option value :=
  match elems with
  | [] => None
  | x :: rest => if String.eqb k (pretty i) then Some x else array_element k (S i) rest
  end.

Definition array_own (k : string) (elems : list value) : option value :=
  match array_element k 0 elems with
  | Some x => Some x
  | None => if String.eqb k "length" then Some (VNum (Number.of_nat (length elems))) else None
  end.

(** The own property [k] of a value that serves as a prototype. *)
Definition value_own (k : string) (p : value) : option value :=
  match p with
  | VObj props => own_prop k props
  | VArr elems => array_own k elems
  | _ => None
  end.

(** The setter of [Object.prototype.__proto__], called on [o]. *)
Definition set_prototype (o : object) (v : value) : object :=
  match v with
  | VObj _ | VArr _ => mkObject (own o) (ValuePrototype v)
  | VNull => mkObject (own o) NullPrototype
  | _ => o
  end.

Definition define_own (o : object) (k : string) (v : value) : object :=
  mkObject (<[k := v]> (own o)) (proto o).

(** The step of [o[k] = v] that runs once neither [o] nor a value that is
    its prototype has the property: [Object.prototype] is reached. *)
Definition set_inherited (o : object) (k : string) (v : value) : object :=
  if String.eqb k "__proto__" then set_prototype o v else define_own o k v.

(** [o[k] = v]. *)
Definition set_prop (o : object) (k : string) (v : value) : object :=
  match own o !! k with
  | Some _ => define_own o k v
  | None =>
      match proto o with
      | NullPrototype => define_own o k v
      | ValuePrototype p =>
          match value_own k p with
          | Some _ => define_own o k v
          | None => set_inherited o k v
          end
      | ObjectPrototype => set_inherited o k v
      end
  end.

(** [o[k]], as far as it is a value of the document model: [None] stands for
    [undefined] and for the functions and objects of the built-in
    prototypes, none of which is a Number. *)
Definition get_prop (o : object) (k : string) : option value :=
  match own o !! k with
  | Some v => Some v
  | None =>
      match proto o with
      | ValuePrototype p =>
          match value_own k p with
          | Some v => Some v
          | None => if String.eqb k "__proto__" then Some p else None
          end
      | _ => None
      end
  end.

(** ** The stored document *)

Module Question.
Record t : Type := mk {
  id : value;
  prompt : value;
  choices : value;
  correctIndex : value
}.
End Question.

Module Answer.
Record t : Type := mk {
  qId : value;
  prompt : value;
  selectedIndex : number;
  correctIndex : number;
  correct : bool
}.
End Answer.

Module Submission.
Record t : Type := mk {
  id : string;
  userId : value;
  timestamp : string;
  score : number;
  answers : list Answer.t
}.
End Submission.

Module Test.
Record t : Type := mk {
  id : string;
  name : value;
  createdAt : string;
  sourceText : value;
  questions : list Question.t;
  results : list Submission.t
}.
End Test.

(** [data.tests], the content of [knowledge_tests.json]. *)
Abbreviation document := (list Test.t).

Record TestMeta : Type := mkMeta {
  meta_id : string;
  meta_name : value;
  meta_createdAt : string;
  questionCount : nat
}.

(** What a request reads from the clock and the random source:
    [Date.now().toString(36)] at its n-th reading, [Math.random()] scaled
    and floored, [new Date().toISOString()]. *)
Record Env : Type := mkEnv {
  now36 : nat -> string;
  random1000 : nat;
  toISOString : string
}.

(** A handler's reply: [res.status(s).json(body)], or
    [res.status(s).json({ error })]. *)
Variant reply (A : Type) : Type :=
| Json (status : nat) (body : A)
| Error (status : nat) (error : string).
Arguments Json {A} status body.
Arguments Error {A} status error.

(** [data.tests.find(...)] followed by [test.results.push(submission)]: the
    first test of that id takes the submission. *)
Fixpoint push_result (id : string) (submission : Submission.t) (data : document) : document :=
  match data with
  | [] => []
  | t :: rest =>
      if String.eqb (Test.id t) id
      then Test.mk (Test.id t) (Test.name t) (Test.createdAt t) (Test.sourceText t)
             (Test.questions t) (Test.results t ++ [submission])%list :: rest
      else t :: push_result id submission rest
  end.

Definition find_test (id : string) (data : document) : option Test.t :=
  List.find (fun t => String.eqb (Test.id t) id) data.

(** ** The router *)

Section Routes.

(** The host functions the router calls: Number::toString,
    [JSON.parse] ([None] when it throws a SyntaxError), [JSON.stringify]
    ([None] when it yields [undefined]) and [callGeminiGenerate], the
    request to the generative model ([None] when it throws). *)
Variable Number_toString : number -> string.
Variable JSON_parse : string -> option value.
Variable JSON_stringify : value -> option string.
Variable callGeminiGenerate : string -> nat -> option value.

Set Default Proof Using "Type".

(** [String(v)], the conversion a template literal and a property key
    apply as well.  An object converts through [Object.prototype.toString]
    unless an own [toString] property shadows it; such a property of a
    document value is never callable and the conversion throws. *)
Fixpoint ToString (v : value) : option string :=
  match v with
  | VUndefined => Some "undefined"
  | VNull => Some "null"
  | VBool b => Some (if b then "true" else "false")
  | VNum n => Some (Number_toString n)
  | VStr s => Some s
  | VArr elems =>
      (fix join (l : list value) : option string :=
         match l with
         | [] => Some ""
         | x :: rest =>
             a ← match x with
                 | VUndefined | VNull => Some ""
                 | _ => ToString x
                 end;
             match rest with
             | [] => Some a
             | _ => b ← join rest; Some (a +:+ "," +:+ b)
             end
         end) elems
  | VObj props =>
      match own_prop "toString" props with
      | Some _ => None
      | None => Some "[object Object]"
      end
  end.

(** *** safelyParseJsonFromText *)

(** Line 38: the code fences removed, the ends trimmed. *)
Definition stripped (s : string) : string :=
  trim (replace_all fence_match 0 (replace_all fence_json_match 0 s)).

(** Lines 38-44: the text handed to [JSON.parse]. *)
Definition json_candidate (s : string) : string :=
  let t := stripped s in
  let first := search_open t in
  let t := if 0 <=? first then slice_from first t else t in
  let lastBrace := Z.max (lastIndexOf "}" t) (lastIndexOf "]" t) in
  if 0 <=? lastBrace then slice_to (lastBrace + 1) t else t.

Definition safelyParseJsonFromText (text : value) : option value :=
  if negb (truthy text) then Some VNull
  else
    s ← ToString text;
    Some (default VNull (JSON_parse (json_candidate s))).

(** The text of the model's reply, [modelResp?.candidates?.[0]...]. *)
Definition reply_text (modelResp : value) : value :=
  js_or
    (get_opt (index0_opt (get_opt (get_opt (index0_opt
       (get_opt modelResp "candidates")) "content") "parts")) "text")
    (get_opt (index0_opt (get_opt (index0_opt
       (get_opt modelResp "output")) "content")) "text").

Definition stringified (v : value) : value :=
  match JSON_stringify v with
  | Some s => VStr s
  | None => VUndefined
  end.

(** Lines 113-116 and 252-253: the text to parse. *)
Definition create_rawOut (modelResp : value) : value :=
  js_or (reply_text modelResp)
    (if String.eqb (typeof modelResp) "string" then modelResp
     else stringified modelResp).

Definition justify_raw (modelResp : value) : value :=
  js_or (reply_text modelResp) (stringified modelResp).

(** *** POST / : create a test *)

Definition create_prompt (requested text : string) : string :=
  dq "
You are an expert teacher. Given the following passage, generate " +:+ requested +:+ dq " multiple-choice questions (MCQs).
Requirements:
- Output ONLY valid JSON (no extra commentary).
- JSON structure must be: { 'questions': [ { 'prompt': '...', 'choices': ['A', 'B', 'C', 'D'], 'correctIndex': 1, 'id': 'q1' }, ... ] }
- Each question should be concise, 4 choices, exactly one correct.
- Keep language simple for learners.
Passage:
'''" +:+ text +:+ dq "'''
Return the JSON only.
".

(** Lines 125-130, the callback of [parsed.questions.map]. *)
Definition normalize (env : Env) (q : value) (i : nat) : option Question.t :=
  id ← get q "id";
  prompt ← get q "prompt";
  question ← get q "question";
  choices ← get q "choices";
  options ← get q "options";
  correctIndex ← get q "correctIndex";
  Some (Question.mk
          (js_or id (VStr ("q_" +:+ now36 env i +:+ "_" +:+ pretty i)))
          (js_or prompt (js_or question (VStr "")))
          (js_or choices (js_or options (VArr [])))
          (if String.eqb (typeof correctIndex) "number" then correctIndex
           else VNum Number.zero)).

Fixpoint normalize_from (env : Env) (i : nat) (qs : list value) : option (list Question.t) :=
  match qs with
  | [] => Some []
  | q :: rest =>
      x ← normalize env q i;
      xs ← normalize_from env (S i) rest;
      Some (x :: xs)
  end.

(** [const { name, text, requested = 6 } = req.body || {}]. *)
Definition request_name (body : value) : value :=
  get_opt (js_or body (VObj [])) "name".
Definition request_text (body : value) : value :=
  get_opt (js_or body (VObj [])) "text".
Definition request_requested (body : value) : value :=
  or_default (get_opt (js_or body (VObj [])) "requested") (VNum (Number.of_Z 6)).

Definition create (env : Env) (data : document) (body : value)
  : reply TestMeta * document :=
  let name := request_name body in
  let text := request_text body in
  let requested := request_requested body in
  if negb (truthy name) || negb (truthy text)
  then (Error 400 "name and text required", data)
  else
    default (Error 500 "Could not create test", data)
      (requested_s ← ToString requested;
       text_s ← ToString text;
       match callGeminiGenerate (create_prompt requested_s text_s) 1000 with
       | None => Some (Error 500 "MCQ generation failed", data)
       | Some modelResp =>
           let rawOut := create_rawOut modelResp in
           parsed ← safelyParseJsonFromText rawOut;
           match truthy parsed, get_opt parsed "questions" with
           | true, VArr items =>
               questions ← normalize_from env 0 items;
               let id := "test_" +:+ now36 env (length items) +:+ "_"
                           +:+ pretty (random1000 env) in
               let createdAt := toISOString env in
               let testObj := Test.mk id name createdAt text questions [] in
               Some (Json 201 (mkMeta id name createdAt (length questions)),
                     (data ++ [testObj])%list)
           | _, _ => Some (Error 500 "Invalid JSON output from model", data)
           end
       end).

(** *** POST /:id/submit : grade and store *)

(** The callback of [reduce], [acc[a.qId] = a.selectedIndex]. *)
Definition record_answer (acc : object) (a : value) : option object :=
  qId ← get a "qId";
  selectedIndex ← get a "selectedIndex";
  k ← ToString qId;
  Some (set_prop acc k selectedIndex).

Fixpoint reduce (l : list value) (acc : object) : option object :=
  match l with
  | [] => Some acc
  | a :: rest => acc' ← record_answer acc a; reduce rest acc'
  end.

(** [(answers || []).reduce(..., {})]; only an array has [reduce]. *)
Definition answersMap_of (answers : value) : option object :=
  match js_or answers (VArr []) with
  | VArr l => reduce l empty_object
  | _ => None
  end.

(** [typeof answersMap[q.id] === "number" ? answersMap[q.id] : -1]. *)
Definition selected_of (slot : option value) : number :=
  match slot with
  | Some (VNum n) => n
  | _ => Number.minus_one
  end.

(** [typeof q.correctIndex === "number" ? q.correctIndex : 0]. *)
Definition correctIndex_of (q : Question.t) : number :=
  match Question.correctIndex q with
  | VNum n => n
  | _ => Number.zero
  end.

(** The callback of [questions.map]. *)
Definition grade_question (answersMap : object) (q : Question.t) : option Answer.t :=
  k ← ToString (Question.id q);
  let selected := selected_of (get_prop answersMap k) in
  let correctIndex := correctIndex_of q in
  let correct := Number.strict_eq selected correctIndex in
  Some (Answer.mk (Question.id q) (Question.prompt q) selected correctIndex correct).

(** [Math.round((correctCount / Math.max(1, questions.length)) * 100)]. *)
Definition score_of (correctCount questionCount : nat) : number :=
  Number.Math_round
    (Number.mul
       (Number.div (Number.of_nat correctCount) (Number.Math_max 1 questionCount))
       (Number.of_nat 100)).

Definition grade (test : Test.t) (answers : value) : option (list Answer.t * number) :=
  let questions := Test.questions test in
  answersMap ← answersMap_of answers;
  resultAnswers ← mapM (grade_question answersMap) questions;
  let correctCount := length (List.filter Answer.correct resultAnswers) in
  Some (resultAnswers, score_of correctCount (length questions)).

(** [const { userId = null, answers = [] } = req.body || {}]. *)
Definition request_userId (body : value) : value :=
  or_default (get_opt (js_or body (VObj [])) "userId") VNull.
Definition request_answers (body : value) : value :=
  or_default (get_opt (js_or body (VObj [])) "answers") (VArr []).

Definition submit (env : Env) (data : document) (id : string) (body : value)
  : reply (Submission.t * number) * document :=
  let userId := request_userId body in
  let answers := request_answers body in
  match find_test id data with
  | None => (Error 404 "Test not found", data)
  | Some test =>
      default (Error 500 "Could not submit answers", data)
        ('(resultAnswers, score) ← grade test answers;
         let submission :=
           Submission.mk
             ("sub_" +:+ now36 env 0 +:+ "_" +:+ pretty (random1000 env))
             userId (toISOString env) score resultAnswers in
         Some (Json 200 (submission, score), push_result id submission data))
  end.

(** *** POST /:id/justify : explain wrong answers *)

(** One question of the prompt, [`QID:${q.id}\nQ:${q.prompt}...`]. *)
Definition question_block (q : Question.t) : option string :=
  id ← ToString (Question.id q);
  prompt ← ToString (Question.prompt q);
  correctIndex ← ToString (Question.correctIndex q);
  Some ("QID:" +:+ id +:+ String newline "Q:" +:+ prompt
        +:+ String newline "Choices:"
        +:+ default "undefined" (JSON_stringify (Question.choices q))
        +:+ String newline "CorrectIndex:" +:+ correctIndex).

(** [blocks.join("\n\n")]. *)
Fixpoint join_blocks (blocks : list string) : string :=
  match blocks with
  | [] => ""
  | [b] => b
  | b :: rest => b +:+ String newline (String newline "") +:+ join_blocks rest
  end.

Definition justify_prompt (contextNotes : value) (questions : list Question.t)
  : option string :=
  notes ← ToString contextNotes;
  blocks ← mapM question_block questions;
  Some (dq "
You are StudyAgent. For each question and its correct answer given below, write a short (1-2 paragraph) child-friendly explanation why the correct answer is correct and a short tip to remember it.
Return ONLY JSON:
{
  'justifications': [
    { 'qId': '...', 'explanation': '...' }
  ]
}
Context (extract): " +:+ notes +:+ "

Questions:
" +:+ join_blocks blocks +:+ "
").

(** [test.questions.filter((q) => qIds.includes(q.id))]. *)
Definition selected_questions (qIds : list value) (test : Test.t) : list Question.t :=
  List.filter (fun q => includes qIds (Question.id q)) (Test.questions test).

(** [const { qIds = [], contextNotes = "" } = req.body || {}]. *)
Definition request_qIds (body : value) : value :=
  or_default (get_opt (js_or body (VObj [])) "qIds") (VArr []).
Definition request_contextNotes (body : value) : value :=
  or_default (get_opt (js_or body (VObj [])) "contextNotes") (VStr "").

Definition justify (data : document) (id : string) (body : value) : reply value :=
  let qIds := request_qIds body in
  let contextNotes := request_contextNotes body in
  match qIds with
  | VArr (x :: l) =>
      match find_test id data with
      | None => Error 404 "Test not found"
      | Some test =>
          default (Error 500 "Could not produce justifications")
            (let questions := selected_questions (x :: l) test in
             prompt ← justify_prompt contextNotes questions;
             match callGeminiGenerate prompt 800 with
             | None => Some (Error 500 "Justify generation failed")
             | Some modelResp =>
                 let raw := justify_raw modelResp in
                 parsed ← safelyParseJsonFromText raw;
                 match truthy parsed, get_opt parsed "justifications" with
                 | true, VArr items => Some (Json 200 (VArr items))
                 | _, _ => Some (Error 500 "Invalid JSON from justification model")
                 end
             end)
      end
  | _ => Error 400 "qIds required"
  end.


(** ** What the specification says, in its own words *)

(** [round(100 * countCorrect / max(1, questionCount))] over the
    rationals, a tie going up. *)
Definition round_half_up (q : Q) : Z := Qfloor (q + (1 # 2))%Q.

Definition spec_score (countCorrect questionCount : nat) : Z :=
  round_half_up
    (100 * inject_Z (Z.of_nat countCorrect)
       / inject_Z (Z.of_nat (Nat.max 1 questionCount)))%Q.

(** The substring between the first opening brace or bracket and the last
    closing one that matches it: a brace for a brace, a bracket for a
    bracket. *)
Definition closer_of (c : ascii) : ascii :=
  if Ascii.eqb c "{" then "}"%char else "]"%char.

Definition extract_matching (t : string) : string :=
  let first := search_open t in
  if 0 <=? first then
    let t := slice_from first t in
    match t with
    | String c _ =>
        let last := lastIndexOf (closer_of c) t in
        if 0 <=? last then slice_to (last + 1) t else t
    | "" => t
    end
  else t.

(** ** Notions the statements use *)

(** The entries of an answers value, as [reduce] visits them. *)
Definition entries (answers : value) : list value :=
  match js_or answers (VArr []) with
  | VArr l => l
  | _ => []
  end.

(** The property key an entry is filed under. *)
Definition entry_key (a : value) : option string :=
  qId ← get a "qId"; ToString qId.

(** A candidate question on which [q.id] does not throw. *)
Definition non_null (q : value) : Prop := q <> VNull /\ q <> VUndefined.

(** Predicates on the code units of a string. *)
Definition is_close (c : ascii) : bool := Ascii.eqb c "}" || Ascii.eqb c "]".

Fixpoint any (p : ascii -> bool) (s : string) : bool :=
  match s with
  | "" => false
  | String c rest => p c || any p rest
  end.

Definition starts_with (p : ascii -> bool) (s : string) : bool :=
  match s with
  | String c _ => p c
  | "" => false
  end.

Fixpoint ends_with (p : ascii -> bool) (s : string) : bool :=
  match s with
  | "" => false
  | String c "" => p c
  | String _ rest => ends_with p rest
  end.

(** A request body without the fields a caller might add to claim a
    result: [correct] and [score], at the top level and in each entry of
    [answers]. *)
Definition is_spoof (k : string) : bool :=
  String.eqb k "correct" || String.eqb k "score".

Definition drop_spoof (props : list (string * value)) : list (string * value) :=
  List.filter (fun p => negb (is_spoof (fst p))) props.

Definition strip_entry (a : value) : value :=
  match a with
  | VObj props => VObj (drop_spoof props)
  | _ => a
  end.

Definition strip_value (v : value) : value :=
  match v with
  | VArr l => VArr (map strip_entry l)
  | _ => v
  end.

Definition strip_answers (p : string * value) : string * value :=
  match p with
  | (k, VArr l) => if String.eqb k "answers" then (k, VArr (map strip_entry l)) else p
  | _ => p
  end.

Definition strip_request (body : value) : value :=
  match body with
  | VObj props => VObj (map strip_answers (drop_spoof props))
  | _ => body
  end.

(** ** Numbers *)

#[local] Instance number_eq_dec : EqDecision number.
Proof. solve_decision. Defined.

(** The score of every result a test of fewer than [bound] questions can
    have agrees with the rational formula. *)
Definition score_agrees (c n : nat) : bool :=
  bool_decide (score_of c n = Number.of_Z (spec_score c n)).

Definition scores_agree_below (bound : nat) : bool :=
  forallb (fun n => forallb (fun c => score_agrees c n) (seq 0 (S n))) (seq 0 bound).

Lemma scores_agree_below_40 : scores_agree_below 40 = true.
Proof. vm_compute. reflexivity. Qed.

Lemma score_of_exact (c n : nat) :
  (c <= n)%nat -> (n < 40)%nat -> score_of c n = Number.of_Z (spec_score c n).
Proof.
  intros Hc Hn.
  pose proof scores_agree_below_40 as H.
  unfold scores_agree_below in H.
  rewrite forallb_forall in H.
  specialize (H n).
  rewrite forallb_forall in H.
  assert (Hin : In c (seq 0 (S n))) by (apply in_seq; lia).
  assert (Hn' : In n (seq 0 40)) by (apply in_seq; lia).
  specialize (H Hn' c Hin).
  unfold score_agrees in H.
  apply bool_decide_eq_true in H. exact H.
Qed.


(** ** Grading: what a successful submit did *)

Lemma grade_inv (test : Test.t) (answers : value) (resultAnswers : list Answer.t)
    (score : number) :
  grade test answers = Some (resultAnswers, score) ->
  exists answersMap,
    answersMap_of answers = Some answersMap
    /\ Forall2 (fun q r => grade_question answersMap q = Some r)
         (Test.questions test) resultAnswers
    /\ score = score_of (length (List.filter Answer.correct resultAnswers))
                 (length (Test.questions test)).
Proof.
  unfold grade. intros H.
  destruct (answersMap_of answers) as [m|] eqn:Hm; simpl in H; [|discriminate].
  destruct (mapM (grade_question m) (Test.questions test)) as [ra|] eqn:Hra;
    simpl in H; [|discriminate].
  injection H as <- <-.
  exists m. split; [reflexivity|]. split; [|reflexivity].
  apply mapM_Some_1. exact Hra.
Qed.

Lemma submit_Json_inv (env : Env) (data data' : document) (id : string)
    (body : value) (st : nat) (sub : Submission.t) (sc : number) :
  submit env data id body = (Json st (sub, sc), data') ->
  exists test,
    find_test id data = Some test
    /\ grade test (request_answers body) = Some (Submission.answers sub, sc)
    /\ Submission.score sub = sc
    /\ data' = push_result id sub data.
Proof.
  unfold submit. intros H.
  destruct (find_test id data) as [test|] eqn:Hfind; [|discriminate].
  exists test. split; [reflexivity|].
  destruct (grade test (request_answers body)) as [[ra score]|] eqn:Hg;
    simpl in H; [|discriminate].
  injection H as _ <- <- <-. simpl. auto.
Qed.

Lemma grade_question_fields (answersMap : object) (q : Question.t) (r : Answer.t) :
  grade_question answersMap q = Some r ->
  Answer.qId r = Question.id q
  /\ Answer.prompt r = Question.prompt q
  /\ Answer.correct r = Number.strict_eq (Answer.selectedIndex r) (Answer.correctIndex r)
  /\ Answer.correctIndex r = correctIndex_of q
  /\ exists k, ToString (Question.id q) = Some k
            /\ Answer.selectedIndex r = selected_of (get_prop answersMap k).
Proof.
  unfold grade_question. intros H.
  destruct (ToString (Question.id q)) as [k|]; simpl in H; [|discriminate].
  injection H as <-. simpl. repeat split; eauto.
Qed.

(** C1, in the form the code satisfies.  The score of a graded submission is
    [Math.round((correctCount / Math.max(1, questionCount)) * 100)] in
    binary64 arithmetic, the quotient being rounded before it is scaled.
    For a test of fewer than 40 questions this is
    [round(100 * countCorrect / max(1, questionCount))], a tie going up;
    for a test without questions it is 0, and nothing is divided by 0. *)
Theorem C1_score_formula (env : Env) (data data' : document) (id : string)
    (body : value) (st : nat) (sub : Submission.t) (sc : number) :
  submit env data id body = (Json st (sub, sc), data') ->
  exists test,
    find_test id data = Some test /\
    let countCorrect := length (List.filter Answer.correct (Submission.answers sub)) in
    let questionCount := length (Test.questions test) in
    Submission.score sub = score_of countCorrect questionCount
    /\ ((questionCount < 40)%nat ->
        Submission.score sub = Number.of_Z (spec_score countCorrect questionCount))
    /\ (questionCount = 0%nat -> Submission.score sub = Number.of_Z 0).
Proof.
  intros H.
  destruct (submit_Json_inv _ _ _ _ _ _ _ _ H) as (test & Hfind & Hg & Hsc & _).
  exists test. split; [exact Hfind|].
  destruct (grade_inv _ _ _ _ Hg) as (m & _ & Hall & ->).
  pose proof (Forall2_length _ _ _ Hall) as Hlen.
  pose proof (filter_length_le Answer.correct (Submission.answers sub)) as Hle.
  cbv zeta. rewrite Hsc. split; [reflexivity|]. split.
  - intros Hn. apply score_of_exact; lia.
  - intros Hn. rewrite Hn in *.
    replace (length (List.filter Answer.correct (Submission.answers sub))) with 0%nat by lia.
    reflexivity.
Qed.

(** C2.  The answers of a created Submission follow the questions of the
    Test one for one and in order: both sequences have the same length and
    the i-th answer carries the id of the i-th question. *)
Theorem C2_answer_order (env : Env) (data data' : document) (id : string)
    (body : value) (st : nat) (sub : Submission.t) (sc : number) :
  submit env data id body = (Json st (sub, sc), data') ->
  exists test,
    find_test id data = Some test
    /\ length (Submission.answers sub) = length (Test.questions test)
    /\ forall (i : nat) (a : Answer.t) (q : Question.t),
         Submission.answers sub !! i = Some a ->
         Test.questions test !! i = Some q ->
         Answer.qId a = Question.id q.
Proof.
  intros H.
  destruct (submit_Json_inv _ _ _ _ _ _ _ _ H) as (test & Hfind & Hg & _ & _).
  exists test. split; [exact Hfind|].
  destruct (grade_inv _ _ _ _ Hg) as (m & _ & Hall & _).
  split.
  - symmetry. eapply Forall2_length. exact Hall.
  - intros i a q Ha Hq.
    destruct (Forall2_lookup_l _ _ _ _ _ Hall Hq) as (a' & Ha' & Hgq).
    rewrite Ha in Ha'. injection Ha' as <-.
    apply grade_question_fields in Hgq. destruct Hgq as [Hid _]. exact Hid.
Qed.

(** ** The answers map when no entry is filed under [__proto__] *)

Lemma SFeqb_finite (s : bool) (m : positive) (e : Z) (n : number) :
  SFeqb (S754_finite s m e) n = true -> n = S754_finite s m e.
Proof.
  unfold SFeqb, SFcompare.
  destruct n as [s'|s'| |s' m' e'].
  - destruct s; discriminate.
  - destruct s, s'; discriminate.
  - discriminate.
  - change (Pos.compare_cont Eq m m') with (Pos.compare m m').
    destruct s, s'; try discriminate;
      destruct (Z.compare e e') eqn:He; try discriminate;
      destruct (Pos.compare m m') eqn:Hm; try discriminate;
      apply Z.compare_eq in He; apply Pos.compare_eq in Hm; subst; reflexivity.
Qed.

Lemma strict_eq_minus_one (n : number) :
  Number.strict_eq Number.minus_one n = true <-> n = Number.minus_one.
Proof.
  split; [|intros ->; reflexivity].
  apply SFeqb_finite.
Qed.

Lemma record_answer_inv (acc acc' : object) (a : value) :
  record_answer acc a = Some acc' ->
  exists k v, entry_key a = Some k /\ get a "selectedIndex" = Some v
              /\ acc' = set_prop acc k v.
Proof.
  unfold record_answer, entry_key. intros H.
  destruct (get a "qId") as [qId|]; simpl in *; [|discriminate].
  destruct (get a "selectedIndex") as [v|]; simpl in *; [|discriminate].
  destruct (ToString qId) as [k|]; simpl in *; [|discriminate].
  injection H as <-. eauto.
Qed.

Lemma set_prop_plain (acc : object) (k : string) (v : value) :
  proto acc = ObjectPrototype -> k <> "__proto__" ->
  set_prop acc k v = define_own acc k v.
Proof.
  intros Hp Hk. unfold set_prop, set_inherited. rewrite Hp.
  destruct (own acc !! k); [reflexivity|].
  destruct (String.eqb_spec k "__proto__"); [contradiction|reflexivity].
Qed.

Lemma reduce_plain (l : list value) (acc acc' : object) :
  reduce l acc = Some acc' ->
  proto acc = ObjectPrototype ->
  Forall (fun a => entry_key a <> Some "__proto__") l ->
  proto acc' = ObjectPrototype
  /\ forall k, Forall (fun a => entry_key a <> Some k) l ->
               own acc' !! k = own acc !! k.
Proof.
  revert acc. induction l as [|a l IH]; intros acc H Hp Hall; simpl in H.
  - injection H as <-. auto.
  - destruct (record_answer acc a) as [acc1|] eqn:Ha; simpl in H; [|discriminate].
    destruct (record_answer_inv _ _ _ Ha) as (k & v & Hk & _ & ->).
    inversion Hall as [|? ? Hna Hall']; subst.
    assert (Hne : k <> "__proto__") by congruence.
    rewrite set_prop_plain in H by assumption.
    destruct (IH _ H Hp Hall') as [Hp' Hown].
    split; [exact Hp'|].
    intros k' Hk'. inversion Hk' as [|? ? Hk1 Hk2]; subst.
    rewrite (Hown k' Hk2). simpl.
    apply lookup_insert_ne. congruence.
Qed.

Lemma answersMap_of_entries (answers : value) (m : object) :
  answersMap_of answers = Some m -> reduce (entries answers) empty_object = Some m.
Proof.
  unfold answersMap_of, entries.
  destruct (js_or answers (VArr [])); try discriminate. auto.
Qed.

(** C3, in the form the code satisfies.  In a request none of whose entries
    is filed under [__proto__], a question whose id has no entry is recorded
    with [selectedIndex] -1; its [correct] flag is false unless the stored
    [correctIndex] is itself -1, and true in that case. *)
Theorem C3_no_selection (env : Env) (data data' : document) (id : string)
    (body : value) (st : nat) (sub : Submission.t) (sc : number) :
  submit env data id body = (Json st (sub, sc), data') ->
  Forall (fun e => entry_key e <> Some "__proto__") (entries (request_answers body)) ->
  exists test,
    find_test id data = Some test
    /\ forall (i : nat) (q : Question.t) (a : Answer.t) (k : string),
         Test.questions test !! i = Some q ->
         Submission.answers sub !! i = Some a ->
         ToString (Question.id q) = Some k ->
         Forall (fun e => entry_key e <> Some k) (entries (request_answers body)) ->
         Answer.selectedIndex a = Number.of_Z (-1)
         /\ (Answer.correct a = true <->
             Question.correctIndex q = VNum (Number.of_Z (-1))).
Proof.
  intros H Hproto.
  destruct (submit_Json_inv _ _ _ _ _ _ _ _ H) as (test & Hfind & Hg & _ & _).
  exists test. split; [exact Hfind|].
  destruct (grade_inv _ _ _ _ Hg) as (m & Hm & Hall & _).
  apply answersMap_of_entries in Hm.
  destruct (reduce_plain _ _ _ Hm eq_refl Hproto) as [Hp Hown].
  intros i q a k Hq Ha Hk Hnone.
  destruct (Forall2_lookup_l _ _ _ _ _ Hall Hq) as (a' & Ha' & Hgq).
  rewrite Ha in Ha'. injection Ha' as <-.
  destruct (grade_question_fields _ _ _ Hgq) as (_ & _ & Hc & Hci & k' & Hk' & Hsel).
  rewrite Hk in Hk'. injection Hk' as <-.
  assert (Hget : get_prop m k = None).
  { unfold get_prop. rewrite (Hown k Hnone), Hp. reflexivity. }
  rewrite Hget in Hsel. simpl in Hsel.
  split; [exact Hsel|].
  rewrite Hc, Hsel, Hci.
  change (Number.of_Z (-1)) with Number.minus_one.
  rewrite strict_eq_minus_one. unfold correctIndex_of.
  destruct (Question.correctIndex q); split; intros E;
    try discriminate; try congruence.
Qed.

(** ** Grading reads two fields of an entry and the questions of the test *)

Lemma own_prop_drop_spoof (name : string) (props : list (string * value)) :
  is_spoof name = false -> own_prop name (drop_spoof props) = own_prop name props.
Proof.
  intros Hn. induction props as [|[k v] props IH]; simpl; [reflexivity|].
  destruct (is_spoof k) eqn:Hk; simpl.
  - destruct (String.eqb_spec k name) as [->|_]; [congruence|exact IH].
  - destruct (String.eqb k name); [reflexivity|exact IH].
Qed.

Lemma get_strip_entry (a : value) (name : string) :
  is_spoof name = false -> get (strip_entry a) name = get a name.
Proof.
  intros Hn. destruct a; simpl; try reflexivity.
  rewrite own_prop_drop_spoof by exact Hn. reflexivity.
Qed.

Lemma record_answer_strip (acc : object) (a : value) :
  record_answer acc (strip_entry a) = record_answer acc a.
Proof.
  unfold record_answer. rewrite !get_strip_entry by reflexivity. reflexivity.
Qed.

Lemma reduce_strip (l : list value) (acc : object) :
  reduce (map strip_entry l) acc = reduce l acc.
Proof.
  revert acc. induction l as [|a l IH]; intros acc; simpl; [reflexivity|].
  rewrite record_answer_strip.
  destruct (record_answer acc a); simpl; [apply IH|reflexivity].
Qed.

Lemma strip_answers_eq (k : string) (v : value) :
  strip_answers (k, v) = (k, if String.eqb k "answers" then strip_value v else v).
Proof.
  unfold strip_answers, strip_value.
  destruct v; destruct (String.eqb k "answers"); reflexivity.
Qed.

Lemma own_prop_strip_answers (name : string) (props : list (string * value)) :
  own_prop name (map strip_answers props) =
  if String.eqb name "answers" then strip_value <$> own_prop name props
  else own_prop name props.
Proof.
  induction props as [|[k v] props IH].
  - simpl. destruct (String.eqb name "answers"); reflexivity.
  - rewrite map_cons, strip_answers_eq. cbn [own_prop].
    destruct (String.eqb_spec k name) as [->|Hne]; [|exact IH].
    destruct (String.eqb name "answers"); reflexivity.
Qed.

Lemma request_answers_strip (body : value) :
  request_answers (strip_request body) = strip_value (request_answers body).
Proof.
  unfold request_answers.
  destruct body as [| |b|n|s|l|props]; try reflexivity.
  - destruct b; reflexivity.
  - unfold js_or; simpl. destruct (Number.truthy n); reflexivity.
  - unfold js_or; simpl. destruct (negb (String.eqb s "")); reflexivity.
  - unfold js_or, get_opt; simpl.
    rewrite own_prop_strip_answers. simpl.
    rewrite own_prop_drop_spoof by reflexivity.
    destruct (own_prop "answers" props) as [v|]; simpl; [|reflexivity].
    destruct v; reflexivity.
Qed.

Lemma request_userId_strip (body : value) :
  request_userId (strip_request body) = request_userId body.
Proof.
  unfold request_userId.
  destruct body as [| |b|n|s|l|props]; try reflexivity.
  unfold js_or, get_opt; simpl.
  rewrite own_prop_strip_answers. simpl.
  rewrite own_prop_drop_spoof by reflexivity. reflexivity.
Qed.

Lemma answersMap_of_strip (answers : value) :
  answersMap_of (strip_value answers) = answersMap_of answers.
Proof.
  destruct answers; try reflexivity.
  unfold answersMap_of, js_or; simpl. apply reduce_strip.
Qed.

Lemma submit_strip (env : Env) (data : document) (id : string) (body : value) :
  submit env data id (strip_request body) = submit env data id body.
Proof.
  unfold submit, grade.
  rewrite request_answers_strip, request_userId_strip, answersMap_of_strip.
  reflexivity.
Qed.

Lemma submit_determined (env1 env2 : Env) (d1 d2 d1' : document) (id : string)
    (body : value) (t1 t2 : Test.t) (st : nat) (s1 : Submission.t) (sc : number) :
  find_test id d1 = Some t1 -> find_test id d2 = Some t2 ->
  Test.questions t1 = Test.questions t2 ->
  submit env1 d1 id body = (Json st (s1, sc), d1') ->
  exists s2 d2',
    submit env2 d2 id body = (Json 200 (s2, sc), d2')
    /\ Submission.answers s2 = Submission.answers s1
    /\ Submission.score s2 = Submission.score s1.
Proof.
  intros H1 H2 Hq H.
  destruct (submit_Json_inv _ _ _ _ _ _ _ _ H) as (t & Hfind & Hg & Hsc & _).
  rewrite H1 in Hfind. injection Hfind as <-.
  unfold submit. rewrite H2.
  assert (Hg2 : grade t2 (request_answers body) = Some (Submission.answers s1, sc)).
  { unfold grade in *. rewrite <- Hq. exact Hg. }
  rewrite Hg2. simpl. eexists _, _. split; [reflexivity|]. simpl. auto.
Qed.

Lemma find_push_result (id : string) (sub : Submission.t) (data : document) (t : Test.t) :
  find_test id data = Some t ->
  exists t', find_test id (push_result id sub data) = Some t'
             /\ Test.questions t' = Test.questions t
             /\ Test.results t' = (Test.results t ++ [sub])%list.
Proof.
  unfold find_test. induction data as [|x data IH]; simpl; [discriminate|].
  destruct (String.eqb (Test.id x) id) eqn:Hx; simpl.
  - intros [= <-]. rewrite Hx. eexists. split; [reflexivity|]. simpl. auto.
  - rewrite Hx. exact IH.
Qed.

Lemma flags_recomputed (answersMap : object) (qs : list Question.t) (rs : list Answer.t) :
  Forall2 (fun q r => grade_question answersMap q = Some r) qs rs ->
  Forall2 (fun q r => Answer.correct r =
                      Number.strict_eq (Answer.selectedIndex r) (correctIndex_of q)) qs rs.
Proof.
  induction 1 as [|q r qs rs Hq _ IH]; constructor; [|exact IH].
  destruct (grade_question_fields _ _ _ Hq) as (_ & _ & Hc & Hci & _).
  rewrite Hc, Hci. reflexivity.
Qed.

(** C8.  Two submit requests that differ only in [correct] and [score]
    fields, in the body or in the entries of [answers], are graded alike:
    the second yields the same score and the same per-question flags as the
    first, and every flag is the comparison of the selected index with the
    [correctIndex] the test stores. *)
Theorem C8_score_not_spoofable (env1 env2 : Env) (data d1 : document) (id : string)
    (b1 b2 : value) (st : nat) (sub1 : Submission.t) (sc1 : number) :
  strip_request b1 = strip_request b2 ->
  submit env1 data id b1 = (Json st (sub1, sc1), d1) ->
  exists sub2 d2 test,
    submit env2 data id b2 = (Json 200 (sub2, sc1), d2)
    /\ Submission.score sub2 = Submission.score sub1
    /\ map Answer.correct (Submission.answers sub2)
       = map Answer.correct (Submission.answers sub1)
    /\ find_test id data = Some test
    /\ Forall2 (fun q a => Answer.correct a =
                   Number.strict_eq (Answer.selectedIndex a) (correctIndex_of q))
         (Test.questions test) (Submission.answers sub2).
Proof.
  intros Hstrip H.
  destruct (submit_Json_inv _ _ _ _ _ _ _ _ H) as (test & Hfind & Hg & _ & _).
  rewrite <- submit_strip, Hstrip, submit_strip in H.
  destruct (submit_determined env1 env2 _ _ _ _ _ _ _ _ _ _ Hfind Hfind eq_refl H)
    as (sub2 & d2 & H2 & Ha & Hs).
  exists sub2, d2, test. repeat split; try assumption.
  - rewrite Ha. reflexivity.
  - rewrite Ha. destruct (grade_inv _ _ _ _ Hg) as (m & _ & Hall & _).
    apply (flags_recomputed m). exact Hall.
Qed.

(** C9.  Grading the same answers a second time, against the document the
    first submission left, succeeds with the same score and the same
    per-question flags. *)
Theorem C9_idempotent_grading (env1 env2 : Env) (data data1 : document) (id : string)
    (body : value) (st : nat) (sub1 : Submission.t) (sc1 : number) :
  submit env1 data id body = (Json st (sub1, sc1), data1) ->
  exists sub2 data2,
    submit env2 data1 id body = (Json 200 (sub2, sc1), data2)
    /\ Submission.score sub2 = Submission.score sub1
    /\ map Answer.correct (Submission.answers sub2)
       = map Answer.correct (Submission.answers sub1).
Proof.
  intros H.
  destruct (submit_Json_inv _ _ _ _ _ _ _ _ H) as (test & Hfind & _ & _ & ->).
  destruct (find_push_result id sub1 data test Hfind) as (t' & Hfind' & Hq & _).
  destruct (submit_determined env1 env2 _ _ _ _ _ _ _ _ _ _ Hfind Hfind' (eq_sym Hq) H)
    as (sub2 & d2 & H2 & Ha & Hs).
  exists sub2, d2. repeat split; [exact H2|exact Hs|].
  rewrite Ha. reflexivity.
Qed.

(** ** The text handed to [JSON.parse] *)

Lemma lastIndexOf_ge (c : ascii) (t : string) : -1 <= lastIndexOf c t.
Proof.
  induction t as [|a rest IH]; simpl; [lia|].
  destruct (Z.leb_spec 0 (lastIndexOf c rest)); [lia|].
  destruct (Ascii.eqb a c); lia.
Qed.

Lemma last_close_cons (a : ascii) (rest : string) :
  Z.max (lastIndexOf "}" (String a rest)) (lastIndexOf "]" (String a rest)) =
  let k := Z.max (lastIndexOf "}" rest) (lastIndexOf "]" rest) in
  if 0 <=? k then k + 1 else if is_close a then 0 else -1.
Proof.
  pose proof (lastIndexOf_ge "}" rest). pose proof (lastIndexOf_ge "]" rest).
  cbn [lastIndexOf]. cbv zeta. unfold is_close.
  destruct (Z.leb_spec 0 (lastIndexOf "}" rest));
    destruct (Z.leb_spec 0 (lastIndexOf "]" rest));
    destruct (Z.leb_spec 0 (Z.max (lastIndexOf "}" rest) (lastIndexOf "]" rest)));
    destruct (Ascii.eqb a "}"); destruct (Ascii.eqb a "]"); simpl; lia.
Qed.

Lemma search_open_split (t : string) :
  (search_open t < 0 /\ any is_open t = false)
  \/ (0 <= search_open t
      /\ exists pre, t = pre +:+ slice_from (search_open t) t
                     /\ any is_open pre = false
                     /\ starts_with is_open (slice_from (search_open t) t) = true).
Proof.
  induction t as [|c rest IH]; simpl; [left; split; [lia|reflexivity]|].
  destruct (is_open c) eqn:Hc; simpl.
  - right. split; [lia|]. exists "". auto.
  - destruct IH as [[Hk Hany]|(Hk & pre & Hsplit & Hpre & Hstart)].
    + left. destruct (Z.ltb_spec (search_open rest) 0); [split; [lia|exact Hany]|lia].
    + right. destruct (Z.ltb_spec (search_open rest) 0); [lia|].
      split; [lia|]. exists (String c pre).
      unfold slice_from in *.
      rewrite Z2Nat.inj_add by lia. rewrite Nat.add_1_r. simpl.
      rewrite Hc. simpl. split; [|auto].
      change (String c rest
              = String c (pre +:+ drop (Z.to_nat (search_open rest)) rest)).
      f_equal. exact Hsplit.
Qed.

Lemma ends_with_cons (p : ascii -> bool) (a : ascii) (s : string) :
  ends_with p s = true -> ends_with p (String a s) = true.
Proof. destruct s; [discriminate|auto]. Qed.

Lemma last_close_split (t : string) :
  let k := Z.max (lastIndexOf "}" t) (lastIndexOf "]" t) in
  (k < 0 /\ any is_close t = false)
  \/ (0 <= k
      /\ exists post, t = slice_to (k + 1) t +:+ post
                      /\ any is_close post = false
                      /\ ends_with is_close (slice_to (k + 1) t) = true).
Proof.
  induction t as [|a rest IH]; [left; split; [reflexivity|reflexivity]|].
  cbv zeta in *. rewrite last_close_cons. cbv zeta.
  set (k := Z.max (lastIndexOf "}" rest) (lastIndexOf "]" rest)) in *.
  destruct IH as [[Hk Hany]|(Hk & post & Hsplit & Hpost & Hend)].
  - destruct (Z.leb_spec 0 k); [lia|].
    destruct (is_close a) eqn:Ha.
    + right. split; [lia|]. exists rest. simpl. rewrite Ha.
      destruct rest; auto.
    + left. simpl. rewrite Ha. split; [lia|exact Hany].
  - destruct (Z.leb_spec 0 k); [|lia].
    right. split; [lia|]. exists post.
    unfold slice_to in *.
    replace (Z.to_nat (k + 1 + 1)) with (S (Z.to_nat (k + 1))) by lia.
    cbn [take].
    split; [|split; [exact Hpost|]].
    { change (String a rest = String a (take (Z.to_nat (k + 1)) rest +:+ post)).
      f_equal. exact Hsplit. }
    apply ends_with_cons. exact Hend.
Qed.

Lemma any_app (p : ascii -> bool) (s1 s2 : string) :
  any p (s1 +:+ s2) = any p s1 || any p s2.
Proof.
  induction s1 as [|c s1 IH]; simpl; [reflexivity|].
  rewrite IH. apply orb_assoc.
Qed.

Lemma starts_with_any (p : ascii -> bool) (s : string) :
  starts_with p s = true -> any p s = true.
Proof. destruct s; simpl; [discriminate|]. intros ->. reflexivity. Qed.

Lemma ends_with_any (p : ascii -> bool) (s : string) :
  ends_with p s = true -> any p s = true.
Proof.
  induction s as [|c s IH]; simpl; [discriminate|].
  destruct s; [intros ->; reflexivity|].
  intros H. rewrite (IH H). apply orb_true_r.
Qed.

Lemma starts_with_prefix (p : ascii -> bool) (c post : string) :
  c <> "" -> starts_with p (c +:+ post) = starts_with p c.
Proof. destruct c; [contradiction|reflexivity]. Qed.

(** The candidate is the part of the stripped text that runs from the
    first opening brace or bracket, when there is one, through the last
    closing brace or bracket behind it, when there is one. *)
Lemma json_candidate_shape (s : string) :
  exists pre post,
    stripped s = pre +:+ json_candidate s +:+ post
    /\ any is_open pre = false
    /\ any is_close post = false
    /\ (if any is_open (stripped s)
        then starts_with is_open (json_candidate s) = true
        else pre = "")
    /\ (if any is_close (json_candidate s)
        then ends_with is_close (json_candidate s) = true
        else post = "").
Proof.
  unfold json_candidate. set (t0 := stripped s). cbv zeta.
  assert (Hnil : forall u, u +:+ "" = u).
  { induction u as [|a u IH]; [reflexivity|].
    change (String a (u +:+ "") = String a u). f_equal. exact IH. }
  destruct (search_open_split t0) as [[Hk Hany]|(Hk & pre & Hsplit & Hpre & Hstart)].
  - destruct (Z.leb_spec 0 (search_open t0)); [lia|].
    exists "". rewrite Hany.
    destruct (last_close_split t0) as [[Hl Hc]|(Hl & post & Hs & Hpost & Hend)];
      cbv zeta in *.
    + destruct (Z.leb_spec 0 (Z.max (lastIndexOf "}" t0) (lastIndexOf "]" t0))); [lia|].
      exists "". rewrite Hc. simpl. rewrite Hnil. auto.
    + destruct (Z.leb_spec 0 (Z.max (lastIndexOf "}" t0) (lastIndexOf "]" t0))); [|lia].
      exists post. rewrite (ends_with_any _ _ Hend). simpl. auto.
  - destruct (Z.leb_spec 0 (search_open t0)); [|lia].
    set (t1 := slice_from (search_open t0) t0) in *.
    assert (Hopen : any is_open t0 = true).
    { rewrite Hsplit, any_app, (starts_with_any _ _ Hstart). apply orb_true_r. }
    exists pre. rewrite Hopen.
    destruct (last_close_split t1) as [[Hl Hc]|(Hl & post & Hs & Hpost & Hend)];
      cbv zeta in *.
    + destruct (Z.leb_spec 0 (Z.max (lastIndexOf "}" t1) (lastIndexOf "]" t1))); [lia|].
      exists "". rewrite Hc, Hnil. auto.
    + destruct (Z.leb_spec 0 (Z.max (lastIndexOf "}" t1) (lastIndexOf "]" t1))); [|lia].
      exists post. rewrite (ends_with_any _ _ Hend).
      set (c := slice_to (Z.max (lastIndexOf "}" t1) (lastIndexOf "]" t1) + 1) t1) in *.
      repeat split; try assumption.
      * rewrite <- Hs. exact Hsplit.
      * rewrite Hs in Hstart. rewrite starts_with_prefix in Hstart; [exact Hstart|].
        intros E. rewrite E in Hend. discriminate.
Qed.

(** ** A reply that does not parse *)

Lemma safelyParse_failure (text : value) :
  (forall s, ToString text = Some s -> JSON_parse (json_candidate s) = None) ->
  safelyParseJsonFromText text = Some VNull \/ safelyParseJsonFromText text = None.
Proof.
  intros Hparse. unfold safelyParseJsonFromText.
  destruct (truthy text); simpl; [|left; reflexivity].
  destruct (ToString text) as [s|] eqn:Hs; simpl; [|right; reflexivity].
  rewrite (Hparse s eq_refl). left. reflexivity.
Qed.

Lemma create_parse_failure (modelResp : value) (env : Env) (data : document)
    (body : value) :
  (forall p n, callGeminiGenerate p n = Some modelResp) ->
  (forall s, ToString (create_rawOut modelResp) = Some s ->
             JSON_parse (json_candidate s) = None) ->
  create env data body = (Error 400 "name and text required", data)
  \/ create env data body = (Error 500 "Could not create test", data)
  \/ create env data body = (Error 500 "Invalid JSON output from model", data).
Proof.
  intros Hgen Hparse. unfold create.
  destruct (negb _ || negb _); [left; reflexivity|right].
  destruct (ToString (request_requested body)) as [r|]; simpl; [|left; reflexivity].
  destruct (ToString (request_text body)) as [t|]; simpl; [|left; reflexivity].
  rewrite Hgen.
  destruct (safelyParse_failure _ Hparse) as [-> | ->]; simpl; auto.
Qed.

Lemma justify_parse_failure (modelResp : value) (data : document) (id : string)
    (body : value) :
  (forall p n, callGeminiGenerate p n = Some modelResp) ->
  (forall s, ToString (justify_raw modelResp) = Some s ->
             JSON_parse (json_candidate s) = None) ->
  justify data id body = Error 400 "qIds required"
  \/ justify data id body = Error 404 "Test not found"
  \/ justify data id body = Error 500 "Could not produce justifications"
  \/ justify data id body = Error 500 "Invalid JSON from justification model".
Proof.
  intros Hgen Hparse. unfold justify.
  destruct (request_qIds body) as [| | | | |[|x l]|]; auto.
  destruct (find_test id data) as [test|]; auto.
  do 2 right.
  destruct (justify_prompt _ _) as [p|]; simpl; [|left; reflexivity].
  rewrite Hgen.
  destruct (safelyParse_failure _ Hparse) as [-> | ->]; simpl; auto.
Qed.


(** ** Creating a test *)

Lemma get_non_null (q : value) (name : string) :
  non_null q -> get q name = Some (get_opt q name).
Proof.
  intros [H1 H2]. unfold get_opt. destruct q; try reflexivity; contradiction.
Qed.

Lemma normalize_non_null (env : Env) (q : value) (i : nat) :
  non_null q ->
  normalize env q i =
  Some (Question.mk
          (js_or (get_opt q "id") (VStr ("q_" +:+ now36 env i +:+ "_" +:+ pretty i)))
          (js_or (get_opt q "prompt") (js_or (get_opt q "question") (VStr "")))
          (js_or (get_opt q "choices") (js_or (get_opt q "options") (VArr [])))
          (if String.eqb (typeof (get_opt q "correctIndex")) "number"
           then get_opt q "correctIndex" else VNum Number.zero)).
Proof.
  intros H. unfold normalize. rewrite !get_non_null by exact H. reflexivity.
Qed.

Lemma normalize_from_length (env : Env) (items : list value) (i : nat)
    (qs : list Question.t) :
  normalize_from env i items = Some qs -> length qs = length items.
Proof.
  revert i qs. induction items as [|q items IH]; intros i qs H; simpl in H.
  - injection H as <-. reflexivity.
  - destruct (normalize env q i); simpl in H; [|discriminate].
    destruct (normalize_from env (S i) items) eqn:Hrest; simpl in H; [|discriminate].
    injection H as <-. simpl. f_equal. eapply IH. exact Hrest.
Qed.

Lemma normalize_from_lookup (env : Env) (items : list value) (i : nat) :
  Forall non_null items ->
  exists qs, normalize_from env i items = Some qs
             /\ forall j q, items !! j = Some q ->
                  exists nq, qs !! j = Some nq /\ normalize env q (i + j) = Some nq.
Proof.
  revert i. induction items as [|q items IH]; intros i Hall.
  - exists []. split; [reflexivity|]. intros j q H. destruct j; discriminate.
  - inversion Hall as [|? ? Hq Hrest]; subst.
    destruct (IH (S i) Hrest) as (qs & Hqs & Hlook).
    simpl. rewrite (normalize_non_null env q i Hq). simpl. rewrite Hqs. simpl.
    eexists. split; [reflexivity|].
    intros [|j] q' Hj; simpl in Hj.
    + injection Hj as <-. eexists. split; [reflexivity|].
      rewrite Nat.add_0_r. apply normalize_non_null. exact Hq.
    + destruct (Hlook j q' Hj) as (nq & Hnq & Hn).
      exists nq. split; [exact Hnq|].
      replace (i + S j)%nat with (S i + j)%nat by lia. exact Hn.
Qed.



(** ** Justifications *)

Lemma includes_without (l1 l2 : list value) (stale x : value) :
  same_value_zero stale x = false ->
  includes (l1 ++ stale :: l2) x = includes (l1 ++ l2) x.
Proof.
  intros H. unfold includes. rewrite !existsb_app. simpl. rewrite H. reflexivity.
Qed.

Lemma selected_questions_without (l1 l2 : list value) (stale : value) (test : Test.t) :
  Forall (fun q => same_value_zero stale (Question.id q) = false) (Test.questions test) ->
  selected_questions (l1 ++ stale :: l2) test = selected_questions (l1 ++ l2) test.
Proof.
  unfold selected_questions.
  induction (Test.questions test) as [|q qs IH]; intros Hall; [reflexivity|].
  inversion Hall as [|? ? Hq Hrest]; subst. simpl.
  rewrite (includes_without _ _ _ _ Hq), (IH Hrest). reflexivity.
Qed.

(** C7, in the form the code satisfies.  A qId that matches no question of
    the Test is dropped without an error: the request is answered as the
    request without that qId is.  The justifications returned are the array
    the collaborator's parsed reply carries, whatever qIds it names. *)
Theorem C7_stale_qIds_dropped (data : document) (id : string) :
  (forall body1 body2 l1 l2 stale test,
      find_test id data = Some test ->
      Forall (fun q => same_value_zero stale (Question.id q) = false)
        (Test.questions test) ->
      request_qIds body1 = VArr (l1 ++ stale :: l2) ->
      request_qIds body2 = VArr (l1 ++ l2) ->
      (l1 ++ l2)%list <> [] ->
      request_contextNotes body1 = request_contextNotes body2 ->
      justify data id body1 = justify data id body2)
  /\ (forall body st justifications,
        justify data id body = Json st justifications ->
        exists prompt modelResp parsed,
          callGeminiGenerate prompt 800 = Some modelResp
          /\ safelyParseJsonFromText (justify_raw modelResp) = Some parsed
          /\ get_opt parsed "justifications" = justifications).
Proof.
  split.
  - intros body1 body2 l1 l2 stale test Hfind Hstale H1 H2 Hne Hnotes.
    unfold justify. rewrite H1, H2, Hfind, Hnotes.
    destruct (l1 ++ stale :: l2)%list as [|x l] eqn:E1; [destruct l1; discriminate|].
    destruct (l1 ++ l2)%list as [|y k] eqn:E2; [contradiction|].
    rewrite <- E1, <- E2.
    rewrite (selected_questions_without l1 l2 stale test Hstale). reflexivity.
  - intros body st j H. unfold justify in H.
    destruct (request_qIds body) as [| | | | |[|x l]|]; try discriminate.
    destruct (find_test id data) as [test|]; [|discriminate].
    destruct (justify_prompt _ _) as [p|]; simpl in H; [|discriminate].
    destruct (callGeminiGenerate p 800) as [modelResp|] eqn:Hgen; simpl in H;
      [|discriminate].
    destruct (safelyParseJsonFromText (justify_raw modelResp)) as [parsed|] eqn:Hp;
      simpl in H; [|discriminate].
    destruct (truthy parsed); [|discriminate].
    destruct (get_opt parsed "justifications") as [| | | | |items|] eqn:Hq;
      try discriminate.
    injection H as <- <-.
    exists p, modelResp, parsed. auto.
Qed.

(** ** Entries that share a qId

    As long as no entry is filed under [__proto__] the fold is a map with
    overwrite: an entry that a later entry of the same key follows leaves
    no trace, and the value read for a key is the [selectedIndex] of the
    last entry filed under it. *)

Lemma record_answer_eq (acc : object) (a : value) :
  record_answer acc a =
  match entry_key a, get a "selectedIndex" with
  | Some k, Some v => Some (set_prop acc k v)
  | _, _ => None
  end.
Proof.
  unfold record_answer, entry_key.
  destruct (get a "qId") as [qId|]; simpl; [|reflexivity].
  destruct (get a "selectedIndex") as [v|]; simpl.
  - destruct (ToString qId); reflexivity.
  - destruct (ToString qId); reflexivity.
Qed.

Lemma reduce_app (l1 l2 : list value) (acc : object) :
  reduce (l1 ++ l2) acc = (acc1 ← reduce l1 acc; reduce l2 acc1).
Proof.
  revert acc. induction l1 as [|a l1 IH]; intros acc; simpl; [reflexivity|].
  destruct (record_answer acc a); simpl; [apply IH|reflexivity].
Qed.

Lemma define_own_twice (acc : object) (k : string) (v w : value) :
  define_own (define_own acc k v) k w = define_own acc k w.
Proof. unfold define_own. simpl. rewrite insert_insert_eq. reflexivity. Qed.

Lemma define_own_swap (acc : object) (k k' : string) (v w : value) :
  k <> k' ->
  define_own (define_own acc k v) k' w = define_own (define_own acc k' w) k v.
Proof.
  intros Hne. unfold define_own. simpl. f_equal.
  apply insert_insert_ne. congruence.
Qed.

Lemma reduce_absorb (l : list value) (acc : object) (k : string) (v : value) :
  proto acc = ObjectPrototype ->
  Forall (fun e => entry_key e <> Some "__proto__") l ->
  Exists (fun e => entry_key e = Some k) l ->
  reduce l (define_own acc k v) = reduce l acc.
Proof.
  revert acc. induction l as [|b l IH]; intros acc Hp Hall Hex; [inversion Hex|].
  inversion Hall as [|? ? Hb Hrest]; subst.
  simpl. rewrite !record_answer_eq.
  destruct (entry_key b) as [kb|] eqn:Hkb; [|reflexivity].
  destruct (get b "selectedIndex") as [vb|]; [|reflexivity].
  assert (Hne : kb <> "__proto__") by congruence.
  rewrite !set_prop_plain by assumption. simpl.
  destruct (decide (kb = k)) as [->|Hk].
  - rewrite define_own_twice. reflexivity.
  - rewrite define_own_swap by congruence.
    apply IH; [exact Hp|exact Hrest|].
    inversion Hex as [? ? Hhere|? ? Hlater]; subst; [congruence|exact Hlater].
Qed.

Lemma last_entry_wins (l1 l2 : list value) (a : value) (k : string) :
  Forall (fun e => entry_key e <> Some "__proto__") (l1 ++ a :: l2) ->
  entry_key a = Some k ->
  Exists (fun e => entry_key e = Some k) l2 ->
  reduce (l1 ++ a :: l2) empty_object = reduce (l1 ++ l2) empty_object.
Proof.
  intros Hall Hk Hex. rewrite !reduce_app.
  apply Forall_app in Hall as [H1 H2].
  inversion H2 as [|? ? Ha Hl2]; subst.
  destruct (reduce l1 empty_object) as [acc1|] eqn:Hacc; simpl; [|reflexivity].
  destruct (reduce_plain _ _ _ Hacc eq_refl H1) as [Hp _].
  rewrite record_answer_eq, Hk.
  destruct (get a "selectedIndex") as [v|] eqn:Hv; simpl.
  - rewrite set_prop_plain by congruence.
    apply reduce_absorb; assumption.
  - unfold entry_key in Hk. destruct a; simpl in *; discriminate.
Qed.

Lemma last_entry_selected (l1 l2 : list value) (a : value) (k : string)
    (v : value) (m : object) :
  Forall (fun e => entry_key e <> Some "__proto__") (l1 ++ a :: l2) ->
  entry_key a = Some k ->
  get a "selectedIndex" = Some v ->
  Forall (fun e => entry_key e <> Some k) l2 ->
  reduce (l1 ++ a :: l2) empty_object = Some m ->
  get_prop m k = Some v.
Proof.
  intros Hall Hk Hv Hnone H. rewrite reduce_app in H.
  apply Forall_app in Hall as [H1 H2].
  inversion H2 as [|? ? Ha Hl2]; subst.
  destruct (reduce l1 empty_object) as [acc1|] eqn:Hacc; simpl in H; [|discriminate].
  destruct (reduce_plain _ _ _ Hacc eq_refl H1) as [Hp _].
  rewrite record_answer_eq, Hk, Hv in H. simpl in H.
  rewrite set_prop_plain in H by congruence.
  destruct (reduce_plain _ _ _ H Hp Hl2) as [_ Hown].
  unfold get_prop. rewrite (Hown k Hnone). simpl.
  rewrite lookup_insert_eq. reflexivity.
Qed.

(** A request is graded whenever the test exists, every entry of its
    answers is an object whose qId converts to a property key, and every
    question id converts. *)
Lemma reduce_total (l : list value) (acc : object) :
  Forall (fun a => is_Some (entry_key a)) l -> is_Some (reduce l acc).
Proof.
  revert acc. induction l as [|a l IH]; intros acc Hall; simpl; [eauto|].
  inversion Hall as [|? ? [k Hk] Hrest]; subst.
  rewrite record_answer_eq, Hk.
  destruct (get a "selectedIndex") as [v|] eqn:Hv; simpl.
  - apply IH. exact Hrest.
  - unfold entry_key in Hk. destruct a; simpl in *; discriminate.
Qed.

Lemma submit_total (env : Env) (data : document) (id : string) (body : value)
    (test : Test.t) :
  find_test id data = Some test ->
  Forall (fun q => is_Some (ToString (Question.id q))) (Test.questions test) ->
  isArray (js_or (request_answers body) (VArr [])) = true ->
  Forall (fun a => is_Some (entry_key a)) (entries (request_answers body)) ->
  exists sub sc data', submit env data id body = (Json 200 (sub, sc), data').
Proof.
  intros Hfind Hq Harr Hall. unfold submit, grade. rewrite Hfind.
  destruct (reduce_total _ empty_object Hall) as [m Hm].
  assert (Hmap : answersMap_of (request_answers body) = Some m).
  { unfold answersMap_of, entries in *.
    destruct (js_or (request_answers body) (VArr [])); try discriminate. exact Hm. }
  rewrite Hmap. simpl.
  assert (Hra : is_Some (mapM (grade_question m) (Test.questions test))).
  { apply mapM_is_Some. eapply Forall_impl; [exact Hq|].
    intros q [k Hk]. unfold grade_question. simpl. rewrite Hk. simpl. eauto. }
  destruct Hra as [ra Hra]. rewrite Hra. simpl. eauto.
Qed.

(** ** Listing and fetching tests *)

(** GET /: the summary of every stored test, in the order of the
    document. *)
Definition summary (t : Test.t) : TestMeta :=
  mkMeta (Test.id t) (Test.name t) (Test.createdAt t) (length (Test.questions t)).

Definition list_tests (data : document) : reply (list TestMeta) :=
  Json 200 (map summary data).

(** GET /:id: the first stored test of that id, with its questions and
    results. *)
Definition get_test (data : document) (id : string) : reply Test.t :=
  match find_test id data with
  | Some test => Json 200 test
  | None => Error 404 "Test not found"
  end.

(** What the create handler guarantees of every question it stores. *)
Definition well_formed (q : Question.t) : Prop :=
  typeof (Question.correctIndex q) = "number"
  /\ truthy (Question.id q) = true
  /\ truthy (Question.choices q) = true
  /\ Question.prompt q <> VUndefined
  /\ Question.prompt q <> VNull.

Lemma create_Json_inv (env : Env) (data data' : document) (body : value)
    (st : nat) (meta : TestMeta) :
  create env data body = (Json st meta, data') ->
  exists items qs,
    normalize_from env 0 items = Some qs
    /\ truthy (request_name body) = true
    /\ truthy (request_text body) = true
    /\ st = 201%nat
    /\ meta = mkMeta ("test_" +:+ now36 env (length items) +:+ "_"
                        +:+ pretty (random1000 env))
                (request_name body) (toISOString env) (length qs)
    /\ data' = (data ++ [Test.mk (meta_id meta) (request_name body) (toISOString env)
                          (request_text body) qs []])%list.
Proof.
  intros H. unfold create in H.
  destruct (truthy (request_name body)) eqn:Hname; [|discriminate].
  destruct (truthy (request_text body)) eqn:Htext; [|discriminate].
  simpl in H.
  destruct (ToString (request_requested body)) as [r|]; simpl in H; [|discriminate].
  destruct (ToString (request_text body)) as [t|]; simpl in H; [|discriminate].
  destruct (callGeminiGenerate _ 1000) as [modelResp|]; simpl in H; [|discriminate].
  destruct (safelyParseJsonFromText (create_rawOut modelResp)) as [parsed|];
    simpl in H; [|discriminate].
  destruct (truthy parsed); [|discriminate].
  destruct (get_opt parsed "questions") as [| | | | |items|]; try discriminate.
  destruct (normalize_from env 0 items) as [qs|] eqn:Hn; simpl in H; [|discriminate].
  injection H as <- <- <-.
  exists items, qs. repeat split; reflexivity || assumption.
Qed.

Lemma js_or_truthy (a b : value) : truthy b = true -> truthy (js_or a b) = true.
Proof. intros Hb. unfold js_or. destruct (truthy a) eqn:Ha; assumption. Qed.

Lemma js_or_defined (a b : value) :
  b <> VUndefined -> b <> VNull ->
  js_or a b <> VUndefined /\ js_or a b <> VNull.
Proof.
  intros H1 H2. unfold js_or.
  destruct (truthy a) eqn:Ha; [|auto].
  destruct a; try discriminate; split; discriminate.
Qed.

Lemma normalize_well_formed (env : Env) (q : value) (i : nat) (nq : Question.t) :
  normalize env q i = Some nq -> well_formed nq.
Proof.
  intros H.
  assert (Hq : non_null q).
  { split; intros ->; discriminate. }
  rewrite (normalize_non_null env q i Hq) in H. injection H as <-.
  unfold well_formed. simpl. split; [|split; [|split]].
  - destruct (get_opt q "correctIndex"); reflexivity.
  - apply js_or_truthy. reflexivity.
  - apply js_or_truthy, js_or_truthy. reflexivity.
  - apply js_or_defined; destruct (js_or_defined (get_opt q "question") (VStr ""));
      try discriminate; assumption.
Qed.

Lemma normalize_from_well_formed (env : Env) (items : list value) (i : nat)
    (qs : list Question.t) :
  normalize_from env i items = Some qs -> Forall well_formed qs.
Proof.
  revert i qs. induction items as [|q items IH]; intros i qs H; simpl in H.
  - injection H as <-. constructor.
  - destruct (normalize env q i) as [nq|] eqn:Hq; simpl in H; [|discriminate].
    destruct (normalize_from env (S i) items) as [rest|] eqn:Hrest; simpl in H;
      [|discriminate].
    injection H as <-. constructor.
    + eapply normalize_well_formed. exact Hq.
    + eapply IH. exact Hrest.
Qed.

Lemma find_test_app_fresh (id : string) (data : document) (t : Test.t) :
  find_test id data = None -> Test.id t = id ->
  find_test id (data ++ [t]) = Some t.
Proof.
  unfold find_test. intros Hnone Hid.
  induction data as [|x data IH]; simpl in *.
  - rewrite Hid, String.eqb_refl. reflexivity.
  - destruct (String.eqb (Test.id x) id); [discriminate|]. apply IH. exact Hnone.
Qed.

Lemma find_test_app_old (id : string) (data : document) (t old : Test.t) :
  find_test id data = Some old -> find_test id (data ++ [t]) = Some old.
Proof.
  unfold find_test. induction data as [|x data IH]; simpl; [discriminate|].
  destruct (String.eqb (Test.id x) id); [auto|exact IH].
Qed.

(** X1.  A created test is listed last, with the summary the create reply
    carried, behind the summaries of the tests stored before, which the
    listing still gives unchanged. *)
Theorem create_then_list (env : Env) (data data' : document) (body : value)
    (st : nat) (meta : TestMeta) :
  create env data body = (Json st meta, data') ->
  list_tests data' = Json 200 (map summary data ++ [meta])%list.
Proof.
  intros H.
  destruct (create_Json_inv _ _ _ _ _ _ H) as (items & qs & _ & _ & _ & _ & Hmeta & ->).
  unfold list_tests. rewrite map_app. simpl. unfold summary at 2. simpl.
  rewrite Hmeta. reflexivity.
Qed.


(** X3.  The create handler does not compare the id it draws with the
    stored ones: when a stored test already has it, the new test is stored
    all the same, and fetching the id of the reply gives the old test. *)
Theorem create_id_collision (env : Env) (data data' : document) (body : value)
    (st : nat) (meta : TestMeta) (old : Test.t) :
  create env data body = (Json st meta, data') ->
  find_test (meta_id meta) data = Some old ->
  length data' = S (length data)
  /\ get_test data' (meta_id meta) = Json 200 old.
Proof.
  intros H Hold.
  destruct (create_Json_inv _ _ _ _ _ _ H) as (items & qs & _ & _ & _ & _ & _ & ->).
  split.
  - rewrite length_app. simpl. lia.
  - unfold get_test. rewrite (find_test_app_old _ _ _ _ Hold). reflexivity.
Qed.

(** ** What a submission does to the document *)

(** The test with one more result, as [test.results.push] leaves it. *)
Definition with_result (test : Test.t) (sub : Submission.t) : Test.t :=
  Test.mk (Test.id test) (Test.name test) (Test.createdAt test) (Test.sourceText test)
    (Test.questions test) (Test.results test ++ [sub])%list.

(** A run of submit requests, each with its clock, the id it addresses and
    its body; the submissions created are listed with the id they were
    stored under. *)
Fixpoint submit_run (requests : list (Env * string * value)) (data : document)
  : list (string * Submission.t) * document :=
  match requests with
  | [] => ([], data)
  | (env, id, body) :: rest =>
      match submit env data id body with
      | (Json _ (sub, _), data1) =>
          let '(created, data2) := submit_run rest data1 in
          ((id, sub) :: created, data2)
      | (Error _ _, data1) => submit_run rest data1
      end
  end.

(** The conditions under which the grading of a request does not throw. *)
Definition gradable (test : Test.t) (body : value) : Prop :=
  isArray (js_or (request_answers body) (VArr [])) = true
  /\ Forall (fun a => is_Some (entry_key a)) (entries (request_answers body))
  /\ Forall (fun q => is_Some (ToString (Question.id q))) (Test.questions test).

Lemma push_result_insert (id : string) (sub : Submission.t) (data : document)
    (test : Test.t) :
  find_test id data = Some test ->
  exists i : nat,
    data !! i = Some test
    /\ push_result id sub data = <[i := with_result test sub]> data.
Proof.
  unfold find_test. induction data as [|x data IH]; simpl; [discriminate|].
  destruct (String.eqb (Test.id x) id) eqn:Hx.
  - intros [= <-]. exists 0%nat. split; reflexivity.
  - intros H. destruct (IH H) as (i & Hi & Hpush).
    exists (S i). split; [exact Hi|]. simpl. rewrite Hpush. reflexivity.
Qed.

(** X4.  A successful submit changes the document in one place only: the
    first test of the id gets the new Submission behind its earlier
    results; its questions and every other test stay as they were. *)
Theorem submit_appends (env : Env) (data data' : document) (id : string)
    (body : value) (st : nat) (sub : Submission.t) (sc : number) :
  submit env data id body = (Json st (sub, sc), data') ->
  exists (i : nat) (test : Test.t),
    find_test id data = Some test
    /\ data !! i = Some test
    /\ data' = <[i := with_result test sub]> data.
Proof.
  intros H.
  destruct (submit_Json_inv _ _ _ _ _ _ _ _ H) as (test & Hfind & _ & _ & ->).
  destruct (push_result_insert id sub data test Hfind) as (i & Hi & Hpush).
  exists i, test. auto.
Qed.

Lemma find_push_other (id id' : string) (sub : Submission.t) (data : document) :
  id' <> id -> find_test id (push_result id' sub data) = find_test id data.
Proof.
  intros Hne. unfold find_test. induction data as [|x data IH]; simpl; [reflexivity|].
  destruct (String.eqb_spec (Test.id x) id') as [Hx|Hx]; simpl.
  - destruct (String.eqb_spec (Test.id x) id) as [Hy|Hy]; [congruence|reflexivity].
  - destruct (String.eqb (Test.id x) id); [reflexivity|exact IH].
Qed.

Lemma submit_find (env : Env) (data data' : document) (id id0 : string)
    (body : value) (r : reply (Submission.t * number)) (test : Test.t) :
  submit env data id0 body = (r, data') ->
  find_test id data = Some test ->
  exists test',
    find_test id data' = Some test'
    /\ Test.questions test' = Test.questions test
    /\ Test.results test' =
       (Test.results test ++
          match r with
          | Json _ (sub, _) => if String.eqb id0 id then [sub] else []
          | Error _ _ => []
          end)%list.
Proof.
  intros H Hfind. unfold submit in H.
  destruct (find_test id0 data) as [t0|] eqn:H0.
  - destruct (grade t0 (request_answers body)) as [[ra score]|]; simpl in H.
    + injection H as <- <-.
      destruct (String.eqb_spec id0 id) as [->|Hne].
      * destruct (find_push_result id
                    (Submission.mk ("sub_" +:+ now36 env 0 +:+ "_"
                                      +:+ pretty (random1000 env))
                       (request_userId body) (toISOString env) score ra)
                    data test Hfind) as (t' & Ht' & Hq & Hr).
        exists t'. auto.
      * exists test. rewrite find_push_other by exact Hne.
        rewrite app_nil_r. auto.
    + injection H as <- <-. exists test. rewrite app_nil_r. auto.
  - injection H as <- <-. exists test. rewrite app_nil_r. auto.
Qed.

(** X5.  The history of a test only grows: after any run of submit
    requests, to this test and to others, its results are the results it
    had followed by the Submissions the run created for its id, in the
    order of the requests, and its questions are the same. *)
Theorem history_append_only (requests : list (Env * string * value))
    (data : document) (id : string) (test : Test.t) :
  find_test id data = Some test ->
  exists test',
    find_test id (snd (submit_run requests data)) = Some test'
    /\ Test.questions test' = Test.questions test
    /\ Test.results test' =
       (Test.results test ++
          map snd (List.filter (fun p => String.eqb (fst p) id)
                     (fst (submit_run requests data))))%list.
Proof.
  revert data test. induction requests as [|[[env id0] body] rest IH];
    intros data test Hfind.
  - exists test. simpl. rewrite app_nil_r. auto.
  - simpl.
    destruct (submit env data id0 body) as [r data1] eqn:Hs.
    destruct (submit_find _ _ _ id _ _ _ _ Hs Hfind) as (t1 & Ht1 & Hq1 & Hr1).
    destruct (IH data1 t1 Ht1) as (t2 & Ht2 & Hq2 & Hr2).
    destruct r as [st [sub sc]|st e].
    + destruct (submit_run rest data1) as [created data2] eqn:Hrun. simpl in *.
      exists t2. split; [exact Ht2|]. split; [congruence|].
      rewrite Hr2, Hr1.
      destruct (String.eqb id0 id); simpl; rewrite <- app_assoc; reflexivity.
    + exists t2. split; [exact Ht2|]. split; [congruence|].
      rewrite Hr2, Hr1, app_nil_r. reflexivity.
Qed.

Lemma reduce_keys (l : list value) (acc acc' : object) :
  reduce l acc = Some acc' -> Forall (fun a => is_Some (entry_key a)) l.
Proof.
  revert acc. induction l as [|a l IH]; intros acc H; simpl in H; [constructor|].
  destruct (record_answer acc a) as [acc1|] eqn:Ha; simpl in H; [|discriminate].
  destruct (record_answer_inv _ _ _ Ha) as (k & v & Hk & _ & _).
  constructor; [eauto|]. eapply IH. exact H.
Qed.

Lemma grade_gradable (test : Test.t) (body : value) :
  is_Some (grade test (request_answers body)) <-> gradable test body.
Proof.
  unfold gradable. split.
  - intros [[ra sc] Hg].
    destruct (grade_inv _ _ _ _ Hg) as (m & Hm & Hall & _).
    unfold answersMap_of, entries in *.
    destruct (js_or (request_answers body) (VArr [])) as [| | | | |l|];
      try discriminate.
    split; [reflexivity|]. split; [eapply reduce_keys; exact Hm|].
    clear Hg Hm. induction Hall as [|q r qs rs Hq _ IH]; constructor; [|exact IH].
    destruct (grade_question_fields _ _ _ Hq) as (_ & _ & _ & _ & k & Hk & _). eauto.
  - intros (Harr & Hkeys & Hids). unfold grade.
    destruct (reduce_total _ empty_object Hkeys) as [m Hm].
    assert (Hmap : answersMap_of (request_answers body) = Some m).
    { unfold answersMap_of, entries in *.
      destruct (js_or (request_answers body) (VArr [])); try discriminate. exact Hm. }
    rewrite Hmap. simpl.
    assert (Hra : is_Some (mapM (grade_question m) (Test.questions test))).
    { apply mapM_is_Some. eapply Forall_impl; [exact Hids|].
      intros q [k Hk]. unfold grade_question. simpl. rewrite Hk. simpl. eauto. }
    destruct Hra as [ra ->]. simpl. eauto.
Qed.

(** X6.  The three outcomes of a submit request.  Without a stored test of
    the id the reply is 404.  With one, the request is graded and stored
    exactly when its answers are an array (or falsy, or absent), no entry
    is [null], the qId of every entry converts to a property key and so
    does every question id; otherwise the reply is 500.  The 404
    and the 500 leave the document unchanged. *)
Theorem submit_outcomes (env : Env) (data : document) (id : string) (body : value) :
  match find_test id data with
  | None => submit env data id body = (Error 404 "Test not found", data)
  | Some test =>
      (gradable test body
       /\ exists sub sc,
           submit env data id body = (Json 200 (sub, sc), push_result id sub data))
      \/ (~ gradable test body
          /\ submit env data id body = (Error 500 "Could not submit answers", data))
  end.
Proof.
  unfold submit. destruct (find_test id data) as [test|]; [|reflexivity].
  destruct (grade test (request_answers body)) as [[ra sc]|] eqn:Hg; simpl.
  - left. split; [apply grade_gradable; rewrite Hg; eauto|]. eauto.
  - right. split; [|reflexivity].
    intros Hgr. apply grade_gradable in Hgr. rewrite Hg in Hgr.
    destruct Hgr as [? ?]. discriminate.
Qed.

(** ** Entries the grading does not look at *)

(** Two answer maps that are plain objects and differ at most at the
    key [k]. *)
Definition agree_off (k : string) (o1 o2 : object) : Prop :=
  proto o1 = ObjectPrototype /\ proto o2 = ObjectPrototype
  /\ forall k', k' <> k -> own o1 !! k' = own o2 !! k'.

Lemma reduce_agree_off (l : list value) (k : string) (o1 o2 : object) :
  agree_off k o1 o2 ->
  Forall (fun e => entry_key e <> Some "__proto__") l ->
  match reduce l o1, reduce l o2 with
  | Some r1, Some r2 => agree_off k r1 r2
  | None, None => True
  | _, _ => False
  end.
Proof.
  revert o1 o2. induction l as [|a l IH]; intros o1 o2 Hag Hall; simpl; [exact Hag|].
  inversion Hall as [|? ? Ha Hrest]; subst.
  rewrite !record_answer_eq.
  destruct (entry_key a) as [ka|] eqn:Hka; [|exact I].
  destruct (get a "selectedIndex") as [v|]; [|exact I]. simpl.
  destruct Hag as (Hp1 & Hp2 & Hown).
  rewrite !set_prop_plain by congruence.
  apply IH; [|exact Hrest].
  split; [exact Hp1|]. split; [exact Hp2|].
  intros k' Hk'. simpl.
  destruct (decide (ka = k')) as [->|Hne].
  - rewrite !lookup_insert_eq. reflexivity.
  - rewrite !lookup_insert_ne by exact Hne. apply Hown. exact Hk'.
Qed.

Lemma grade_question_agree (k : string) (o1 o2 : object) (q : Question.t) :
  agree_off k o1 o2 ->
  ToString (Question.id q) <> Some k ->
  grade_question o1 q = grade_question o2 q.
Proof.
  intros (Hp1 & Hp2 & Hown) Hk. unfold grade_question.
  destruct (ToString (Question.id q)) as [kq|]; [|reflexivity]. simpl.
  unfold get_prop. rewrite Hp1, Hp2, (Hown kq) by congruence. reflexivity.
Qed.

Lemma reduce_without (l1 l2 : list value) (e : value) (k : string) :
  Forall (fun a => entry_key a <> Some "__proto__") (l1 ++ e :: l2) ->
  entry_key e = Some k ->
  match reduce (l1 ++ e :: l2) empty_object, reduce (l1 ++ l2) empty_object with
  | Some r1, Some r2 => agree_off k r1 r2
  | None, None => True
  | _, _ => False
  end.
Proof.
  intros Hall Hk. rewrite !reduce_app.
  apply Forall_app in Hall as [H1 H2].
  inversion H2 as [|? ? He Hl2]; subst.
  destruct (reduce l1 empty_object) as [acc1|] eqn:Hacc; simpl; [|exact I].
  destruct (reduce_plain _ _ _ Hacc eq_refl H1) as [Hp _].
  rewrite record_answer_eq, Hk.
  destruct (get e "selectedIndex") as [v|] eqn:Hv; simpl.
  - rewrite set_prop_plain by congruence.
    apply reduce_agree_off; [|exact Hl2].
    split; [exact Hp|]. split; [exact Hp|].
    intros k' Hk'. simpl. apply lookup_insert_ne. congruence.
  - unfold entry_key in Hk. destruct e; simpl in *; discriminate.
Qed.

(** X7.  An entry whose qId belongs to no question of the test is ignored:
    in a request without [__proto__] entries, the reply and the document
    are those of the request without that entry. *)
Theorem unknown_entry_ignored (env : Env) (data : document) (id : string)
    (b1 b2 : value) (test : Test.t) (l1 l2 : list value) (e : value) (k : string) :
  find_test id data = Some test ->
  request_answers b1 = VArr (l1 ++ e :: l2) ->
  request_answers b2 = VArr (l1 ++ l2) ->
  request_userId b1 = request_userId b2 ->
  Forall (fun a => entry_key a <> Some "__proto__") (l1 ++ e :: l2) ->
  entry_key e = Some k ->
  Forall (fun q => ToString (Question.id q) <> Some k) (Test.questions test) ->
  submit env data id b1 = submit env data id b2.
Proof.
  intros Hfind H1 H2 Hu Hplain Hk Hq.
  unfold submit, grade. rewrite Hfind, H1, H2, Hu.
  unfold answersMap_of, js_or. simpl.
  pose proof (reduce_without l1 l2 e k Hplain Hk) as Hag.
  destruct (reduce (l1 ++ e :: l2) empty_object) as [r1|];
    destruct (reduce (l1 ++ l2) empty_object) as [r2|]; try contradiction;
    [|reflexivity].
  simpl.
  rewrite (Forall_mapM_ext (grade_question r1) (grade_question r2)); [reflexivity|].
  eapply Forall_impl; [exact Hq|].
  intros q Hne. apply (grade_question_agree k); assumption.
Qed.


(** X9.  A request that brings no answers (no body, or [answers] absent,
    [null], [false], 0, the empty string or the empty array) is not turned
    down: when the question ids convert it is graded and stored, every
    question being recorded with [selectedIndex] -1. *)
Theorem empty_request_graded (env : Env) (data : document) (id : string)
    (body : value) (test : Test.t) :
  find_test id data = Some test ->
  js_or (request_answers body) (VArr []) = VArr [] ->
  Forall (fun q => is_Some (ToString (Question.id q))) (Test.questions test) ->
  exists sub sc,
    submit env data id body = (Json 200 (sub, sc), push_result id sub data)
    /\ length (Submission.answers sub) = length (Test.questions test)
    /\ Forall (fun a => Answer.selectedIndex a = Number.of_Z (-1))
         (Submission.answers sub).
Proof.
  intros Hfind Hempty Hids. unfold submit, grade. rewrite Hfind.
  unfold answersMap_of. rewrite Hempty. simpl.
  assert (Hra : is_Some (mapM (grade_question empty_object) (Test.questions test))).
  { apply mapM_is_Some. eapply Forall_impl; [exact Hids|].
    intros q [k Hk]. unfold grade_question. simpl. rewrite Hk. simpl. eauto. }
  destruct Hra as [ra Hra]. rewrite Hra. simpl.
  eexists _, _. split; [reflexivity|]. simpl.
  apply mapM_Some_1 in Hra. split.
  - symmetry. eapply Forall2_length. exact Hra.
  - clear Hfind Hempty Hids. induction Hra as [|q r qs rs Hq _ IH]; constructor;
      [|exact IH].
    destruct (grade_question_fields _ _ _ Hq) as (_ & _ & _ & _ & k & _ & Hsel).
    rewrite Hsel. reflexivity.
Qed.

(** ** The qIds of a justify request *)

Lemma includes_In (l : list value) (x : value) :
  includes l x = true <-> exists y, In y l /\ same_value_zero y x = true.
Proof. unfold includes. apply existsb_exists. Qed.

Lemma includes_same_elements (l l' : list value) (x : value) :
  (forall y, In y l <-> In y l') -> includes l x = includes l' x.
Proof.
  intros Hsame.
  destruct (includes l x) eqn:H1; destruct (includes l' x) eqn:H2; try reflexivity.
  - apply includes_In in H1 as (y & Hy & Hxy).
    assert (includes l' x = true) by (apply includes_In; exists y; split; [apply Hsame|]; auto).
    congruence.
  - apply includes_In in H2 as (y & Hy & Hxy).
    assert (includes l x = true) by (apply includes_In; exists y; split; [apply Hsame|]; auto).
    congruence.
Qed.

(** X10.  The reply to a justify request depends on which qIds the request
    names, not on their order and not on how often one occurs: the
    questions put into the prompt are those of the test, in the order of
    the test. *)
Theorem justify_order_irrelevant (data : document) (id : string) (b1 b2 : value)
    (l l' : list value) :
  request_qIds b1 = VArr l ->
  request_qIds b2 = VArr l' ->
  (forall y, In y l <-> In y l') ->
  request_contextNotes b1 = request_contextNotes b2 ->
  justify data id b1 = justify data id b2.
Proof.
  intros H1 H2 Hsame Hnotes. unfold justify. rewrite H1, H2, Hnotes.
  destruct l as [|x l]; destruct l' as [|x' l'].
  - reflexivity.
  - destruct (proj2 (Hsame x') (or_introl eq_refl)).
  - destruct (proj1 (Hsame x) (or_introl eq_refl)).
  - destruct (find_test id data) as [test|]; [|reflexivity].
    assert (Hsel : selected_questions (x :: l) test = selected_questions (x' :: l') test).
    { unfold selected_questions. apply List.filter_ext.
      intros q. apply includes_same_elements. exact Hsame. }
    rewrite Hsel. reflexivity.
Qed.

(** ** Code fences *)

(** Three backquotes in a row somewhere in the text. *)
Fixpoint has_fence (s : string) : bool :=
  match s with
  | "" => false
  | String _ rest => String.prefix "```" s || has_fence rest
  end.

(** A JSON text in a fence, as the model is used to send it. *)
Definition json_fence (s : string) : string :=
  "```json" +:+ String newline s +:+ String newline "```".

Lemma replace_all_skip (f : string -> nat) (k : nat) (s : string) :
  replace_all f k s = replace_all f 0 (drop k s).
Proof.
  revert k. induction s as [|c s IH]; intros k; [destruct k; reflexivity|].
  destruct k as [|k]; [reflexivity|]. simpl. apply IH.
Qed.

Lemma replace_fence_cons (c : ascii) (rest : string) :
  replace_all fence_match 0 (String c rest) =
  if String.prefix "```" (String c rest)
  then replace_all fence_match 0 (drop 2 rest)
  else String c (replace_all fence_match 0 rest).
Proof.
  cbn [replace_all]. unfold fence_match.
  destruct (String.prefix "```" (String c rest)); [|reflexivity].
  apply replace_all_skip.
Qed.

Lemma prefix_cons (a c : ascii) (p s : string) :
  String.prefix (String a p) (String c s) =
  if Ascii.ascii_dec a c then String.prefix p s else false.
Proof. reflexivity. Qed.

Lemma prefix_empty (s : string) : String.prefix "" s = true.
Proof. destruct s; reflexivity. Qed.

Lemma prefix_backquote (p : string) (c : ascii) (s : string) :
  String.prefix (String "`" p) (String c s) = true ->
  c = "`"%char /\ String.prefix p s = true.
Proof.
  rewrite prefix_cons. destruct (Ascii.ascii_dec "`" c) as [<-|]; [auto|discriminate].
Qed.

Lemma prefix_fence_front (c : ascii) (rest : string) :
  String.prefix "```" (String c rest) = true ->
  c = "`"%char /\ String.prefix "``" rest = true.
Proof. apply prefix_backquote. Qed.

Lemma prefix_fence_back (rest : string) :
  String.prefix "``" rest = true -> String.prefix "```" (String "`" rest) = true.
Proof.
  intros H. rewrite prefix_cons.
  destruct (Ascii.ascii_dec "`" "`"); [exact H|contradiction].
Qed.

Lemma replace_fence_no_backquote (s : string) :
  String.prefix "`" s = false ->
  String.prefix "`" (replace_all fence_match 0 s) = false.
Proof.
  destruct s as [|c rest]; [reflexivity|]. intros H.
  rewrite replace_fence_cons.
  destruct (String.prefix "```" (String c rest)) eqn:Hf.
  - apply prefix_fence_front in Hf as [-> _].
    rewrite prefix_cons, prefix_empty in H.
    destruct (Ascii.ascii_dec "`" "`"); [discriminate|contradiction].
  - rewrite prefix_cons, prefix_empty in *. exact H.
Qed.

Lemma replace_fence_no_pair (s : string) :
  String.prefix "``" s = false ->
  String.prefix "``" (replace_all fence_match 0 s) = false.
Proof.
  destruct s as [|c rest]; [reflexivity|]. intros H.
  rewrite replace_fence_cons.
  destruct (String.prefix "```" (String c rest)) eqn:Hf.
  - apply prefix_fence_front in Hf as [-> Hp].
    rewrite prefix_cons in H.
    destruct (Ascii.ascii_dec "`" "`"); [|contradiction].
    destruct rest as [|d rest]; [discriminate|].
    apply prefix_backquote in Hp as [-> _].
    rewrite prefix_cons, prefix_empty in H.
    destruct (Ascii.ascii_dec "`" "`"); [discriminate|contradiction].
  - rewrite prefix_cons in *.
    destruct (Ascii.ascii_dec "`" c) as [<-|]; [|reflexivity].
    apply (replace_fence_no_backquote rest). exact H.
Qed.

Lemma length_drop_le (k : nat) (s : string) :
  (String.length (drop k s) <= String.length s)%nat.
Proof.
  revert s. induction k as [|k IH]; intros s; [destruct s; simpl; lia|].
  destruct s as [|c s]; simpl; [lia|]. specialize (IH s). lia.
Qed.

Lemma replace_fence_clean_bounded (n : nat) (s : string) :
  (String.length s <= n)%nat -> has_fence (replace_all fence_match 0 s) = false.
Proof.
  revert s. induction n as [|n IH]; intros s Hn.
  - destruct s; [reflexivity|simpl in Hn; lia].
  - destruct s as [|c rest]; [reflexivity|]. simpl in Hn.
    rewrite replace_fence_cons.
    destruct (String.prefix "```" (String c rest)) eqn:Hf.
    + apply IH. pose proof (length_drop_le 2 rest). lia.
    + cbn [has_fence]. rewrite (IH rest) by lia. rewrite orb_false_r.
      destruct (String.prefix "```" (String c (replace_all fence_match 0 rest)))
        eqn:Hp; [|reflexivity].
      apply prefix_fence_front in Hp as [-> Hp].
      rewrite replace_fence_no_pair in Hp; [discriminate|].
      destruct (String.prefix "``" rest) eqn:Hr; [|reflexivity].
      rewrite (prefix_fence_back rest Hr) in Hf. discriminate.
Qed.

Lemma prefix_take (p : string) (k : nat) (s : string) :
  String.prefix p (take k s) = true -> String.prefix p s = true.
Proof.
  revert k s. induction p as [|a p IH]; intros k s H; [destruct s; reflexivity|].
  destruct k as [|k]; [destruct s; discriminate|].
  destruct s as [|c s]; [discriminate|]. cbn [take] in H.
  rewrite prefix_cons in *.
  destruct (Ascii.ascii_dec a c); [|discriminate]. eapply IH. exact H.
Qed.

Lemma has_fence_take (k : nat) (s : string) :
  has_fence s = false -> has_fence (take k s) = false.
Proof.
  revert k. induction s as [|c s IH]; intros k H; [destruct k; reflexivity|].
  destruct k as [|k]; [reflexivity|].
  cbn [has_fence] in H. apply orb_false_elim in H as [Hp Hs].
  cbn [take has_fence]. rewrite (IH k Hs), orb_false_r.
  destruct (String.prefix "```" (String c (take k s))) eqn:Ht; [|reflexivity].
  rewrite (prefix_take "```" (S k) (String c s) Ht) in Hp. discriminate.
Qed.

Lemma has_fence_drop (k : nat) (s : string) :
  has_fence s = false -> has_fence (drop k s) = false.
Proof.
  revert s. induction k as [|k IH]; intros s H; [destruct s; exact H|].
  destruct s as [|c s]; [reflexivity|].
  cbn [has_fence] in H. apply orb_false_elim in H as [_ Hs]. simpl. apply IH, Hs.
Qed.

Lemma trimStart_drop (s : string) : exists k, trimStart s = drop k s.
Proof.
  induction s as [|c s [k IH]]; [exists 0%nat; reflexivity|].
  simpl. destruct (is_space c); [exists (S k); exact IH|exists 0%nat; reflexivity].
Qed.

Lemma trimEnd_take (s : string) : exists k, trimEnd s = take k s.
Proof.
  induction s as [|c s [k IH]]; [exists 0%nat; reflexivity|].
  simpl. destruct (is_space c && String.eqb (trimEnd s) "").
  - exists 0%nat. reflexivity.
  - exists (S k). simpl. rewrite IH. reflexivity.
Qed.

Lemma stripped_clean (s : string) : has_fence (stripped s) = false.
Proof.
  unfold stripped, trim.
  set (r := replace_all fence_match 0 (replace_all fence_json_match 0 s)).
  assert (Hr : has_fence r = false).
  { apply (replace_fence_clean_bounded
             (String.length (replace_all fence_json_match 0 s))). lia. }
  destruct (trimStart_drop r) as [k ->].
  destruct (trimEnd_take (drop k r)) as [j ->].
  apply has_fence_take, has_fence_drop, Hr.
Qed.

(** X11.  Whatever the reply, the text handed to [JSON.parse] contains no
    code fence: no three backquotes in a row are left in it. *)
Theorem candidate_has_no_fence (s : string) : has_fence (json_candidate s) = false.
Proof.
  unfold json_candidate. cbv zeta.
  pose proof (stripped_clean s) as H.
  set (t := stripped s) in *.
  assert (H1 : has_fence (if 0 <=? search_open t then slice_from (search_open t) t else t)
               = false).
  { destruct (0 <=? search_open t); [apply has_fence_drop|]; exact H. }
  set (t1 := if 0 <=? search_open t then slice_from (search_open t) t else t) in *.
  destruct (0 <=? Z.max (lastIndexOf "}" t1) (lastIndexOf "]" t1));
    [apply has_fence_take|]; exact H1.
Qed.

Lemma append_cons (c : ascii) (a b : string) :
  String c a +:+ b = String c (a +:+ b).
Proof. reflexivity. Qed.

Lemma append_empty_r (a : string) : a +:+ "" = a.
Proof. induction a as [|c a IH]; [reflexivity|]. rewrite append_cons, IH. reflexivity. Qed.

Lemma is_open_not_space (c : ascii) : is_open c = true -> is_space c = false.
Proof.
  unfold is_open. intros H. apply orb_true_iff in H as [H|H];
    apply Ascii.eqb_eq in H; subst c; reflexivity.
Qed.

Lemma is_close_not_space (c : ascii) : is_close c = true -> is_space c = false.
Proof.
  unfold is_close. intros H. apply orb_true_iff in H as [H|H];
    apply Ascii.eqb_eq in H; subst c; reflexivity.
Qed.

Lemma is_close_not_backquote (c : ascii) : is_close c = true -> c <> "`"%char.
Proof. intros H ->. discriminate. Qed.

Lemma ends_with_nonempty (p : ascii -> bool) (s : string) :
  ends_with p s = true -> s <> "".
Proof. intros H ->. discriminate. Qed.

Lemma ends_with_step (p : ascii -> bool) (c d : ascii) (s : string) :
  ends_with p (String c (String d s)) = ends_with p (String d s).
Proof. reflexivity. Qed.

Lemma ends_with_app (p : ascii -> bool) (a : string) (d : ascii) (post : string) :
  ends_with p (a +:+ String d post) = ends_with p (String d post).
Proof.
  induction a as [|c a IH]; [reflexivity|].
  rewrite append_cons. destruct a as [|c' a].
  - reflexivity.
  - rewrite append_cons in *. rewrite ends_with_step. exact IH.
Qed.

Lemma closed_no_fence_front (a b : string) :
  has_fence a = false -> ends_with is_close a = true ->
  String.prefix "```" (a +:+ b) = false.
Proof.
  intros Hf He.
  destruct (String.prefix "```" (a +:+ b)) eqn:Hp; [|reflexivity].
  destruct a as [|c [|d [|e a]]].
  - discriminate.
  - rewrite append_cons in Hp. apply prefix_backquote in Hp as [-> _]. discriminate.
  - rewrite !append_cons in Hp. apply prefix_backquote in Hp as [-> Hp].
    apply prefix_backquote in Hp as [-> _]. discriminate.
  - cbn [has_fence] in Hf. apply orb_false_elim in Hf as [Hf _].
    rewrite !append_cons in Hp.
    apply prefix_backquote in Hp as [-> Hp].
    apply prefix_backquote in Hp as [-> Hp].
    apply prefix_backquote in Hp as [-> _].
    rewrite !prefix_cons, prefix_empty in Hf.
    destruct (Ascii.ascii_dec "`" "`"); [discriminate|contradiction].
Qed.

(** A pattern that matches only where three backquotes begin. *)
Definition fence_only (f : string -> nat) : Prop :=
  forall t, String.prefix "```" t = false -> f t = 0%nat.

Lemma fence_match_only : fence_only fence_match.
Proof. intros t H. unfold fence_match. rewrite H. reflexivity. Qed.

Lemma fence_json_match_only : fence_only fence_json_match.
Proof. intros t H. unfold fence_json_match. rewrite H. reflexivity. Qed.

Lemma replace_all_closed_front (f : string -> nat) (a b : string) :
  fence_only f ->
  has_fence a = false -> ends_with is_close a = true ->
  replace_all f 0 (a +:+ b) = a +:+ replace_all f 0 b.
Proof.
  intros Hf. induction a as [|c a IH]; intros Hn He; [discriminate|].
  pose proof (closed_no_fence_front (String c a) b Hn He) as Hp.
  rewrite append_cons in *. cbn [replace_all]. rewrite (Hf _ Hp).
  rewrite append_cons. f_equal.
  destruct a as [|d a]; [reflexivity|].
  apply IH.
  - cbn [has_fence] in Hn. apply orb_false_elim in Hn as [_ Hn]. exact Hn.
  - exact He.
Qed.

Lemma replace_all_clean (f : string -> nat) (s : string) :
  fence_only f ->
  has_fence s = false -> ends_with is_close s = true ->
  replace_all f 0 s = s.
Proof.
  intros Hf Hn He.
  rewrite <- (append_empty_r s) at 1.
  rewrite (replace_all_closed_front f s "" Hf Hn He). apply append_empty_r.
Qed.

Lemma trimStart_open (s : string) : starts_with is_open s = true -> trimStart s = s.
Proof.
  destruct s as [|c s]; [discriminate|]. simpl. intros H.
  rewrite (is_open_not_space c H). reflexivity.
Qed.

Lemma trimEnd_cons (c : ascii) (s : string) :
  trimEnd (String c s) =
  if is_space c && String.eqb (trimEnd s) "" then "" else String c (trimEnd s).
Proof. reflexivity. Qed.

Lemma trimEnd_closed (s : string) : ends_with is_close s = true -> trimEnd s = s.
Proof.
  induction s as [|c s IH]; [discriminate|]. intros H.
  destruct s as [|d s].
  - simpl in *. rewrite (is_close_not_space c H). reflexivity.
  - rewrite ends_with_step in H. rewrite trimEnd_cons, (IH H).
    change (String.eqb (String d s) "") with false.
    rewrite andb_false_r. reflexivity.
Qed.

Lemma trimEnd_newline (s : string) :
  ends_with is_close s = true -> trimEnd (s +:+ String newline "") = s.
Proof.
  induction s as [|c s IH]; [discriminate|]. intros H.
  rewrite append_cons. destruct s as [|d s].
  - simpl in *. rewrite (is_close_not_space c H). reflexivity.
  - rewrite ends_with_step in H. rewrite trimEnd_cons, (IH H).
    change (String.eqb (String d s) "") with false.
    rewrite andb_false_r. reflexivity.
Qed.

Lemma candidate_of_clean (s t : string) :
  stripped s = t ->
  starts_with is_open t = true -> ends_with is_close t = true ->
  json_candidate s = t.
Proof.
  intros Hs Ho Hc. unfold json_candidate. rewrite Hs. cbv zeta.
  assert (Hfirst : search_open t = 0).
  { destruct t as [|c t]; [discriminate|]. simpl in *. rewrite Ho. reflexivity. }
  rewrite Hfirst. simpl.
  assert (Hdrop : slice_from 0 t = t) by (destruct t; reflexivity).
  rewrite Hdrop.
  destruct (last_close_split t) as [[Hk Hany]|(Hk & post & Hsplit & Hpost & Hend)];
    cbv zeta in *.
  - rewrite (ends_with_any _ _ Hc) in Hany. discriminate.
  - destruct (Z.leb_spec 0 (Z.max (lastIndexOf "}" t) (lastIndexOf "]" t))); [|lia].
    destruct post as [|d post].
    + rewrite append_empty_r in Hsplit. symmetry. exact Hsplit.
    + rewrite Hsplit, ends_with_app in Hc.
      rewrite (ends_with_any _ _ Hc) in Hpost. discriminate.
Qed.

Lemma fence_json_head (t : string) :
  replace_all fence_json_match 0 ("```json" +:+ String newline t)
  = replace_all fence_json_match 0 t.
Proof. destruct t; reflexivity. Qed.

(** X12.  A JSON text that begins with a brace or bracket, ends with one
    and holds no three backquotes in a row reaches [JSON.parse] exactly as
    it is, whether the reply is the bare text or the text in a json code
    fence. *)
Theorem clean_reply_parsed_as_is (s : string) :
  has_fence s = false ->
  starts_with is_open s = true ->
  ends_with is_close s = true ->
  json_candidate s = s
  /\ json_candidate (json_fence s) = s
  /\ safelyParseJsonFromText (VStr s) = Some (default VNull (JSON_parse s))
  /\ safelyParseJsonFromText (VStr (json_fence s))
     = Some (default VNull (JSON_parse s)).
Proof.
  intros Hn Ho Hc.
  assert (H1 : stripped s = s).
  { unfold stripped.
    rewrite (replace_all_clean _ s fence_json_match_only Hn Hc).
    rewrite (replace_all_clean _ s fence_match_only Hn Hc).
    unfold trim. rewrite (trimStart_open s Ho). apply trimEnd_closed, Hc. }
  assert (H2 : stripped (json_fence s) = s).
  { unfold stripped, json_fence.
    rewrite (append_cons newline s), fence_json_head.
    rewrite (replace_all_closed_front _ s _ fence_json_match_only Hn Hc).
    change (replace_all fence_json_match 0 (String newline "```"))
      with (String newline "").
    rewrite (replace_all_closed_front _ s _ fence_match_only Hn Hc).
    change (replace_all fence_match 0 (String newline "")) with (String newline "").
    unfold trim.
    rewrite trimStart_open.
    - apply trimEnd_newline, Hc.
    - destruct s; [discriminate|exact Ho]. }
  assert (C1 : json_candidate s = s) by (apply candidate_of_clean; assumption).
  assert (C2 : json_candidate (json_fence s) = s) by (apply candidate_of_clean; assumption).
  assert (Ht : forall u, starts_with is_open u = true \/ String.prefix "`" u = true ->
                         truthy (VStr u) = true).
  { intros [|c u] [H|H]; try discriminate; reflexivity. }
  split; [exact C1|]. split; [exact C2|].
  unfold safelyParseJsonFromText.
  rewrite (Ht s (or_introl Ho)), (Ht (json_fence s) (or_intror eq_refl)). simpl.
  rewrite C1, C2. auto.
Qed.

(** ** The score of a test of up to 200 questions *)

(** What the score of [c] correct answers out of [n] is checked for: it is
    the rational formula or one less, between 0 and 100, 100 when every
    answer is correct and 0 when none is. *)
Definition score_in_range (c n : nat) : bool :=
  let s := score_of c n in
  let z := spec_score c n in
  (0 <=? z) && (z <=? 100)
  && (bool_decide (s = Number.of_Z z)
      || ((1 <=? z) && bool_decide (s = Number.of_Z (z - 1))))
  && (if (c =? n)%nat && (1 <=? n)%nat then bool_decide (s = Number.of_Z 100) else true)
  && (if (c =? 0)%nat then bool_decide (s = Number.of_Z 0) else true).

(** [f c n] holds for every [c <= n <= bound]. *)
Definition holds_upto (f : nat -> nat -> bool) (bound : nat) : bool :=
  forallb (fun n => forallb (fun c => f c n) (seq 0 (S n))) (seq 0 (S bound)).

Lemma holds_upto_spec (f : nat -> nat -> bool) (bound c n : nat) :
  holds_upto f bound = true -> (c <= n)%nat -> (n <= bound)%nat -> f c n = true.
Proof.
  unfold holds_upto. intros H Hc Hn.
  assert (Hn' : In n (seq 0 (S bound))) by (apply in_seq; lia).
  assert (Hc' : In c (seq 0 (S n))) by (apply in_seq; lia).
  exact (proj1 (forallb_forall _ _) (proj1 (forallb_forall _ _) H n Hn') c Hc').
Qed.

Lemma scores_in_range_200 : holds_upto score_in_range 200 = true.
Proof. vm_compute. reflexivity. Qed.

Lemma score_in_range_200 (c n : nat) :
  (c <= n)%nat -> (n <= 200)%nat -> score_in_range c n = true.
Proof. exact (holds_upto_spec score_in_range 200 c n scores_in_range_200). Qed.

Lemma count_all (f : Answer.t -> bool) (l : list Answer.t) :
  Forall (fun a => f a = true) l -> length (List.filter f l) = length l.
Proof.
  induction 1 as [|a l Ha _ IH]; simpl; [reflexivity|]. rewrite Ha. simpl. lia.
Qed.

Lemma count_none (f : Answer.t -> bool) (l : list Answer.t) :
  Forall (fun a => f a = false) l -> length (List.filter f l) = 0%nat.
Proof.
  induction 1 as [|a l Ha _ IH]; simpl; [reflexivity|]. rewrite Ha. exact IH.
Qed.

(** X13.  For a test of at most 200 questions the score of a Submission is
    a whole number between 0 and 100; it is the rounded percentage
    [round(100 * countCorrect / questionCount)] or one less, 100 when the
    test has a question and every answer is correct, and 0 when none is. *)
Theorem score_bounds (env : Env) (data data' : document) (id : string)
    (body : value) (st : nat) (sub : Submission.t) (sc : number) (test : Test.t) :
  submit env data id body = (Json st (sub, sc), data') ->
  find_test id data = Some test ->
  (length (Test.questions test) <= 200)%nat ->
  let countCorrect := length (List.filter Answer.correct (Submission.answers sub)) in
  let questionCount := length (Test.questions test) in
  (exists z : Z,
      Submission.score sub = Number.of_Z z
      /\ 0 <= z <= 100
      /\ spec_score countCorrect questionCount - 1 <= z
         <= spec_score countCorrect questionCount)
  /\ (Forall (fun a => Answer.correct a = true) (Submission.answers sub) ->
      Test.questions test <> [] ->
      Submission.score sub = Number.of_Z 100)
  /\ (Forall (fun a => Answer.correct a = false) (Submission.answers sub) ->
      Submission.score sub = Number.of_Z 0).
Proof.
  intros H Hfind Hn.
  destruct (submit_Json_inv _ _ _ _ _ _ _ _ H) as (test' & Hfind' & Hg & Hsc & _).
  rewrite Hfind in Hfind'. injection Hfind' as <-.
  destruct (grade_inv _ _ _ _ Hg) as (m & _ & Hall & ->).
  pose proof (Forall2_length _ _ _ Hall) as Hlen.
  pose proof (filter_length_le Answer.correct (Submission.answers sub)) as Hle.
  cbv zeta. rewrite Hsc.
  set (c := length (List.filter Answer.correct (Submission.answers sub))) in *.
  set (n := length (Test.questions test)) in *.
  assert (Hok : score_in_range c n = true) by (apply score_in_range_200; lia).
  unfold score_in_range in Hok. cbv zeta in Hok.
  apply andb_true_iff in Hok as [Hok Hzero].
  apply andb_true_iff in Hok as [Hok Hfull].
  apply andb_true_iff in Hok as [Hrange Hval].
  apply andb_true_iff in Hrange as [H0 H100].
  apply Z.leb_le in H0, H100.
  split; [|split].
  - apply orb_true_iff in Hval as [Hv|Hv].
    + apply bool_decide_eq_true in Hv. exists (spec_score c n). split; [exact Hv|]. lia.
    + apply andb_true_iff in Hv as [H1 Hv]. apply Z.leb_le in H1.
      apply bool_decide_eq_true in Hv.
      exists (spec_score c n - 1). split; [exact Hv|]. lia.
  - intros Hcorrect Hne.
    assert (Hc : c = n) by (unfold c, n; rewrite (count_all _ _ Hcorrect); lia).
    assert (H1 : (1 <= n)%nat).
    { unfold n. destruct (Test.questions test); [contradiction|simpl; lia]. }
    rewrite Hc in Hfull. rewrite Nat.eqb_refl in Hfull.
    apply Nat.leb_le in H1. rewrite H1 in Hfull. simpl in Hfull.
    apply bool_decide_eq_true in Hfull. rewrite Hc. exact Hfull.
  - intros Hwrong.
    assert (Hc : c = 0%nat) by (unfold c; apply count_none; exact Hwrong).
    rewrite Hc in Hzero. simpl in Hzero.
    apply bool_decide_eq_true in Hzero. rewrite Hc. exact Hzero.
Qed.

(** ** The client, KnowledgeGaps.tsx

    The component posts the bodies the router reads.  A body travels as
    JSON, which carries a string, a choice index and a boolean unchanged. *)

(** [(latest.answers || []).filter((a) => !a.correct).map((a) => a.qId)]. *)
Definition wrongQIds (latest : Submission.t) : list value :=
  map Answer.qId
    (List.filter (fun a => negb (Answer.correct a)) (Submission.answers latest)).

(** The body [fillGap] posts to [/:id/justify] once a test is selected and
    a result is at hand; [None] when it posts nothing and reports that
    there are no mistakes. *)
Definition fillGap_request (currentTest : Test.t) (latest : Submission.t)
  : option value :=
  match wrongQIds latest with
  | [] => None
  | qIds =>
      Some (VObj [("qIds", VArr qIds);
                  ("contextNotes", js_or (Test.sourceText currentTest) (VStr ""))])
  end.

(** The questions whose answer in a submission is not correct, in the order
    of the test. *)
Definition mistakes (test : Test.t) (sub : Submission.t) : list Question.t :=
  map fst
    (List.filter (fun p => negb (Answer.correct (snd p)))
       (combine (Test.questions test) (Submission.answers sub))).

(** The own properties of the [answers] state: it starts as [{}], and
    [setAnswer] replaces it by [{ ...s, [qId]: idx }]. *)
Abbreviation selections := (gmap string nat).

Definition setAnswer (qId : string) (idx : nat) (s : selections) : selections :=
  <[qId := idx]> s.

(** The functions [Object.prototype] holds. *)
Definition Object_prototype_functions : list string :=
  ["constructor"; "hasOwnProperty"; "isPrototypeOf"; "propertyIsEnumerable";
   "toLocaleString"; "toString"; "valueOf"; "__defineGetter__";
   "__defineSetter__"; "__lookupGetter__"; "__lookupSetter__"].

(** [selectedIndex: answers[k] ?? -1] as [JSON.stringify] sends it: the
    learner's selection, or [-1] where [answers[k]] is [undefined]; under a
    name of [Object.prototype] the value is a function, which is left out of
    the JSON text, and under ["__proto__"] it is [Object.prototype], sent
    as [{}]. *)
Definition selection_sent (answers : selections) (k : string)
  : list (string * value) :=
  match answers !! k with
  | Some idx => [("selectedIndex", VNum (Number.of_nat idx))]
  | None =>
      if String.eqb k "__proto__" then [("selectedIndex", VObj [])]
      else if existsb (String.eqb k) Object_prototype_functions then []
      else [("selectedIndex", VNum Number.minus_one)]
  end.

(** [{ qId: q.id, selectedIndex: answers[q.id] ?? -1 }]. *)
Definition payload_entry (answers : selections) (q : Question.t) : option value :=
  k ← ToString (Question.id q);
  Some (VObj (("qId", Question.id q) :: selection_sent answers k)).

(** The body [submitAnswers] posts to [/:id/submit] for the selected
    test. *)
Definition submitAnswers_payload (currentTest : Test.t) (answers : selections)
  : option value :=
  sent ← mapM (payload_entry answers) (Test.questions currentTest);
  Some (VObj [("userId", VNull); ("answers", VArr sent)]).

(** The learner's selection for the question filed under [k]. *)
Definition selection_of (answers : selections) (k : string) : number :=
  match answers !! k with
  | Some idx => Number.of_nat idx
  | None => Number.minus_one
  end.

Lemma filter_combine {A B : Type} (f : A -> bool) (g : B -> bool)
    (l : list A) (l' : list B) :
  length l = length l' ->
  (forall x y, In (x, y) (combine l l') -> f x = g y) ->
  List.filter f l = map fst (List.filter (fun p => g (snd p)) (combine l l')).
Proof.
  revert l'. induction l as [|x l IH]; intros [|y l'] Hlen Hfg; simpl in *;
    try reflexivity; try discriminate.
  rewrite (Hfg x y (or_introl eq_refl)).
  rewrite (IH l') by (try lia; intros; apply Hfg; right; assumption).
  destruct (g y); reflexivity.
Qed.

Lemma combine_In_r {A B : Type} (l : list A) (l' : list B) (y : B) :
  length l = length l' -> In y l' -> exists x, In (x, y) (combine l l').
Proof.
  revert l'. induction l as [|x l IH]; intros [|y' l'] Hlen Hy; simpl in *;
    try contradiction; try discriminate.
  destruct Hy as [->|Hy].
  - exists x. left. reflexivity.
  - destruct (IH l' ltac:(lia) Hy) as [x' Hx']. exists x'. right. exact Hx'.
Qed.

Lemma combine_functional {A B K : Type} (key : A -> K) (l : list A) (l' : list B)
    (x x' : A) (y y' : B) :
  NoDup (map key l) ->
  In (x, y) (combine l l') -> In (x', y') (combine l l') ->
  key x = key x' -> y = y'.
Proof.
  revert l'. induction l as [|a l IH]; intros [|b l'] Hnd H1 H2 Hk; simpl in *;
    try contradiction.
  inversion Hnd as [|? ? Hnot Hnd']; subst.
  destruct H1 as [H1|H1], H2 as [H2|H2].
  - congruence.
  - injection H1 as -> ->. exfalso. apply Hnot.
    rewrite Hk. apply list_elem_of_In, in_map. exact (in_combine_l _ _ _ _ H2).
  - injection H2 as -> ->. exfalso. apply Hnot.
    rewrite <- Hk. apply list_elem_of_In, in_map. exact (in_combine_l _ _ _ _ H1).
  - exact (IH l' Hnd' H1 H2 Hk).
Qed.

Lemma Forall2_combine_In {A B : Type} (R : A -> B -> Prop) (l : list A) (l' : list B)
    (x : A) (y : B) :
  Forall2 R l l' -> In (x, y) (combine l l') -> R x y.
Proof.
  induction 1 as [|a b l l' Hab _ IH]; simpl; [contradiction|].
  intros [[= -> ->]|Hin]; [exact Hab|exact (IH Hin)].
Qed.

(** A question's id is among the ids [fillGap] sends exactly when its own
    answer is not correct. *)
Lemma wrong_included (qs : list Question.t) (rs : list Answer.t)
    (q : Question.t) (r : Answer.t) :
  Forall2 (fun q r => Answer.qId r = Question.id q) qs rs ->
  Forall (fun q => exists s, Question.id q = VStr s) qs ->
  NoDup (map Question.id qs) ->
  In (q, r) (combine qs rs) ->
  includes (map Answer.qId (List.filter (fun a => negb (Answer.correct a)) rs))
    (Question.id q) = negb (Answer.correct r).
Proof.
  intros Hids Hstr Hnd Hin.
  pose proof (Forall2_length _ _ _ Hids) as Hlen.
  pose proof (Forall2_combine_In _ _ _ _ _ Hids Hin) as Hqr.
  rewrite List.Forall_forall in Hstr.
  destruct (Hstr q (in_combine_l _ _ _ _ Hin)) as [s Hs].
  apply Bool.eq_true_iff_eq. rewrite includes_In. split.
  - intros (y & Hy & Hsame).
    apply in_map_iff in Hy as (r' & <- & Hr').
    apply filter_In in Hr' as [Hr' Hwrong].
    destruct (combine_In_r qs rs r' Hlen Hr') as [q' Hq'].
    pose proof (Forall2_combine_In _ _ _ _ _ Hids Hq') as Hqr'.
    destruct (Hstr q' (in_combine_l _ _ _ _ Hq')) as [s' Hs'].
    rewrite Hqr', Hs', Hs in Hsame. simpl in Hsame.
    apply String.eqb_eq in Hsame. subst s'.
    assert (Heq : r' = r).
    { apply (combine_functional Question.id qs rs q' q r' r Hnd Hq' Hin). congruence. }
    subst r'. exact Hwrong.
  - intros Hwrong. exists (Answer.qId r). split.
    + apply in_map. apply filter_In. split; [exact (in_combine_r _ _ _ _ Hin)|exact Hwrong].
    + rewrite Hqr, Hs. simpl. apply String.eqb_refl.
Qed.

Lemma wrongQIds_nil (sub : Submission.t) :
  wrongQIds sub = [] <-> Forall (fun a => Answer.correct a = true) (Submission.answers sub).
Proof.
  unfold wrongQIds. induction (Submission.answers sub) as [|a l IH]; simpl.
  - split; [constructor|reflexivity].
  - destruct (Answer.correct a) eqn:Ha; simpl.
    + rewrite IH. split; [intros H; constructor; assumption|].
      intros H. inversion H; assumption.
    + split; [discriminate|]. intros H. inversion H; congruence.
Qed.

(** X14.  After a graded submit of a test whose question ids are pairwise
    distinct strings, the body [fillGap] posts passes the check of the
    justify handler and selects exactly the questions answered wrongly, in
    the order of the test; [fillGap] posts nothing exactly when every answer
    is correct. *)
Theorem fillGap_selects_the_mistakes (env : Env) (data data' : document)
    (id : string) (body : value) (st : nat) (sub : Submission.t) (sc : number)
    (test : Test.t) :
  submit env data id body = (Json st (sub, sc), data') ->
  find_test id data' = Some test ->
  Forall (fun q => exists s, Question.id q = VStr s) (Test.questions test) ->
  NoDup (map Question.id (Test.questions test)) ->
  (forall req, fillGap_request test sub = Some req ->
     exists x l, request_qIds req = VArr (x :: l)
                 /\ selected_questions (x :: l) test = mistakes test sub)
  /\ (fillGap_request test sub = None <->
      Forall (fun a => Answer.correct a = true) (Submission.answers sub)).
Proof.
  intros H Hfind Hstr Hnd.
  destruct (submit_Json_inv _ _ _ _ _ _ _ _ H) as (test0 & Hfind0 & Hg & _ & ->).
  destruct (find_push_result id sub data test0 Hfind0) as (test' & Hfind' & Hqs & _).
  rewrite Hfind in Hfind'. injection Hfind' as <-.
  destruct (grade_inv _ _ _ _ Hg) as (m & _ & Hall & _).
  rewrite <- Hqs in Hall.
  assert (Hids : Forall2 (fun q r => Answer.qId r = Question.id q)
                   (Test.questions test) (Submission.answers sub)).
  { eapply Forall2_impl; [exact Hall|]. intros q r Hq.
    exact (proj1 (grade_question_fields _ _ _ Hq)). }
  assert (Hsel : selected_questions (wrongQIds sub) test = mistakes test sub).
  { unfold selected_questions, mistakes, wrongQIds.
    apply (filter_combine
             (fun q => includes
                         (map Answer.qId
                            (List.filter (fun a => negb (Answer.correct a))
                               (Submission.answers sub)))
                         (Question.id q))
             (fun a => negb (Answer.correct a)));
      [exact (Forall2_length _ _ _ Hids)|].
    intros q r Hin. exact (wrong_included _ _ q r Hids Hstr Hnd Hin). }
  split.
  - intros req Hreq. unfold fillGap_request in Hreq.
    destruct (wrongQIds sub) as [|x l] eqn:Hw; [discriminate|].
    injection Hreq as <-. exists x, l. split; [reflexivity|exact Hsel].
  - rewrite <- wrongQIds_nil. unfold fillGap_request.
    destruct (wrongQIds sub); split; intros; congruence.
Qed.

Lemma selection_sent_selected (answers : selections) (k : string) :
  k <> "__proto__" ->
  selected_of (Some (default VUndefined
                       (own_prop "selectedIndex" (selection_sent answers k))))
  = selection_of answers k.
Proof.
  intros Hk. unfold selection_sent, selection_of.
  destruct (answers !! k); [reflexivity|].
  destruct (String.eqb_spec k "__proto__") as [|_]; [contradiction|].
  destruct (existsb (String.eqb k) Object_prototype_functions); reflexivity.
Qed.

Lemma record_payload_entry (answers : selections) (acc : object) (q : Question.t)
    (s : string) :
  Question.id q = VStr s -> s <> "__proto__" -> proto acc = ObjectPrototype ->
  exists e, payload_entry answers q = Some e
    /\ record_answer acc e =
       Some (define_own acc s
               (default VUndefined (own_prop "selectedIndex" (selection_sent answers s)))).
Proof.
  intros Hs Hk Hp. unfold payload_entry. rewrite Hs. simpl.
  eexists. split; [reflexivity|].
  unfold record_answer. simpl.
  rewrite (set_prop_plain acc s _ Hp Hk). reflexivity.
Qed.

(** What filing the payload leaves in [answersMap]. *)
Lemma reduce_payload (answers : selections) (qs : list Question.t) (acc : object) :
  Forall (fun q => exists s, Question.id q = VStr s /\ s <> "__proto__") qs ->
  proto acc = ObjectPrototype ->
  (forall k v, own acc !! k = Some v ->
     v = default VUndefined (own_prop "selectedIndex" (selection_sent answers k))) ->
  exists sent m,
    mapM (payload_entry answers) qs = Some sent
    /\ reduce sent acc = Some m
    /\ proto m = ObjectPrototype
    /\ (forall k v, own m !! k = Some v ->
          v = default VUndefined (own_prop "selectedIndex" (selection_sent answers k)))
    /\ (forall k, is_Some (own acc !! k) -> is_Some (own m !! k))
    /\ Forall (fun q => exists s, Question.id q = VStr s /\ is_Some (own m !! s)) qs.
Proof.
  intros Hqs. revert acc. induction Hqs as [|q qs (s & Hs & Hk) _ IH]; intros acc Hp Hown.
  - exists [], acc. repeat split; auto.
  - destruct (record_payload_entry answers acc q s Hs Hk Hp) as (e & He & Hrec).
    set (acc1 := define_own acc s
                   (default VUndefined (own_prop "selectedIndex" (selection_sent answers s)))) in *.
    assert (Hp1 : proto acc1 = ObjectPrototype) by exact Hp.
    assert (Hown1 : forall k v, own acc1 !! k = Some v ->
              v = default VUndefined (own_prop "selectedIndex" (selection_sent answers k))).
    { intros k v. unfold acc1, define_own. simpl.
      destruct (decide (s = k)) as [->|Hne].
      - rewrite lookup_insert_eq. intros [= <-]. reflexivity.
      - rewrite lookup_insert_ne by exact Hne. apply Hown. }
    destruct (IH acc1 Hp1 Hown1) as (sent & m & Hsent & Hred & Hpm & Hownm & Hmono & Hall).
    exists (e :: sent), m.
    split; [|split; [|split; [|split; [|split]]]].
    + change (mapM (payload_entry answers) (q :: qs))
        with (x ← payload_entry answers q;
              xs ← mapM (payload_entry answers) qs; Some (x :: xs)).
      rewrite He, Hsent. reflexivity.
    + simpl. rewrite Hrec. exact Hred.
    + exact Hpm.
    + exact Hownm.
    + intros k Hk'. apply Hmono. unfold acc1, define_own. simpl.
      destruct (decide (s = k)) as [->|Hne].
      * rewrite lookup_insert_eq. eauto.
      * rewrite lookup_insert_ne by exact Hne. exact Hk'.
    + constructor; [|exact Hall].
      exists s. split; [exact Hs|]. apply Hmono.
      unfold acc1, define_own. simpl. rewrite lookup_insert_eq. eauto.
Qed.

(** X15.  When no question id is ["__proto__"] and every id is a string,
    the body [submitAnswers] posts is graded, and the submission records for
    each question the choice the learner selected, or [-1] where none was
    selected. *)
Theorem selections_recorded (env : Env) (data : document) (id : string)
    (test : Test.t) (answers : selections) :
  find_test id data = Some test ->
  Forall (fun q => exists s, Question.id q = VStr s /\ s <> "__proto__")
    (Test.questions test) ->
  exists body sub,
    submitAnswers_payload test answers = Some body
    /\ submit env data id body
       = (Json 200 (sub, Submission.score sub), push_result id sub data)
    /\ Forall2 (fun q r => exists s, Question.id q = VStr s
                  /\ Answer.qId r = VStr s
                  /\ Answer.selectedIndex r = selection_of answers s)
         (Test.questions test) (Submission.answers sub).
Proof.
  intros Hfind Hqs.
  destruct (reduce_payload answers (Test.questions test) empty_object Hqs eq_refl)
    as (sent & m & Hsent & Hred & Hpm & Hownm & _ & Hall).
  { intros k v. unfold empty_object. simpl. rewrite lookup_empty. discriminate. }
  set (body := VObj [("userId", VNull); ("answers", VArr sent)]).
  assert (Hans : request_answers body = VArr sent) by reflexivity.
  assert (Hgraded : exists rs,
            mapM (grade_question m) (Test.questions test) = Some rs
            /\ Forall2 (fun q r => exists s, Question.id q = VStr s
                          /\ Answer.qId r = VStr s
                          /\ Answer.selectedIndex r = selection_of answers s)
                 (Test.questions test) rs).
  { clear Hsent Hred Hfind. revert Hqs Hall.
    induction (Test.questions test) as [|q qs IH]; intros Hqs Hall.
    - exists []. split; [reflexivity|constructor].
    - apply Forall_cons in Hqs as [(s & Hs & Hk) Hqs'].
      apply Forall_cons in Hall as [(s' & Hs' & [v Hv]) Hall'].
      rewrite Hs in Hs'. injection Hs' as <-.
      destruct (IH Hqs' Hall') as (rs & Hrs & Hrel).
      eexists. split.
      + change (mapM (grade_question m) (q :: qs))
          with (x ← grade_question m q; xs ← mapM (grade_question m) qs; Some (x :: xs)).
        rewrite Hrs. unfold grade_question. rewrite Hs. simpl. reflexivity.
      + constructor; [|exact Hrel].
        exists s. split; [exact Hs|]. split; [reflexivity|]. simpl.
        unfold get_prop. rewrite Hv. rewrite (Hownm s v Hv).
        apply selection_sent_selected. exact Hk. }
  destruct Hgraded as (rs & Hrs & Hrel).
  exists body,
    (Submission.mk ("sub_" +:+ now36 env 0 +:+ "_" +:+ pretty (random1000 env))
       (request_userId body) (toISOString env)
       (score_of (length (List.filter Answer.correct rs))
          (length (Test.questions test))) rs).
  split; [|split].
  - unfold submitAnswers_payload. rewrite Hsent. reflexivity.
  - unfold submit. rewrite Hfind, Hans. unfold grade, answersMap_of. simpl.
    rewrite Hred. simpl. rewrite Hrs. simpl. reflexivity.
  - simpl. exact Hrel.
Qed.

(** ** What a request leaves of the document *)

Lemma summary_push_result (id : string) (sub : Submission.t) (data : document) :
  map summary (push_result id sub data) = map summary data.
Proof.
  induction data as [|t data IH]; simpl; [reflexivity|].
  destruct (String.eqb (Test.id t) id); simpl; [reflexivity|].
  rewrite IH. reflexivity.
Qed.

Lemma submit_document (env : Env) (data data' : document) (id : string)
    (body : value) (r : reply (Submission.t * number)) :
  submit env data id body = (r, data') ->
  data' = data \/ exists sub, data' = push_result id sub data.
Proof.
  unfold submit. destruct (find_test id data) as [test|]; [|intros [= _ <-]; auto].
  destruct (grade test (request_answers body)) as [[ra sc]|]; simpl.
  - intros [= _ <-]. right. eauto.
  - intros [= _ <-]. auto.
Qed.

(** X16.  A submit request, whatever its outcome, changes neither the
    listing of the tests nor what a request for a test of another id
    returns. *)
Theorem submit_keeps_listing (env : Env) (data data' : document) (id : string)
    (body : value) (r : reply (Submission.t * number)) :
  submit env data id body = (r, data') ->
  list_tests data' = list_tests data
  /\ forall id', id' <> id -> get_test data' id' = get_test data id'.
Proof.
  intros H. destruct (submit_document _ _ _ _ _ _ H) as [->|[sub ->]].
  - split; [reflexivity|]. intros; reflexivity.
  - split.
    + unfold list_tests. rewrite summary_push_result. reflexivity.
    + intros id' Hne. unfold get_test.
      rewrite (find_push_other id' id sub data); [reflexivity|].
      intros ->. apply Hne. reflexivity.
Qed.

(** X17.  A create request either stores exactly one test, after the tests
    already stored, with no results and with the summary it replies under
    status 201, or leaves the document as it was and replies an error of
    status 400 or 500. *)
Theorem create_stores_or_fails (env : Env) (data : document) (body : value) :
  (exists meta test,
      create env data body = (Json 201 meta, (data ++ [test])%list)
      /\ summary test = meta /\ Test.results test = [])
  \/ (exists st msg,
         create env data body = (Error st msg, data)
         /\ (st = 400%nat \/ st = 500%nat)).
Proof.
  unfold create.
  destruct (negb (truthy (request_name body)) || negb (truthy (request_text body))).
  { right. do 2 eexists. split; [reflexivity|]. left. reflexivity. }
  destruct (ToString (request_requested body)) as [r|]; simpl;
    [|right; do 2 eexists; split; [reflexivity|right; reflexivity]].
  destruct (ToString (request_text body)) as [t|]; simpl;
    [|right; do 2 eexists; split; [reflexivity|right; reflexivity]].
  destruct (callGeminiGenerate _ 1000) as [modelResp|]; simpl;
    [|right; do 2 eexists; split; [reflexivity|right; reflexivity]].
  destruct (safelyParseJsonFromText (create_rawOut modelResp)) as [parsed|]; simpl;
    [|right; do 2 eexists; split; [reflexivity|right; reflexivity]].
  destruct (truthy parsed);
    [|right; do 2 eexists; split; [reflexivity|right; reflexivity]].
  destruct (get_opt parsed "questions") as [| | | | |items|];
    try (right; do 2 eexists; split; [reflexivity|right; reflexivity]).
  destruct (normalize_from env 0 items) as [qs|]; simpl;
    [|right; do 2 eexists; split; [reflexivity|right; reflexivity]].
  left. do 2 eexists. split; [reflexivity|]. split; reflexivity.
Qed.

(** [t.results && t.results.length ? t.results[t.results.length - 1] : null],
    the result [openRunner] and [openGap] show. *)
Definition latest_result (t : Test.t) : option Submission.t := last (Test.results t).

(** X18.  After a graded submit, a request for the test returns it with the
    new submission as its latest result. *)
Theorem submitted_result_is_latest (env : Env) (data data' : document)
    (id : string) (body : value) (st : nat) (sub : Submission.t) (sc : number) :
  submit env data id body = (Json st (sub, sc), data') ->
  exists test,
    get_test data' id = Json 200 test /\ latest_result test = Some sub.
Proof.
  intros H.
  destruct (submit_Json_inv _ _ _ _ _ _ _ _ H) as (test0 & Hfind0 & _ & _ & ->).
  destruct (find_push_result id sub data test0 Hfind0) as (test & Hfind & _ & Hres).
  exists test. unfold get_test, latest_result. rewrite Hfind, Hres.
  split; [reflexivity|apply last_snoc].
Qed.

(** The body [createTest] posts; [None] when it posts nothing and asks for
    the name and the text. *)
Definition createTest_request (testName testText : string) : option value :=
  if String.eqb (trim testName) "" || String.eqb (trim testText) "" then None
  else Some (VObj [("name", VStr testName); ("text", VStr testText);
                   ("requested", VNum (Number.of_Z 6))]).

(** X19.  The body [createTest] posts passes the check of the create
    handler: the reply is never the 400 for a missing name or text; the
    [requested: 6] it carries is the handler's own default; and the prompt
    sent to the model is the one for six questions on the text as typed. *)
Theorem createTest_passes_the_check (env : Env) (data : document)
    (testName testText : string) (body : value) :
  createTest_request testName testText = Some body ->
  (forall msg, fst (create env data body) <> Error 400 msg)
  /\ create env data body
     = create env data (VObj [("name", VStr testName); ("text", VStr testText)])
  /\ (callGeminiGenerate
        (create_prompt (Number_toString (Number.of_Z 6)) testText) 1000 = None ->
      create env data body = (Error 500 "MCQ generation failed", data)).
Proof.
  unfold createTest_request.
  destruct (String.eqb_spec (trim testName) "") as [|Hn]; [discriminate|].
  destruct (String.eqb_spec (trim testText) "") as [|Ht]; [discriminate|].
  simpl orb. cbv iota. intros Hbody.
  assert (Hb : body = VObj [("name", VStr testName); ("text", VStr testText);
                            ("requested", VNum (Number.of_Z 6))])
    by congruence.
  subst body. clear Hbody.
  assert (Hname : testName <> "") by (intros ->; apply Hn; reflexivity).
  assert (Htext : testText <> "") by (intros ->; apply Ht; reflexivity).
  assert (Hcreate : forall props,
            own_prop "name" props = Some (VStr testName) ->
            own_prop "text" props = Some (VStr testText) ->
            own_prop "requested" props = None
            \/ own_prop "requested" props = Some (VNum (Number.of_Z 6)) ->
            create env data (VObj props)
            = match callGeminiGenerate
                      (create_prompt (Number_toString (Number.of_Z 6)) testText) 1000 with
              | None => (Error 500 "MCQ generation failed", data)
              | Some modelResp =>
                  default (Error 500 "Could not create test", data)
                    (parsed ← safelyParseJsonFromText (create_rawOut modelResp);
                     match truthy parsed, get_opt parsed "questions" with
                     | true, VArr items =>
                         questions ← normalize_from env 0 items;
                         let id := "test_" +:+ now36 env (length items) +:+ "_"
                                     +:+ pretty (random1000 env) in
                         Some (Json 201 (mkMeta id (VStr testName) (toISOString env)
                                           (length questions)),
                               (data ++ [Test.mk id (VStr testName) (toISOString env)
                                           (VStr testText) questions []])%list)
                     | _, _ => Some (Error 500 "Invalid JSON output from model", data)
                     end)
              end).
  { intros props Hpn Hpt Hpr. unfold create.
    unfold request_name, request_text, request_requested, get_opt, js_or.
    simpl truthy. cbv iota. unfold get. rewrite Hpn, Hpt.
    assert (Hreq : or_default (default VUndefined (Some (default VUndefined (own_prop "requested" props))))
                     (VNum (Number.of_Z 6)) = VNum (Number.of_Z 6)).
    { destruct Hpr as [-> | ->]; reflexivity. }
    rewrite Hreq. simpl default. simpl truthy.
    destruct (String.eqb_spec testName "") as [|_]; [contradiction|].
    destruct (String.eqb_spec testText "") as [|_]; [contradiction|].
    simpl negb. simpl orb. cbv iota. simpl ToString.
    destruct (callGeminiGenerate _ 1000); reflexivity. }
  pose proof (Hcreate [("name", VStr testName); ("text", VStr testText);
                       ("requested", VNum (Number.of_Z 6))]
                eq_refl eq_refl (or_intror eq_refl)) as H6.
  pose proof (Hcreate [("name", VStr testName); ("text", VStr testText)]
                eq_refl eq_refl (or_introl eq_refl)) as H0.
  split; [|split].
  - intros msg. rewrite H6.
    destruct (callGeminiGenerate _ 1000) as [modelResp|]; simpl; [|discriminate].
    destruct (safelyParseJsonFromText (create_rawOut modelResp)) as [parsed|];
      simpl; [|discriminate].
    destruct (truthy parsed); [|discriminate].
    destruct (get_opt parsed "questions") as [| | | | |items|]; try discriminate.
    destruct (normalize_from env 0 items); simpl; discriminate.
  - rewrite H6, H0. reflexivity.
  - intros Hcall. rewrite H6, Hcall. reflexivity.
Qed.

(** ** POST /ocr: the image data sent to the model *)

(** The text after the first occurrence of [sep]. *)
Fixpoint after_first (sep s : string) : option string :=
  if String.prefix sep s then Some (drop (String.length sep) s)
  else match s with
       | "" => None
       | String _ rest => after_first sep rest
       end.

(** The text before the first occurrence of [sep]; all of it when there is
    none. *)
Fixpoint before_first (sep s : string) : string :=
  if String.prefix sep s then ""
  else match s with
       | "" => ""
       | String c rest => String c (before_first sep rest)
       end.

(** [s.split(sep)[1]], for a separator that is not empty. *)
Definition split_1 (sep s : string) : value :=
  match after_first sep s with
  | Some rest => VStr (before_first sep rest)
  | None => VUndefined
  end.

(** [const { imageBase64 } = req.body || {}]. *)
Definition request_imageBase64 (body : value) : value :=
  get_opt (js_or body (VObj [])) "imageBase64".

(** The handler up to its request to the model: an early reply, or the
    [data] of the [inline_data] part it sends. *)
Variant ocr_step : Type :=
| Replied (status : nat) (error : string)
| Requested (base64 : value).

Definition ocr_start (key_configured : bool) (body : value) : ocr_step :=
  let imageBase64 := request_imageBase64 body in
  if negb (truthy imageBase64) then Replied 400 "imageBase64 required"
  else if negb key_configured then Replied 501 "Gemini API key missing"
  else
    match ToString imageBase64 with
    | None => Replied 500 "OCR failed"
    | Some s => Requested (js_or (split_1 "base64," s) imageBase64)
    end.

Definition is_comma (c : ascii) : bool := Ascii.eqb c ",".

Lemma after_first_eq (sep s : string) :
  after_first sep s =
  if String.prefix sep s then Some (drop (String.length sep) s)
  else match s with
       | "" => None
       | String _ rest => after_first sep rest
       end.
Proof. destruct s; reflexivity. Qed.

Lemma before_first_eq (sep s : string) :
  before_first sep s =
  if String.prefix sep s then ""
  else match s with
       | "" => ""
       | String c rest => String c (before_first sep rest)
       end.
Proof. destruct s; reflexivity. Qed.

Lemma prefix_split (p t : string) :
  String.prefix p t = true -> t = p +:+ drop (String.length p) t.
Proof.
  revert t. induction p as [|a p IH]; intros t H.
  - destruct t; reflexivity.
  - destruct t as [|c t]; [discriminate|].
    rewrite prefix_cons in H.
    destruct (Ascii.ascii_dec a c) as [<-|]; [|discriminate].
    rewrite append_cons. simpl. f_equal. exact (IH t H).
Qed.

Lemma no_comma_no_marker (t : string) :
  any is_comma t = false -> String.prefix "base64," t = false.
Proof.
  intros Hno. destruct (String.prefix "base64," t) eqn:Hp; [|reflexivity].
  rewrite (prefix_split _ _ Hp), any_app in Hno. discriminate.
Qed.

Lemma any_cons (p : ascii -> bool) (c : ascii) (s : string) :
  any p (String c s) = p c || any p s.
Proof. reflexivity. Qed.

Lemma after_first_none (t : string) :
  any is_comma t = false -> after_first "base64," t = None.
Proof.
  induction t as [|c t IH]; intros Hno.
  - reflexivity.
  - rewrite after_first_eq, (no_comma_no_marker _ Hno).
    rewrite any_cons in Hno. apply orb_false_iff in Hno as [_ Hno].
    exact (IH Hno).
Qed.

Lemma before_first_all (t : string) :
  any is_comma t = false -> before_first "base64," t = t.
Proof.
  induction t as [|c t IH]; intros Hno.
  - reflexivity.
  - rewrite before_first_eq, (no_comma_no_marker _ Hno).
    rewrite any_cons in Hno. apply orb_false_iff in Hno as [_ Hno].
    rewrite (IH Hno). reflexivity.
Qed.

Ltac marker_step :=
  rewrite append_cons, prefix_cons;
  destruct (Ascii.ascii_dec _ _) as [<-|]; [|reflexivity].

(** The marker does not begin inside a header that has no comma. *)
Lemma marker_not_inside (c : ascii) (h p : string) :
  any is_comma (String c h) = false ->
  String.prefix "base64," (String c h +:+ "base64," +:+ p) = false.
Proof.
  intros Hno.
  marker_step. destruct h as [|c2 h]; [reflexivity|].
  marker_step. destruct h as [|c3 h]; [reflexivity|].
  marker_step. destruct h as [|c4 h]; [reflexivity|].
  marker_step. destruct h as [|c5 h]; [reflexivity|].
  marker_step. destruct h as [|c6 h]; [reflexivity|].
  marker_step. destruct h as [|c7 h]; [reflexivity|].
  marker_step. simpl in Hno. discriminate.
Qed.

Lemma after_first_header (h p : string) :
  any is_comma h = false ->
  after_first "base64," (h +:+ "base64," +:+ p) = Some p.
Proof.
  induction h as [|c h IH]; intros Hno.
  - rewrite after_first_eq.
    change ("" +:+ "base64," +:+ p)
      with (String "b" (String "a" (String "s" (String "e"
             (String "6" (String "4" (String "," p))))))).
    repeat (rewrite prefix_cons;
            destruct (Ascii.ascii_dec _ _) as [_|Hne]; [|exfalso; apply Hne; reflexivity]).
    rewrite prefix_empty. reflexivity.
  - rewrite after_first_eq, (marker_not_inside c h p Hno), append_cons.
    rewrite any_cons in Hno. apply orb_false_iff in Hno as [_ Hno].
    exact (IH Hno).
Qed.

Lemma append_not_empty (a b : string) : b <> "" -> a +:+ b <> "".
Proof.
  intros Hb. destruct a as [|c a]; [exact Hb|]. rewrite append_cons. discriminate.
Qed.

(** X20.  With the key configured, the OCR handler sends the model the
    base64 text of the image, whether the request carries it bare or as a
    data URL whose header ends in the [base64,] marker (a header, like
    base64 text, has no comma). *)
Theorem ocr_sends_the_image_data (body : value) (header payload : string) :
  any is_comma header = false ->
  any is_comma payload = false ->
  payload <> "" ->
  request_imageBase64 body = VStr (header +:+ "base64," +:+ payload)
  \/ request_imageBase64 body = VStr payload ->
  ocr_start true body = Requested (VStr payload).
Proof.
  intros Hh Hp Hne [Hreq|Hreq]; unfold ocr_start; rewrite Hreq; simpl truthy.
  - assert (Hs : header +:+ "base64," +:+ payload <> "").
    { apply append_not_empty. discriminate. }
    apply String.eqb_neq in Hs. rewrite Hs. simpl.
    unfold split_1. rewrite (after_first_header header payload Hh).
    rewrite (before_first_all payload Hp). unfold js_or. simpl truthy.
    apply String.eqb_neq in Hne. rewrite Hne. reflexivity.
  - apply String.eqb_neq in Hne. rewrite Hne. simpl.
    unfold split_1. rewrite (after_first_none payload Hp). reflexivity.
Qed.

(** ** The ids the create handler makes up *)

(** [`q_${Date.now().toString(36)}_${i}`]. *)
Definition fallback_id (env : Env) (i : nat) : string :=
  "q_" +:+ now36 env i +:+ "_" +:+ pretty i.

Definition is_underscore (c : ascii) : bool := Ascii.eqb c "_".

Lemma pretty_N_char_plain (x : N) : is_underscore (pretty_N_char x) = false.
Proof. unfold pretty_N_char. repeat case_match; reflexivity. Qed.

Lemma pretty_N_go_plain (x : N) (s : string) :
  any is_underscore (pretty_N_go x s) = any is_underscore s.
Proof.
  revert s. induction (N.lt_wf_0 x) as [x _ IH]. intros s.
  destruct (decide (0 < x)%N) as [Hx|Hx].
  - rewrite (pretty_N_go_step x s Hx).
    rewrite (IH (x `div` 10)%N) by (apply N.div_lt; [exact Hx|reflexivity]).
    rewrite any_cons, pretty_N_char_plain. reflexivity.
  - assert (x = 0%N) as -> by lia. rewrite pretty_N_go_0. reflexivity.
Qed.

Lemma pretty_nat_plain (n : nat) : any is_underscore (pretty n) = false.
Proof.
  unfold pretty, pretty_nat, pretty, pretty_N.
  destruct (decide (N.of_nat n = 0%N)); [reflexivity|].
  rewrite pretty_N_go_plain. reflexivity.
Qed.

(** A text is cut at its last underscore in one way only. *)
Lemma last_underscore_split (a b p p' : string) :
  any is_underscore p = false -> any is_underscore p' = false ->
  a +:+ String "_" p = b +:+ String "_" p' -> p = p'.
Proof.
  intros Hp Hp'. revert b. induction a as [|c a IH]; intros [|d b] H.
  - injection H as ->. reflexivity.
  - rewrite append_cons in H. injection H as _ ->.
    rewrite any_app, any_cons in Hp. rewrite orb_true_r in Hp. discriminate.
  - rewrite append_cons in H. injection H as _ <-.
    rewrite any_app, any_cons in Hp'. rewrite orb_true_r in Hp'. discriminate.
  - rewrite !append_cons in H. injection H as _ H. exact (IH b H).
Qed.

Lemma fallback_id_inj (env : Env) (i j : nat) :
  fallback_id env i = fallback_id env j -> i = j.
Proof.
  unfold fallback_id. intros H.
  change ("q_" +:+ now36 env i +:+ "_" +:+ pretty i)
    with (String "q" (String "_" (now36 env i +:+ String "_" (pretty i)))) in H.
  change ("q_" +:+ now36 env j +:+ "_" +:+ pretty j)
    with (String "q" (String "_" (now36 env j +:+ String "_" (pretty j)))) in H.
  injection H as H.
  apply last_underscore_split in H; [|apply pretty_nat_plain..].
  exact (pretty_nat_inj _ _ H).
Qed.

Lemma normalize_fallback (env : Env) (q : value) (i : nat) (nq : Question.t) :
  normalize env q i = Some nq ->
  truthy (get_opt q "id") = false ->
  Question.id nq = VStr (fallback_id env i).
Proof.
  unfold normalize, get_opt. intros H Hid.
  destruct (get q "id") as [id|]; simpl in H; [|discriminate].
  destruct (get q "prompt") as [prompt|]; simpl in H; [|discriminate].
  destruct (get q "question") as [question|]; simpl in H; [|discriminate].
  destruct (get q "choices") as [choices|]; simpl in H; [|discriminate].
  destruct (get q "options") as [options|]; simpl in H; [|discriminate].
  destruct (get q "correctIndex") as [correctIndex|]; simpl in H; [|discriminate].
  injection H as <-. simpl in Hid. simpl. unfold js_or. rewrite Hid. reflexivity.
Qed.

Lemma normalize_from_fallback (env : Env) (items : list value) (i : nat)
    (qs : list Question.t) :
  normalize_from env i items = Some qs ->
  Forall (fun q => truthy (get_opt q "id") = false) items ->
  forall j nq, qs !! j = Some nq -> Question.id nq = VStr (fallback_id env (i + j)).
Proof.
  revert i qs. induction items as [|q items IH]; intros i qs H Hall; simpl in H.
  - injection H as <-. intros j nq Hj. destruct j; discriminate.
  - apply Forall_cons in Hall as [Hq Hall].
    destruct (normalize env q i) as [n|] eqn:Hn; simpl in H; [|discriminate].
    destruct (normalize_from env (S i) items) as [ns|] eqn:Hns; simpl in H; [|discriminate].
    injection H as <-. intros [|j] nq Hj; simpl in Hj.
    + injection Hj as <-. rewrite Nat.add_0_r. exact (normalize_fallback _ _ _ _ Hn Hq).
    + replace (i + S j)%nat with (S i + j)%nat by lia.
      exact (IH (S i) ns Hns Hall j nq Hj).
Qed.

(** X21.  When the model's reply gives no question an id, the ids the create
    handler makes up are strings and pairwise distinct, whatever the clock
    reads. *)
Theorem fallback_ids_distinct (env : Env) (items : list value)
    (qs : list Question.t) :
  normalize_from env 0 items = Some qs ->
  Forall (fun q => truthy (get_opt q "id") = false) items ->
  NoDup (map Question.id qs)
  /\ Forall (fun q => exists s, Question.id q = VStr s) qs.
Proof.
  intros H Hall.
  pose proof (normalize_from_fallback env items 0 qs H Hall) as Hids.
  split.
  - change (map Question.id qs) with (Question.id <$> qs).
    apply NoDup_alt. intros i j x Hi Hj.
    rewrite list_lookup_fmap in Hi, Hj.
    destruct (qs !! i) as [ni|] eqn:Hni; [|discriminate].
    destruct (qs !! j) as [nj|] eqn:Hnj; [|discriminate].
    simpl in Hi, Hj.
    pose proof (Hids i ni Hni) as Ei. pose proof (Hids j nj Hnj) as Ej.
    rewrite Nat.add_0_l in Ei, Ej.
    apply (fallback_id_inj env). congruence.
  - apply Forall_lookup_2. intros i nq Hi. eexists. exact (Hids i nq Hi).
Qed.

(** ** The document as JSON

    [writeFile] stores [JSON.stringify(data)] and [res.json] sends
    [JSON.stringify] of the reply; the next request and the client read the
    text back with [JSON.parse].  A value of the document model holds no
    function, so no [toJSON] method is called. *)

(** A Number written and read back: a finite Number is itself, up to the
    sign of zero; [NaN] and the infinities are written [null]. *)
Definition json_number (n : number) : value :=
  match n with
  | S754_finite _ _ _ => VNum n
  | S754_zero _ => VNum (S754_zero false)
  | S754_infinity _ | S754_nan => VNull
  end.

(** The properties of an object without those of the name [k]. *)
Definition remove_key (k : string) (props : list (string * value))
  : list (string * value) :=
  List.filter (fun p => negb (String.eqb (fst p) k)) props.

(** [JSON.parse(JSON.stringify(v))] for [v] in an object or at the top: a
    property whose value is [undefined] is left out, which reads back as
    [undefined]; an element of an array that is [undefined] is written
    [null].  A property list stands for the object in which each name has
    its first value. *)
Fixpoint json_value (v : value) : value :=
  match v with
  | VNum n => json_number n
  | VArr elems =>
      VArr (map (fun x => match x with
                          | VUndefined => VNull
                          | _ => json_value x
                          end) elems)
  | VObj props =>
      VObj ((fix members (l : list (string * value)) : list (string * value) :=
               match l with
               | [] => []
               | (k, x) :: rest =>
                   match x with
                   | VUndefined => remove_key k (members rest)
                   | _ => (k, json_value x) :: remove_key k (members rest)
                   end
               end) props)
  | _ => v
  end.

(** The objects of the document, as the handlers build them. *)
Definition question_value (q : Question.t) : value :=
  VObj [("id", Question.id q); ("prompt", Question.prompt q);
        ("choices", Question.choices q); ("correctIndex", Question.correctIndex q)].

Definition answer_value (a : Answer.t) : value :=
  VObj [("qId", Answer.qId a); ("prompt", Answer.prompt a);
        ("selectedIndex", VNum (Answer.selectedIndex a));
        ("correctIndex", VNum (Answer.correctIndex a));
        ("correct", VBool (Answer.correct a))].

Definition submission_value (s : Submission.t) : value :=
  VObj [("id", VStr (Submission.id s)); ("userId", Submission.userId s);
        ("timestamp", VStr (Submission.timestamp s));
        ("score", VNum (Submission.score s));
        ("answers", VArr (map answer_value (Submission.answers s)))].

Definition test_value (t : Test.t) : value :=
  VObj [("id", VStr (Test.id t)); ("name", Test.name t);
        ("createdAt", VStr (Test.createdAt t)); ("sourceText", Test.sourceText t);
        ("questions", VArr (map question_value (Test.questions t)));
        ("results", VArr (map submission_value (Test.results t)))].

(** A test as the file holds it and as [GET /:id] sends it. *)
Definition stored_test (t : Test.t) : value := json_value (test_value t).

(** GET /:id as the client reads its reply. *)
Definition fetched (data : document) (id : string) : reply value :=
  match get_test data id with
  | Json status test => Json status (stored_test test)
  | Error status error => Error status error
  end.

(** The body of the reply to a graded submit, [{ submission, score }], as
    the client reads it. *)
Definition submit_reply_value (sub : Submission.t) (score : number) : value :=
  json_value (VObj [("submission", submission_value sub); ("score", VNum score)]).

Fixpoint json_members (l : list (string * value)) : list (string * value) :=
  match l with
  | [] => []
  | (k, x) :: rest =>
      match x with
      | VUndefined => remove_key k (json_members rest)
      | _ => (k, json_value x) :: remove_key k (json_members rest)
      end
  end.

Definition json_element (x : value) : value :=
  match x with
  | VUndefined => VNull
  | _ => json_value x
  end.

Lemma json_value_obj (props : list (string * value)) :
  json_value (VObj props) = VObj (json_members props).
Proof.
  simpl. f_equal.
Qed.

Lemma json_value_arr (elems : list value) :
  json_value (VArr elems) = VArr (map json_element elems).
Proof. reflexivity. Qed.

Lemma own_prop_remove_key (k k0 : string) (l : list (string * value)) :
  own_prop k (remove_key k0 l) = if String.eqb k0 k then None else own_prop k l.
Proof.
  induction l as [|[k1 x] l IH]; simpl.
  - destruct (String.eqb k0 k); reflexivity.
  - destruct (String.eqb_spec k1 k0) as [->|Hne]; simpl.
    + rewrite IH. destruct (String.eqb k0 k); reflexivity.
    + rewrite IH. destruct (String.eqb_spec k1 k) as [->|Hk].
      * destruct (String.eqb_spec k0 k) as [->|_]; [contradiction|reflexivity].
      * reflexivity.
Qed.

(** A property of the JSON form of an object is the JSON form of the
    property. *)
Lemma own_prop_json (k : string) (props : list (string * value)) :
  default VUndefined (own_prop k (json_members props))
  = json_value (default VUndefined (own_prop k props)).
Proof.
  induction props as [|[k0 x] rest IH]; [reflexivity|].
  simpl own_prop at 2.
  destruct (String.eqb k0 k) eqn:Hk.
  - destruct x; simpl; rewrite ?Hk; try reflexivity.
    rewrite own_prop_remove_key, Hk. reflexivity.
  - destruct x; simpl; rewrite ?Hk, own_prop_remove_key, Hk; exact IH.
Qed.

Lemma get_opt_json (props : list (string * value)) (k : string) :
  get_opt (json_value (VObj props)) k = json_value (get_opt (VObj props) k).
Proof. rewrite json_value_obj. unfold get_opt, get. simpl. apply own_prop_json. Qed.

Lemma json_value_defined (v : value) : v <> VUndefined -> json_value v <> VUndefined.
Proof.
  destruct v as [| | |n| | |]; try discriminate; try contradiction.
  destruct n; discriminate.
Qed.

Lemma json_value_truthy (v : value) :
  truthy v = true -> truthy (json_value v) = true \/ json_value v = VNull.
Proof.
  destruct v as [| |b|n|s|l|p]; simpl; try discriminate; auto.
  destruct n; simpl; auto.
Qed.

Lemma json_value_number (v : value) :
  typeof v = "number" -> typeof (json_value v) = "number" \/ json_value v = VNull.
Proof.
  destruct v as [| |b|n|s|l|p]; simpl; try discriminate.
  destruct n; simpl; auto.
Qed.

(** Induction on a value through its elements and properties. *)
Fixpoint value_nested_ind (P : value -> Prop)
    (Hundefined : P VUndefined) (Hnull : P VNull)
    (Hbool : forall b, P (VBool b)) (Hnum : forall n, P (VNum n))
    (Hstr : forall s, P (VStr s))
    (Harr : forall elems, List.Forall P elems -> P (VArr elems))
    (Hobj : forall props, List.Forall (fun p => P (snd p)) props -> P (VObj props))
    (v : value) {struct v} : P v :=
  match v with
  | VUndefined => Hundefined
  | VNull => Hnull
  | VBool b => Hbool b
  | VNum n => Hnum n
  | VStr s => Hstr s
  | VArr elems =>
      Harr elems
        ((fix all (l : list value) : List.Forall P l :=
            match l with
            | [] => @List.Forall_nil _ P
            | x :: rest =>
                @List.Forall_cons _ P x rest
                  (value_nested_ind P Hundefined Hnull Hbool Hnum Hstr Harr Hobj x)
                  (all rest)
            end) elems)
  | VObj props =>
      Hobj props
        ((fix all (l : list (string * value))
            : List.Forall (fun p => P (snd p)) l :=
            match l with
            | [] => @List.Forall_nil _ (fun p => P (snd p))
            | p :: rest =>
                @List.Forall_cons _ (fun p => P (snd p)) p rest
                  (value_nested_ind P Hundefined Hnull Hbool Hnum Hstr Harr Hobj (snd p))
                  (all rest)
            end) props)
  end.

Lemma remove_key_twice (k : string) (l : list (string * value)) :
  remove_key k (remove_key k l) = remove_key k l.
Proof.
  unfold remove_key. induction l as [|[k1 x] l IH]; simpl; [reflexivity|].
  destruct (String.eqb k1 k) eqn:Hk; simpl; [exact IH|].
  rewrite Hk. simpl. f_equal. exact IH.
Qed.

Lemma remove_key_swap (k k' : string) (l : list (string * value)) :
  remove_key k (remove_key k' l) = remove_key k' (remove_key k l).
Proof.
  unfold remove_key. induction l as [|[k1 x] l IH]; simpl; [reflexivity|].
  destruct (String.eqb k1 k') eqn:Hk'; destruct (String.eqb k1 k) eqn:Hk; simpl;
    rewrite ?Hk, ?Hk'; simpl; try exact IH.
  f_equal. exact IH.
Qed.

Lemma json_members_cons (k : string) (y : value) (l : list (string * value)) :
  y <> VUndefined ->
  json_members ((k, y) :: l) = (k, json_value y) :: remove_key k (json_members l).
Proof. intros Hy. destruct y; try reflexivity. contradiction. Qed.

Lemma undefined_or_not (x : value) : x = VUndefined \/ x <> VUndefined.
Proof. destruct x; [left; reflexivity|right; discriminate..]. Qed.

Lemma remove_key_same (k : string) (y : value) (l : list (string * value)) :
  remove_key k ((k, y) :: l) = remove_key k l.
Proof. unfold remove_key. simpl. rewrite String.eqb_refl. reflexivity. Qed.

Lemma remove_key_other (k k1 : string) (y : value) (l : list (string * value)) :
  k1 <> k -> remove_key k ((k1, y) :: l) = (k1, y) :: remove_key k l.
Proof.
  intros Hne. unfold remove_key. simpl.
  destruct (String.eqb_spec k1 k); [contradiction|reflexivity].
Qed.

Lemma json_members_remove_key (k : string) (l : list (string * value)) :
  json_members (remove_key k l) = remove_key k (json_members l).
Proof.
  induction l as [|[k1 x] l IH]; [reflexivity|].
  destruct (String.eqb_spec k1 k) as [->|Hne].
  - rewrite remove_key_same, IH.
    destruct (undefined_or_not x) as [->|Hx].
    + simpl. rewrite remove_key_twice. reflexivity.
    + rewrite (json_members_cons _ _ _ Hx), remove_key_same, remove_key_twice.
      reflexivity.
  - rewrite (remove_key_other _ _ _ _ Hne).
    destruct (undefined_or_not x) as [->|Hx].
    + simpl. rewrite IH. apply remove_key_swap.
    + rewrite !(json_members_cons _ _ _ Hx), IH, (remove_key_other _ _ _ _ Hne).
      f_equal. apply remove_key_swap.
Qed.

Lemma json_element_defined (y : value) : y <> VUndefined -> json_element y = json_value y.
Proof. destruct y; try reflexivity. contradiction. Qed.

(** Serialising what was read back changes nothing: the file, the reply
    made from it and the client's copy hold the same value. *)
Lemma json_value_idempotent (v : value) : json_value (json_value v) = json_value v.
Proof.
  induction v as [| | |n| |elems IH|props IH] using value_nested_ind;
    try reflexivity.
  - destruct n; reflexivity.
  - rewrite !json_value_arr. f_equal. rewrite map_map.
    induction IH as [|x elems Hx _ IHl]; [reflexivity|].
    simpl. f_equal; [|exact IHl].
    destruct (undefined_or_not x) as [->|Hd]; [reflexivity|].
    rewrite (json_element_defined x Hd).
    rewrite (json_element_defined _ (json_value_defined x Hd)). exact Hx.
  - rewrite !json_value_obj. f_equal.
    induction IH as [|[k x] props Hx _ IHl]; [reflexivity|].
    simpl in Hx.
    destruct (undefined_or_not x) as [->|Hd].
    + simpl. rewrite json_members_remove_key, IHl. reflexivity.
    + rewrite (json_members_cons k x props Hd).
      rewrite (json_members_cons k _ _ (json_value_defined x Hd)).
      rewrite Hx, json_members_remove_key, IHl, remove_key_twice. reflexivity.
Qed.

(** ** What the parser strips *)

(** [t] is [s] with some of its code units left out. *)
Inductive left_after_removal : string -> string -> Prop :=
| removal_done : left_after_removal "" ""
| removal_keep (c : ascii) (t s : string) :
    left_after_removal t s -> left_after_removal (String c t) (String c s)
| removal_drop (c : ascii) (t s : string) :
    left_after_removal t s -> left_after_removal t (String c s).

Definition is_backquote (c : ascii) : bool := Ascii.eqb c "`".

Lemma removal_refl (s : string) : left_after_removal s s.
Proof. induction s; constructor; assumption. Qed.

Lemma removal_all (s : string) : left_after_removal "" s.
Proof. induction s; constructor; assumption. Qed.

Lemma removal_trans (a b c : string) :
  left_after_removal a b -> left_after_removal b c -> left_after_removal a c.
Proof.
  intros Hab Hbc. revert a Hab.
  induction Hbc as [|ch b c _ IH|ch b c _ IH]; intros a Hab.
  - exact Hab.
  - inversion Hab as [|? a' ? Ha|? ? ? Ha]; subst.
    + apply removal_keep, IH, Ha.
    + apply removal_drop, IH, Ha.
  - apply removal_drop, IH, Hab.
Qed.

Lemma removal_drop_front (k : nat) (s : string) : left_after_removal (drop k s) s.
Proof.
  revert k. induction s as [|c s IH]; intros [|k]; simpl; try apply removal_refl.
  apply removal_drop, IH.
Qed.

Lemma removal_take (k : nat) (s : string) : left_after_removal (take k s) s.
Proof.
  revert k. induction s as [|c s IH]; intros [|k]; simpl; try apply removal_all.
  apply removal_keep, IH.
Qed.

Lemma removal_replace_all (f : string -> nat) (k : nat) (s : string) :
  left_after_removal (replace_all f k s) s.
Proof.
  revert k. induction s as [|c s IH]; intros k; [destruct k; constructor|].
  simpl. destruct k as [|k]; [|apply removal_drop, IH].
  destruct (f (String c s)); [apply removal_keep|apply removal_drop]; apply IH.
Qed.

Lemma removal_trim (s : string) : left_after_removal (trim s) s.
Proof.
  unfold trim.
  destruct (trimEnd_take (trimStart s)) as [k ->].
  destruct (trimStart_drop s) as [j ->].
  eapply removal_trans; [apply removal_take|apply removal_drop_front].
Qed.

Lemma removal_stripped (s : string) : left_after_removal (stripped s) s.
Proof.
  unfold stripped.
  eapply removal_trans; [apply removal_trim|].
  eapply removal_trans; apply removal_replace_all.
Qed.

Lemma trimStart_trimmed (s : string) : starts_with is_space (trimStart s) = false.
Proof.
  induction s as [|c s IH]; [reflexivity|]. simpl.
  destruct (is_space c) eqn:Hc; [exact IH|]. simpl. exact Hc.
Qed.

Lemma trimEnd_front (p : ascii -> bool) (s : string) :
  starts_with p s = false -> starts_with p (trimEnd s) = false.
Proof.
  destruct s as [|c s]; [reflexivity|]. rewrite trimEnd_cons. simpl. intros Hc.
  destruct (is_space c && String.eqb (trimEnd s) ""); [reflexivity|exact Hc].
Qed.

Lemma trimEnd_trimmed (s : string) : ends_with is_space (trimEnd s) = false.
Proof.
  induction s as [|c s IH]; [reflexivity|]. rewrite trimEnd_cons.
  destruct (trimEnd s) as [|d r] eqn:Hr.
  - change (String.eqb "" "") with true. rewrite andb_true_r.
    destruct (is_space c) eqn:Hc; [reflexivity|]. simpl. exact Hc.
  - change (String.eqb (String d r) "") with false. rewrite andb_false_r.
    rewrite ends_with_step. exact IH.
Qed.

Lemma trim_trimmed (s : string) :
  starts_with is_space (trim s) = false /\ ends_with is_space (trim s) = false.
Proof.
  unfold trim. split; [apply trimEnd_front, trimStart_trimmed|apply trimEnd_trimmed].
Qed.

Lemma replace_all_no_backquote (f : string -> nat) (s : string) :
  fence_only f -> any is_backquote s = false -> replace_all f 0 s = s.
Proof.
  intros Hf. induction s as [|c s IH]; [reflexivity|].
  rewrite any_cons. intros H. apply orb_false_iff in H as [Hc Hs].
  simpl. rewrite Hf.
  - rewrite (IH Hs). reflexivity.
  - rewrite prefix_cons. destruct (Ascii.ascii_dec "`" c) as [<-|]; [discriminate|reflexivity].
Qed.

Lemma stripped_no_backquote (s : string) :
  any is_backquote s = false -> stripped s = trim s.
Proof.
  intros H. unfold stripped.
  rewrite (replace_all_no_backquote _ s fence_json_match_only H).
  rewrite (replace_all_no_backquote _ s fence_match_only H). reflexivity.
Qed.

(** ** A reply that does not parse, in a request that reached the model *)

Lemma safelyParse_null (text : value) (s : string) :
  ToString text = Some s -> JSON_parse (json_candidate s) = None ->
  safelyParseJsonFromText text = Some VNull.
Proof.
  intros Hs Hparse. unfold safelyParseJsonFromText.
  destruct (truthy text); simpl; [|reflexivity].
  rewrite Hs. simpl. rewrite Hparse. reflexivity.
Qed.

Lemma create_invalid_json (env : Env) (data : document) (body : value)
    (r t s : string) (modelResp : value) :
  truthy (request_name body) = true ->
  truthy (request_text body) = true ->
  ToString (request_requested body) = Some r ->
  ToString (request_text body) = Some t ->
  callGeminiGenerate (create_prompt r t) 1000 = Some modelResp ->
  ToString (create_rawOut modelResp) = Some s ->
  JSON_parse (json_candidate s) = None ->
  create env data body = (Error 500 "Invalid JSON output from model", data).
Proof.
  intros Hname Htext Hr Ht Hgen Hs Hparse. unfold create.
  rewrite Hname, Htext, Hr, Ht. simpl. rewrite Hgen.
  rewrite (safelyParse_null _ s Hs Hparse). reflexivity.
Qed.

Lemma justify_invalid_json (data : document) (id : string) (body : value)
    (x : value) (l : list value) (test : Test.t) (p s : string) (modelResp : value) :
  request_qIds body = VArr (x :: l) ->
  find_test id data = Some test ->
  justify_prompt (request_contextNotes body) (selected_questions (x :: l) test) = Some p ->
  callGeminiGenerate p 800 = Some modelResp ->
  ToString (justify_raw modelResp) = Some s ->
  JSON_parse (json_candidate s) = None ->
  justify data id body = Error 500 "Invalid JSON from justification model".
Proof.
  intros Hq Hfind Hp Hgen Hs Hparse. unfold justify.
  rewrite Hq, Hfind. cbv zeta. rewrite Hp. simpl. rewrite Hgen.
  rewrite (safelyParse_null _ s Hs Hparse). reflexivity.
Qed.

Lemma stripped_json_fence (s : string) :
  has_fence s = false ->
  starts_with is_open s = true ->
  ends_with is_close s = true ->
  stripped (json_fence s) = s.
Proof.
  intros Hn Ho Hc. unfold stripped, json_fence.
  rewrite (append_cons newline s), fence_json_head.
  rewrite (replace_all_closed_front _ s _ fence_json_match_only Hn Hc).
  change (replace_all fence_json_match 0 (String newline "```"))
    with (String newline "").
  rewrite (replace_all_closed_front _ s _ fence_match_only Hn Hc).
  change (replace_all fence_match 0 (String newline "")) with (String newline "").
  unfold trim. rewrite trimStart_open.
  - apply trimEnd_newline, Hc.
  - destruct s; [discriminate|exact Ho].
Qed.

(** C4, in the form the code satisfies.  The parser only takes code units
    away: what it keeps of a text has no three backquotes in a row and no
    white space at either end, a text without a backquote is only trimmed,
    and a JSON text sent in a json code fence loses exactly the fence.  Of
    that it keeps the part from the first opening brace or
    bracket through the last closing brace or bracket, whichever of the two
    kinds comes last, and hands it to [JSON.parse]; the result is the parsed
    value, or [null] when the parse fails or the text is falsy.  A create or
    justify request that reached the model and got a reply whose text does
    not parse is answered 500 with the handler's message for it; nothing is
    stored and no value is returned. *)
Theorem C4_defensive_parse :
  (forall s : string,
      left_after_removal (stripped s) s
      /\ has_fence (stripped s) = false
      /\ starts_with is_space (stripped s) = false
      /\ ends_with is_space (stripped s) = false
      /\ (any is_backquote s = false -> stripped s = trim s)
      /\ (has_fence s = false -> starts_with is_open s = true ->
          ends_with is_close s = true -> stripped (json_fence s) = s))
  /\ (forall s : string, exists pre post,
        stripped s = pre +:+ json_candidate s +:+ post
        /\ any is_open pre = false
        /\ any is_close post = false
        /\ (if any is_open (stripped s)
            then starts_with is_open (json_candidate s) = true
            else pre = "")
        /\ (if any is_close (json_candidate s)
            then ends_with is_close (json_candidate s) = true
            else post = ""))
  /\ (forall text s, truthy text = true -> ToString text = Some s ->
         safelyParseJsonFromText text =
         Some (match JSON_parse (json_candidate s) with
               | Some v => v
               | None => VNull
               end))
  /\ (forall text, truthy text = false -> safelyParseJsonFromText text = Some VNull)
  /\ (forall env data body r t s modelResp,
         truthy (request_name body) = true ->
         truthy (request_text body) = true ->
         ToString (request_requested body) = Some r ->
         ToString (request_text body) = Some t ->
         callGeminiGenerate (create_prompt r t) 1000 = Some modelResp ->
         ToString (create_rawOut modelResp) = Some s ->
         JSON_parse (json_candidate s) = None ->
         create env data body = (Error 500 "Invalid JSON output from model", data))
  /\ (forall data id body x l test p s modelResp,
         request_qIds body = VArr (x :: l) ->
         find_test id data = Some test ->
         justify_prompt (request_contextNotes body) (selected_questions (x :: l) test)
         = Some p ->
         callGeminiGenerate p 800 = Some modelResp ->
         ToString (justify_raw modelResp) = Some s ->
         JSON_parse (json_candidate s) = None ->
         justify data id body = Error 500 "Invalid JSON from justification model").
Proof.
  split; [|split; [exact json_candidate_shape|split; [|split; [|split]]]].
  - intros s. split; [apply removal_stripped|]. split; [apply stripped_clean|].
    split; [apply trim_trimmed|]. split; [apply trim_trimmed|].
    split; [apply stripped_no_backquote|apply stripped_json_fence].
  - intros text s Ht Hs. unfold safelyParseJsonFromText.
    rewrite Ht, Hs. simpl. destruct (JSON_parse (json_candidate s)); reflexivity.
  - intros text Ht. unfold safelyParseJsonFromText. rewrite Ht. reflexivity.
  - exact create_invalid_json.
  - exact justify_invalid_json.
Qed.

(** ** What a create request stores *)

(** A candidate on which [q.id] throws. *)
Definition is_nullish (q : value) : Prop := q = VNull \/ q = VUndefined.

(** The reply and the document of a create request that reached the
    normalization of the candidates. *)
Lemma create_normalizing (env : Env) (data : document) (body : value)
    (r t : string) (modelResp parsed : value) (items : list value) :
  truthy (request_name body) = true ->
  truthy (request_text body) = true ->
  ToString (request_requested body) = Some r ->
  ToString (request_text body) = Some t ->
  callGeminiGenerate (create_prompt r t) 1000 = Some modelResp ->
  safelyParseJsonFromText (create_rawOut modelResp) = Some parsed ->
  truthy parsed = true ->
  get_opt parsed "questions" = VArr items ->
  create env data body =
  match normalize_from env 0 items with
  | Some questions =>
      let id := "test_" +:+ now36 env (length items) +:+ "_"
                  +:+ pretty (random1000 env) in
      (Json 201 (mkMeta id (request_name body) (toISOString env) (length questions)),
       (data ++ [Test.mk id (request_name body) (toISOString env)
                   (request_text body) questions []])%list)
  | None => (Error 500 "Could not create test", data)
  end.
Proof.
  intros Hname Htext Hr Ht Hgen Hp Htruthy Hq. unfold create.
  rewrite Hname, Htext, Hr, Ht. simpl. rewrite Hgen, Hp. simpl.
  rewrite Htruthy, Hq. destruct (normalize_from env 0 items); reflexivity.
Qed.

Lemma normalize_nullish (env : Env) (q : value) (i : nat) :
  is_nullish q -> normalize env q i = None.
Proof. intros [-> | ->]; reflexivity. Qed.

Lemma normalize_from_nullish (env : Env) (items : list value) (i : nat) :
  Exists is_nullish items -> normalize_from env i items = None.
Proof.
  intros H. revert i. induction H as [q items Hq|q items _ IH]; intros i; simpl.
  - rewrite (normalize_nullish env q i Hq). reflexivity.
  - rewrite (IH (S i)). destruct (normalize env q i); reflexivity.
Qed.

Lemma stored_questions (t : Test.t) :
  get_opt (stored_test t) "questions"
  = VArr (map (fun q => json_value (question_value q)) (Test.questions t)).
Proof.
  unfold stored_test, test_value. rewrite get_opt_json.
  change (get_opt (VObj _) "questions")
    with (VArr (map question_value (Test.questions t))).
  rewrite json_value_arr, map_map. reflexivity.
Qed.

Lemma stored_question_field (q : Question.t) (k : string) :
  get_opt (json_value (question_value q)) k
  = json_value (get_opt (question_value q) k).
Proof. apply get_opt_json. Qed.

(** C5, in the form the code satisfies.  In a create request that reached
    the normalization, when no candidate is [null] or [undefined] the test
    is stored with one question per candidate, none rejected.  The text of
    a stored question comes from [prompt] or else from [question], its
    choices from [choices] or else from [options], its id is the one
    supplied or else the fallback made of the clock and the position, each
    in its JSON form; its [correctIndex] is 0 when the candidate's is no
    Number, the candidate's own Number when that is finite, also outside
    the choices, and [null] when it is a Number that is not finite.  When a
    candidate is [null] or [undefined] the request is answered 500 and
    nothing is stored. *)
Theorem C5_lenient_normalization (env : Env) (data : document) (body : value)
    (r t : string) (modelResp parsed : value) (items : list value) :
  truthy (request_name body) = true ->
  truthy (request_text body) = true ->
  ToString (request_requested body) = Some r ->
  ToString (request_text body) = Some t ->
  callGeminiGenerate (create_prompt r t) 1000 = Some modelResp ->
  safelyParseJsonFromText (create_rawOut modelResp) = Some parsed ->
  truthy parsed = true ->
  get_opt parsed "questions" = VArr items ->
  (Forall non_null items ->
   exists meta test qvs,
     create env data body = (Json 201 meta, (data ++ [test])%list)
     /\ get_opt (stored_test test) "questions" = VArr qvs
     /\ length qvs = length items
     /\ forall (i : nat) (q : value),
          items !! i = Some q ->
          exists qv,
            qvs !! i = Some qv
            /\ get_opt qv "prompt" =
                json_value
                  (if truthy (get_opt q "prompt") then get_opt q "prompt"
                   else if truthy (get_opt q "question") then get_opt q "question"
                   else VStr "")
            /\ get_opt qv "choices" =
                json_value
                  (if truthy (get_opt q "choices") then get_opt q "choices"
                   else if truthy (get_opt q "options") then get_opt q "options"
                   else VArr [])
            /\ get_opt qv "id" =
                json_value
                  (if truthy (get_opt q "id") then get_opt q "id"
                   else VStr (fallback_id env i))
            /\ get_opt qv "correctIndex" =
                (match get_opt q "correctIndex" with
                 | VNum n => json_number n
                 | _ => VNum (Number.of_Z 0)
                 end)
            /\ (forall s m e,
                  get_opt q "correctIndex" = VNum (S754_finite s m e) ->
                  get_opt qv "correctIndex" = VNum (S754_finite s m e)))
  /\ (Exists is_nullish items ->
      create env data body = (Error 500 "Could not create test", data)).
Proof.
  intros Hname Htext Hr Ht Hgen Hp Htruthy Hq.
  rewrite (create_normalizing env data body r t modelResp parsed items
             Hname Htext Hr Ht Hgen Hp Htruthy Hq).
  split.
  - intros Hall.
    destruct (normalize_from_lookup env items 0 Hall) as (qs & Hqs & Hlook).
    rewrite Hqs. cbv zeta.
    eexists _, _, _. split; [reflexivity|].
    split; [apply stored_questions|]. simpl Test.questions.
    split; [rewrite length_map; eapply normalize_from_length; exact Hqs|].
    intros i q Hi.
    destruct (Hlook i q Hi) as (nq & Hnq & Hn).
    assert (Hnn : non_null q) by (eapply Forall_lookup_1; [exact Hall|exact Hi]).
    rewrite (normalize_non_null env q (0 + i) Hnn) in Hn. injection Hn as <-.
    eexists. split.
    { change (map ?f qs) with (f <$> qs). rewrite list_lookup_fmap, Hnq. reflexivity. }
    rewrite !stored_question_field. unfold question_value, js_or. simpl.
    repeat split; try reflexivity.
    + destruct (get_opt q "correctIndex") as [| | |n| | |]; try reflexivity.
    + intros s m e ->. reflexivity.
  - intros Hnull. rewrite (normalize_from_nullish env items 0 Hnull). reflexivity.
Qed.

(** C6, in the form the code satisfies.  A test is created only from a reply
    that parsed to an object with a [questions] array without [null] or
    [undefined] items, and it holds one question for every item, in memory
    and as stored.  Conversely a request that reached the normalization
    with such an array is answered 201 and stores such a test; with the
    empty array it stores a test without questions.  With a [null] or
    [undefined] item it is answered 500 and nothing is stored. *)
Theorem C6_created_question_count (env : Env) (data : document) (body : value) :
  (forall st meta data',
      create env data body = (Json st meta, data') ->
      exists prompt modelResp parsed items test,
        callGeminiGenerate prompt 1000 = Some modelResp
        /\ safelyParseJsonFromText (create_rawOut modelResp) = Some parsed
        /\ get_opt parsed "questions" = VArr items
        /\ st = 201%nat
        /\ data' = (data ++ [test])%list
        /\ length (Test.questions test) = length items
        /\ questionCount meta = length items)
  /\ (forall r t modelResp parsed items,
        truthy (request_name body) = true ->
        truthy (request_text body) = true ->
        ToString (request_requested body) = Some r ->
        ToString (request_text body) = Some t ->
        callGeminiGenerate (create_prompt r t) 1000 = Some modelResp ->
        safelyParseJsonFromText (create_rawOut modelResp) = Some parsed ->
        truthy parsed = true ->
        get_opt parsed "questions" = VArr items ->
        (Forall non_null items ->
         exists meta test qvs,
           create env data body = (Json 201 meta, (data ++ [test])%list)
           /\ Test.results test = []
           /\ length (Test.questions test) = length items
           /\ questionCount meta = length items
           /\ get_opt (stored_test test) "questions" = VArr qvs
           /\ length qvs = length items)
        /\ (items = [] ->
            exists meta test,
              create env data body = (Json 201 meta, (data ++ [test])%list)
              /\ Test.questions test = []
              /\ questionCount meta = 0%nat)
        /\ (Exists is_nullish items ->
            create env data body = (Error 500 "Could not create test", data))).
Proof.
  split.
  - intros st meta data' H. unfold create in H.
    destruct (negb _ || negb _); [discriminate|].
    destruct (ToString (request_requested body)) as [r|]; simpl in H; [|discriminate].
    destruct (ToString (request_text body)) as [t|]; simpl in H; [|discriminate].
    destruct (callGeminiGenerate _ 1000) as [modelResp|] eqn:Hgen; simpl in H;
      [|discriminate].
    destruct (safelyParseJsonFromText (create_rawOut modelResp)) as [parsed|] eqn:Hp;
      simpl in H; [|discriminate].
    destruct (truthy parsed); [|discriminate].
    destruct (get_opt parsed "questions") as [| | | | |items|] eqn:Hq; try discriminate.
    destruct (normalize_from env 0 items) as [qs|] eqn:Hn; simpl in H; [|discriminate].
    injection H as <- <- <-.
    pose proof (normalize_from_length _ _ _ _ Hn) as Hlen.
    eexists _, modelResp, parsed, items, _.
    split; [exact Hgen|]. split; [exact Hp|]. split; [exact Hq|].
    split; [reflexivity|]. split; [reflexivity|]. simpl. auto.
  - intros r t modelResp parsed items Hname Htext Hr Ht Hgen Hp Htruthy Hq.
    rewrite (create_normalizing env data body r t modelResp parsed items
               Hname Htext Hr Ht Hgen Hp Htruthy Hq).
    split; [|split].
    + intros Hall.
      destruct (normalize_from_lookup env items 0 Hall) as (qs & Hqs & _).
      pose proof (normalize_from_length _ _ _ _ Hqs) as Hlen.
      rewrite Hqs. cbv zeta. eexists _, _, _. split; [reflexivity|]. simpl.
      split; [reflexivity|]. split; [exact Hlen|]. split; [exact Hlen|].
      split; [apply stored_questions|]. simpl. rewrite length_map. exact Hlen.
    + intros ->. simpl. eexists _, _. split; [reflexivity|]. simpl. auto.
    + intros Hnull. rewrite (normalize_from_nullish env items 0 Hnull). reflexivity.
Qed.

(** ** What the client reads *)

(** What survives of a question the create handler stored. *)
Definition stored_well_formed (qv : value) : Prop :=
  (typeof (get_opt qv "correctIndex") = "number" \/ get_opt qv "correctIndex" = VNull)
  /\ (truthy (get_opt qv "id") = true \/ get_opt qv "id" = VNull)
  /\ (truthy (get_opt qv "choices") = true \/ get_opt qv "choices" = VNull)
  /\ get_opt qv "prompt" <> VUndefined.

Lemma well_formed_stored (q : Question.t) :
  well_formed q -> stored_well_formed (json_value (question_value q)).
Proof.
  intros (Hc & Hid & Hch & Hp & _). unfold stored_well_formed.
  rewrite !stored_question_field.
  change (get_opt (question_value q) "correctIndex") with (Question.correctIndex q).
  change (get_opt (question_value q) "id") with (Question.id q).
  change (get_opt (question_value q) "choices") with (Question.choices q).
  change (get_opt (question_value q) "prompt") with (Question.prompt q).
  split; [exact (json_value_number _ Hc)|].
  split; [exact (json_value_truthy _ Hid)|].
  split; [exact (json_value_truthy _ Hch)|].
  exact (json_value_defined _ Hp).
Qed.

(** X2.  When no stored test has the id the create handler draws, the
    created test can be fetched under the id of the reply.  As the client
    reads it, it has that id, no results, the text of the request in its
    JSON form and as many questions as the reply counts; every question is
    the JSON form of one with a Number as [correctIndex], a truthy id, a
    truthy choice list and a prompt: its [correctIndex] is a Number or
    [null], its id and its choices are truthy or [null], and its prompt is
    present. *)
Theorem create_then_get (env : Env) (data data' : document) (body : value)
    (st : nat) (meta : TestMeta) :
  create env data body = (Json st meta, data') ->
  find_test (meta_id meta) data = None ->
  exists test tv qvs,
    fetched data' (meta_id meta) = Json 200 tv
    /\ tv = stored_test test
    /\ Forall well_formed (Test.questions test)
    /\ get_opt tv "id" = VStr (meta_id meta)
    /\ get_opt tv "results" = VArr []
    /\ get_opt tv "sourceText" = json_value (request_text body)
    /\ get_opt tv "questions" = VArr qvs
    /\ qvs = map (fun q => json_value (question_value q)) (Test.questions test)
    /\ length qvs = questionCount meta
    /\ Forall stored_well_formed qvs.
Proof.
  intros H Hfresh.
  destruct (create_Json_inv _ _ _ _ _ _ H) as (items & qs & Hn & _ & _ & _ & Hmeta & ->).
  pose proof (normalize_from_well_formed _ _ _ _ Hn) as Hwf.
  eexists _, _, _. unfold fetched, get_test.
  erewrite find_test_app_fresh; [|exact Hfresh|reflexivity].
  split; [reflexivity|]. split; [reflexivity|]. simpl Test.questions.
  split; [exact Hwf|].
  split; [unfold stored_test, test_value; rewrite get_opt_json; reflexivity|].
  split; [unfold stored_test, test_value; rewrite get_opt_json; reflexivity|].
  split; [unfold stored_test, test_value; rewrite get_opt_json; reflexivity|].
  split; [apply stored_questions|]. simpl Test.questions.
  split; [reflexivity|].
  split; [rewrite length_map, Hmeta; reflexivity|].
  apply Forall_map. eapply Forall_impl; [exact Hwf|].
  intros q Hq. exact (well_formed_stored q Hq).
Qed.

Lemma last_entry_graded (env : Env) (data data' : document) (id : string)
    (body : value) (st : nat) (sub : Submission.t) (sc : number)
    (l1 l2 : list value) (e v : value) (k : string) :
  submit env data id body = (Json st (sub, sc), data') ->
  entries (request_answers body) = (l1 ++ e :: l2)%list ->
  Forall (fun a => entry_key a <> Some "__proto__") (l1 ++ e :: l2) ->
  entry_key e = Some k ->
  get e "selectedIndex" = Some v ->
  Forall (fun a => entry_key a <> Some k) l2 ->
  exists test,
    find_test id data = Some test
    /\ forall (i : nat) (q : Question.t) (a : Answer.t),
         Test.questions test !! i = Some q ->
         Submission.answers sub !! i = Some a ->
         ToString (Question.id q) = Some k ->
         Answer.selectedIndex a =
         match v with VNum n => n | _ => Number.of_Z (-1) end.
Proof.
  intros H He Hplain Hk Hv Hlast.
  destruct (submit_Json_inv _ _ _ _ _ _ _ _ H) as (test & Hfind & Hg & _ & _).
  exists test. split; [exact Hfind|].
  destruct (grade_inv _ _ _ _ Hg) as (m & Hm & Hall & _).
  apply answersMap_of_entries in Hm. rewrite He in Hm.
  pose proof (last_entry_selected l1 l2 e k v m Hplain Hk Hv Hlast Hm) as Hget.
  intros i q a Hq Ha Hkq.
  destruct (Forall2_lookup_l _ _ _ _ _ Hall Hq) as (a' & Ha' & Hgq).
  rewrite Ha in Ha'. injection Ha' as <-.
  destruct (grade_question_fields _ _ _ Hgq) as (_ & _ & _ & _ & k' & Hk' & Hsel).
  rewrite Hkq in Hk'. injection Hk' as <-.
  rewrite Hsel, Hget. destruct v; reflexivity.
Qed.

Lemma reply_answers (sub : Submission.t) (sc : number) :
  get_opt (get_opt (submit_reply_value sub sc) "submission") "answers"
  = VArr (map (fun a => json_value (answer_value a)) (Submission.answers sub)).
Proof.
  unfold submit_reply_value. rewrite get_opt_json.
  change (get_opt (VObj _) "submission") with (submission_value sub).
  unfold submission_value. rewrite get_opt_json.
  change (get_opt (VObj _) "answers")
    with (VArr (map answer_value (Submission.answers sub))).
  rewrite json_value_arr, map_map. reflexivity.
Qed.

(** X8.  In a request without [__proto__] entries, a question is graded with
    the [selectedIndex] of the last entry filed under its id when that is a
    Number, and with -1 when it is anything else: a string such as ["1"] is
    not converted.  In the reply the answers are the JSON forms of the
    graded ones: the recorded [selectedIndex] is that Number when it is
    finite (a negative zero as 0), [null] when it is a Number that is not
    finite, and -1 when the entry's value is no Number. *)
Theorem last_number_recorded (env : Env) (data data' : document) (id : string)
    (body : value) (st : nat) (sub : Submission.t) (sc : number)
    (l1 l2 : list value) (e v : value) (k : string) :
  submit env data id body = (Json st (sub, sc), data') ->
  entries (request_answers body) = (l1 ++ e :: l2)%list ->
  Forall (fun a => entry_key a <> Some "__proto__") (l1 ++ e :: l2) ->
  entry_key e = Some k ->
  get e "selectedIndex" = Some v ->
  Forall (fun a => entry_key a <> Some k) l2 ->
  exists test avs,
    find_test id data = Some test
    /\ get_opt (get_opt (submit_reply_value sub sc) "submission") "answers" = VArr avs
    /\ length avs = length (Test.questions test)
    /\ forall (i : nat) (q : Question.t),
         Test.questions test !! i = Some q ->
         ToString (Question.id q) = Some k ->
         exists a av,
           Submission.answers sub !! i = Some a
           /\ avs !! i = Some av
           /\ Answer.selectedIndex a =
              match v with VNum n => n | _ => Number.of_Z (-1) end
           /\ get_opt av "selectedIndex" =
              match v with
              | VNum n => json_number n
              | _ => VNum (Number.of_Z (-1))
              end.
Proof.
  intros H He Hplain Hk Hv Hlast.
  destruct (last_entry_graded _ _ _ _ _ _ _ _ _ _ _ _ _ H He Hplain Hk Hv Hlast)
    as (test & Hfind & Hsel).
  destruct (submit_Json_inv _ _ _ _ _ _ _ _ H) as (test' & Hfind' & Hg & _ & _).
  rewrite Hfind in Hfind'. injection Hfind' as <-.
  destruct (grade_inv _ _ _ _ Hg) as (m & _ & Hall & _).
  exists test, (map (fun a => json_value (answer_value a)) (Submission.answers sub)).
  split; [exact Hfind|]. split; [apply reply_answers|].
  split; [rewrite length_map; symmetry; exact (Forall2_length _ _ _ Hall)|].
  intros i q Hq Hkq.
  destruct (Forall2_lookup_l _ _ _ _ _ Hall Hq) as (a & Ha & _).
  exists a, (json_value (answer_value a)).
  split; [exact Ha|].
  split.
  { change (map ?f (Submission.answers sub)) with (f <$> Submission.answers sub).
    rewrite list_lookup_fmap, Ha. reflexivity. }
  pose proof (Hsel i q a Hq Ha Hkq) as Hn.
  split; [exact Hn|].
  unfold answer_value. rewrite get_opt_json.
  change (get_opt (VObj _) "selectedIndex") with (VNum (Answer.selectedIndex a)).
  rewrite Hn. destruct v; reflexivity.
Qed.

End Routes.

(** ** Closed instances

    The statements above hold for every Number::toString, [JSON.parse],
    [JSON.stringify] and collaborator.  The closed statements below run the
    handlers on sample requests; their identifiers are strings and their
    reply texts are listed in a table, so the host functions are consulted
    only where the definitions here give what the real ones give. *)

(** Number::toString on the integral Numbers below 2^53, which are written
    with all their decimal digits.  Other Numbers take the shortest digits
    that read back as the same Number, which no sample needs; they are left
    as a question mark. *)
Definition integral_toString (x : number) : string :=
  match x with
  | S754_zero _ => "0"
  | S754_nan => "NaN"
  | S754_infinity s => if s then "-Infinity" else "Infinity"
  | S754_finite s m e =>
      let sign := if s then "-" else "" in
      match e with
      | Zneg p =>
          if (Zpos m mod 2 ^ Zpos p =? 0) then sign +:+ pretty (Zpos m / 2 ^ Zpos p)
          else "?"
      | _ =>
          if (Zpos m * 2 ^ e <? 2 ^ 53) then sign +:+ pretty (Zpos m * 2 ^ e)
          else "?"
      end
  end.

(** [JSON.parse] on the texts of a table, a SyntaxError elsewhere. *)
Definition parse_table (table : list (string * value)) (s : string) : option value :=
  snd <$> List.find (fun p => String.eqb (fst p) s) table.

(** [JSON.stringify] on the empty array, the only value the samples
    serialize. *)
Definition stringify_sample (v : value) : option string :=
  match v with
  | VUndefined => None
  | VArr [] => Some "[]"
  | _ => Some "?"
  end.

(** The collaborator's reply around a text. *)
Definition reply_with (text : string) : value :=
  VObj [("candidates",
         VArr [VObj [("content", VObj [("parts", VArr [VObj [("text", VStr text)]])])]])].

(** A collaborator that gives one reply to every prompt. *)
Definition always (modelResp : value) : string -> nat -> option value :=
  fun _ _ => Some modelResp.

Definition num (z : Z) : value := VNum (Number.of_Z z).

Definition sample_env : Env := mkEnv (fun _ => "lx2k9") 7 "2024-01-01T00:00:00.000Z".

Definition question (id : string) (correct : Z) : Question.t :=
  Question.mk (VStr id) (VStr ("Prompt " +:+ id)) (VArr []) (num correct).

Definition quiz (id : string) (questions : list Question.t) : Test.t :=
  Test.mk id (VStr "Quiz") "2024-01-01T00:00:00.000Z" (VStr "Passage") questions [].

Definition answer (qId : string) (selectedIndex : value) : value :=
  VObj [("qId", VStr qId); ("selectedIndex", selectedIndex)].

Definition answers_body (l : list value) : value := VObj [("answers", VArr l)].

Definition graded (q : string) (selected correct : Z) (flag : bool) : Answer.t :=
  Answer.mk (VStr q) (VStr ("Prompt " +:+ q)) (Number.of_Z selected)
    (Number.of_Z correct) flag.

Definition submission (score : Z) (answers : list Answer.t) : Submission.t :=
  Submission.mk "sub_lx2k9_7" VNull "2024-01-01T00:00:00.000Z" (Number.of_Z score) answers.

(** Two questions with the correct indices 1 and 0, both answered 1. *)
Definition quiz2 : Test.t := quiz "t1" [question "q1" 1; question "q2" 0].
Definition both_one : value := answers_body [answer "q1" (num 1); answer "q2" (num 1)].
Definition sub2 : Submission.t :=
  submission 50 [graded "q1" 1 1 true; graded "q2" 1 0 false].

(** Forty questions, the first 23 answered correctly. *)
Definition quiz40 : Test.t :=
  quiz "t40" (map (fun i : nat => question ("q" +:+ pretty i) 0) (seq 0 40)).
Definition first23 : value :=
  answers_body (map (fun i : nat => answer ("q" +:+ pretty i) (num 0)) (seq 0 23)).

(** One question whose stored index is -1, and a request without answers. *)
Definition quiz_minus_one : Test.t := quiz "t1" [question "q1" (-1)].

(** A question named [__proto__], answered twice. *)
Definition quiz_proto : Test.t := quiz "t1" [question "__proto__" 1].
Definition proto_twice : value :=
  answers_body [answer "__proto__" (num 0); answer "__proto__" (num 1)].

(** An entry filed under [__proto__] whose value is an object, followed by
    a second entry of the same qId. *)
Definition proto_object_then_number : value :=
  answers_body [answer "__proto__" (VObj [("q1", num 1); ("q2", num 0)]);
                answer "__proto__" (num 7)].
Definition proto_number_only : value := answers_body [answer "__proto__" (num 7)].

(** A request for a test and replies of the collaborator. *)
Definition create_body : value := VObj [("name", VStr "Quiz"); ("text", VStr "Passage")].

Definition fenced (text : string) : string :=
  "```json" +:+ String newline text +:+ String newline "```".

Definition no_questions_text : string := dq "{'questions':[]}".
Definition no_questions : value := VObj [("questions", VArr [])].

Definition one_question_text : string :=
  dq "{'questions':[{'question':'Q1','choices':['a','b'],'correctIndex':5}]}".
Definition one_candidate : value :=
  VObj [("question", VStr "Q1"); ("choices", VArr [VStr "a"; VStr "b"]);
        ("correctIndex", num 5)].
Definition one_question : value := VObj [("questions", VArr [one_candidate])].

Definition stale_text : string :=
  dq "{'justifications':[{'qId':'stale','explanation':'Because.'}]}".
Definition stale_justification : value :=
  VObj [("qId", VStr "stale"); ("explanation", VStr "Because.")].
Definition stale_reply : value := VObj [("justifications", VArr [stale_justification])].

(** The same candidate in a bare array, without the [questions] object
    around it. *)
Definition bare_array_text : string :=
  dq "[{'question':'Q1','choices':['a','b'],'correctIndex':5}]".

Definition sample_table : list (string * value) :=
  [(no_questions_text, no_questions); (one_question_text, one_question);
   (bare_array_text, VArr [one_candidate]); (stale_text, stale_reply)].

Definition justify_body (qIds : list value) : value :=
  VObj [("qIds", VArr qIds); ("contextNotes", VStr "Passage")].

(** A text closed by a bracket that does not match its opening brace. *)
Definition mismatched : string := dq "{'a':1}]".

(** The first question answered, the second left out. *)
Definition only_q1 : value := answers_body [answer "q1" (num 1)].
Definition sub_only_q1 : Submission.t :=
  submission 50 [graded "q1" 1 1 true; graded "q2" (-1) 0 false].

(** A reply without any JSON in it. *)
Definition unparsable : value := reply_with "Sorry, no questions today.".

(** What the create handler makes of [one_candidate] and stores. *)
Definition normalized_candidate : Question.t :=
  Question.mk (VStr "q_lx2k9_0") (VStr "Q1") (VArr [VStr "a"; VStr "b"]) (num 5).

Definition created_meta : TestMeta :=
  mkMeta "test_lx2k9_7" (VStr "Quiz") "2024-01-01T00:00:00.000Z" 1.
Definition created_test : Test.t :=
  Test.mk "test_lx2k9_7" (VStr "Quiz") "2024-01-01T00:00:00.000Z" (VStr "Passage")
    [normalized_candidate] [].

(** The request of [both_one] with a score and flags of the caller's own. *)
Definition spoofed : value :=
  VObj [("score", num 100);
        ("answers",
         VArr [VObj [("qId", VStr "q1"); ("selectedIndex", num 1); ("correct", VBool true)];
               VObj [("qId", VStr "q2"); ("selectedIndex", num 1); ("correct", VBool true)]])].

Definition later_env : Env := mkEnv (fun _ => "lx2m0") 321 "2024-01-02T00:00:00.000Z".

(** ** The statements at the samples *)

(** C1 as the specification states it does not hold: 23 correct answers
    out of 40 score 57, where [round(100 * 23 / 40)] is 58. *)
Lemma C1_counterexample :
  exists sub data',
    submit integral_toString sample_env [quiz40] "t40" first23
    = (Json 200 (sub, Number.of_Z 57), data')
    /\ length (List.filter Answer.correct (Submission.answers sub)) = 23%nat
    /\ length (Test.questions quiz40) = 40%nat
    /\ spec_score 23 40 = 58
    /\ Number.of_Z 57 <> Number.of_Z 58.
Proof.
  eexists _, _. split; [vm_compute; reflexivity|].
  repeat split; try (vm_compute; reflexivity).
  vm_compute. discriminate.
Qed.

Lemma C1_witness :
  submit integral_toString sample_env [quiz2] "t1" both_one
  = (Json 200 (sub2, Number.of_Z 50), push_result "t1" sub2 [quiz2])
  /\ exists test,
      find_test "t1" [quiz2] = Some test /\
      let countCorrect := length (List.filter Answer.correct (Submission.answers sub2)) in
      let questionCount := length (Test.questions test) in
      Submission.score sub2 = score_of countCorrect questionCount
      /\ ((questionCount < 40)%nat ->
          Submission.score sub2 = Number.of_Z (spec_score countCorrect questionCount))
      /\ (questionCount = 0%nat -> Submission.score sub2 = Number.of_Z 0).
Proof.
  assert (H : submit integral_toString sample_env [quiz2] "t1" both_one
              = (Json 200 (sub2, Number.of_Z 50), push_result "t1" sub2 [quiz2]))
    by (vm_compute; reflexivity).
  split; [exact H|].
  exact (C1_score_formula integral_toString sample_env _ _ _ _ _ _ _ H).
Defined.

Lemma C2_witness :
  submit integral_toString sample_env [quiz2] "t1" both_one
  = (Json 200 (sub2, Number.of_Z 50), push_result "t1" sub2 [quiz2])
  /\ exists test,
      find_test "t1" [quiz2] = Some test
      /\ length (Submission.answers sub2) = length (Test.questions test)
      /\ forall (i : nat) (a : Answer.t) (q : Question.t),
           Submission.answers sub2 !! i = Some a ->
           Test.questions test !! i = Some q ->
           Answer.qId a = Question.id q.
Proof.
  assert (H : submit integral_toString sample_env [quiz2] "t1" both_one
              = (Json 200 (sub2, Number.of_Z 50), push_result "t1" sub2 [quiz2]))
    by (vm_compute; reflexivity).
  split; [exact H|].
  exact (C2_answer_order integral_toString sample_env _ _ _ _ _ _ _ H).
Defined.

(** C3 as the specification states it does not hold: the question has no
    entry in the request and is recorded with [correct] true, its stored
    index being -1. *)
Lemma C3_counterexample :
  exists sub data',
    submit integral_toString sample_env [quiz_minus_one] "t1" (answers_body [])
    = (Json 200 (sub, Number.of_Z 100), data')
    /\ entries (request_answers (answers_body [])) = []
    /\ Submission.answers sub = [graded "q1" (-1) (-1) true].
Proof.
  eexists _, _. split; [vm_compute; reflexivity|].
  split; vm_compute; reflexivity.
Qed.

Lemma C3_witness :
  submit integral_toString sample_env [quiz2] "t1" only_q1
  = (Json 200 (sub_only_q1, Number.of_Z 50), push_result "t1" sub_only_q1 [quiz2])
  /\ Forall (fun e => entry_key integral_toString e <> Some "__proto__")
       (entries (request_answers only_q1))
  /\ exists test,
      find_test "t1" [quiz2] = Some test
      /\ forall (i : nat) (q : Question.t) (a : Answer.t) (k : string),
           Test.questions test !! i = Some q ->
           Submission.answers sub_only_q1 !! i = Some a ->
           ToString integral_toString (Question.id q) = Some k ->
           Forall (fun e => entry_key integral_toString e <> Some k)
             (entries (request_answers only_q1)) ->
           Answer.selectedIndex a = Number.of_Z (-1)
           /\ (Answer.correct a = true <->
               Question.correctIndex q = VNum (Number.of_Z (-1))).
Proof.
  assert (H : submit integral_toString sample_env [quiz2] "t1" only_q1
              = (Json 200 (sub_only_q1, Number.of_Z 50),
                 push_result "t1" sub_only_q1 [quiz2]))
    by (vm_compute; reflexivity).
  assert (Hp : Forall (fun e => entry_key integral_toString e <> Some "__proto__")
                 (entries (request_answers only_q1)))
    by (repeat constructor; discriminate).
  split; [exact H|]. split; [exact Hp|].
  exact (C3_no_selection integral_toString sample_env _ _ _ _ _ _ _ H Hp).
Defined.

(** C4 as the specification states it does not hold: behind an opening brace
    the parser keeps the text through a closing bracket that does not match
    it. *)
Lemma C4_counterexample :
  json_candidate mismatched = dq "{'a':1}]"
  /\ extract_matching (stripped mismatched) = dq "{'a':1}"
  /\ json_candidate mismatched <> extract_matching (stripped mismatched).
Proof.
  split; [vm_compute; reflexivity|]. split; [vm_compute; reflexivity|].
  vm_compute. discriminate.
Qed.


Lemma normalize_sample :
  normalize_from sample_env 0 [one_candidate] = Some [normalized_candidate].
Proof. vm_compute. reflexivity. Qed.

(** A reply that is a bare array of candidates has no [questions] property
    and is turned down before any candidate is normalized. *)
Lemma bare_array_rejected :
  create integral_toString (parse_table sample_table) stringify_sample
    (always (reply_with (fenced bare_array_text))) sample_env [] create_body
  = (Error 500 "Invalid JSON output from model", []).
Proof. vm_compute. reflexivity. Qed.


(** C6 as the specification states it does not hold: a reply that parses to
    an empty [questions] array is answered 201 and a Test without questions
    is stored. *)
Lemma C6_counterexample :
  exists meta test,
    create integral_toString (parse_table sample_table) stringify_sample
      (always (reply_with (fenced no_questions_text))) sample_env [] create_body
    = (Json 201 meta, [test])
    /\ safelyParseJsonFromText integral_toString (parse_table sample_table)
         (VStr (fenced no_questions_text)) = Some no_questions
    /\ Test.questions test = []
    /\ questionCount meta = 0%nat.
Proof.
  eexists _, _. split; [vm_compute; reflexivity|].
  repeat split; vm_compute; reflexivity.
Qed.


(** C7 as the specification states it does not hold: the reply names a qId
    the Test does not have, and the justification for it is returned. *)
Lemma C7_counterexample :
  justify integral_toString (parse_table sample_table) stringify_sample
    (always (reply_with stale_text)) [quiz "t1" [question "q1" 1]] "t1"
    (justify_body [VStr "q1"; VStr "stale"])
  = Json 200 (VArr [stale_justification])
  /\ get_opt stale_justification "qId" = VStr "stale"
  /\ includes (map Question.id (Test.questions (quiz "t1" [question "q1" 1])))
       (VStr "stale") = false.
Proof. repeat split; vm_compute; reflexivity. Qed.

Lemma C7_witness :
  find_test "t1" [quiz2] = Some quiz2
  /\ Forall (fun q => same_value_zero (VStr "stale") (Question.id q) = false)
       (Test.questions quiz2)
  /\ justify integral_toString (parse_table sample_table) stringify_sample
       (always (reply_with stale_text)) [quiz2] "t1"
       (justify_body [VStr "q1"; VStr "stale"])
     = justify integral_toString (parse_table sample_table) stringify_sample
         (always (reply_with stale_text)) [quiz2] "t1"
         (justify_body [VStr "q1"]).
Proof.
  assert (Hfind : find_test "t1" [quiz2] = Some quiz2) by reflexivity.
  assert (Hstale : Forall (fun q => same_value_zero (VStr "stale") (Question.id q) = false)
                     (Test.questions quiz2))
    by (repeat constructor).
  split; [exact Hfind|]. split; [exact Hstale|].
  apply (proj1 (C7_stale_qIds_dropped integral_toString (parse_table sample_table)
                  stringify_sample (always (reply_with stale_text))
                  [quiz2] "t1")
           (justify_body [VStr "q1"; VStr "stale"]) (justify_body [VStr "q1"])
           [VStr "q1"] [] (VStr "stale") quiz2 Hfind Hstale).
  - reflexivity.
  - reflexivity.
  - discriminate.
  - reflexivity.
Defined.

Lemma C8_witness :
  strip_request spoofed = strip_request both_one
  /\ submit integral_toString sample_env [quiz2] "t1" spoofed
     = (Json 200 (sub2, Number.of_Z 50), push_result "t1" sub2 [quiz2])
  /\ exists sub d2 test,
      submit integral_toString later_env [quiz2] "t1" both_one
      = (Json 200 (sub, Number.of_Z 50), d2)
      /\ Submission.score sub = Submission.score sub2
      /\ map Answer.correct (Submission.answers sub)
         = map Answer.correct (Submission.answers sub2)
      /\ find_test "t1" [quiz2] = Some test
      /\ Forall2 (fun q a => Answer.correct a =
                     Number.strict_eq (Answer.selectedIndex a)
                       (correctIndex_of q))
           (Test.questions test) (Submission.answers sub).
Proof.
  assert (Hs : strip_request spoofed = strip_request both_one) by reflexivity.
  assert (H : submit integral_toString sample_env [quiz2] "t1" spoofed
              = (Json 200 (sub2, Number.of_Z 50), push_result "t1" sub2 [quiz2]))
    by (vm_compute; reflexivity).
  split; [exact Hs|]. split; [exact H|].
  exact (C8_score_not_spoofable integral_toString sample_env later_env
           _ _ _ _ _ _ _ _ Hs H).
Defined.

Lemma C9_witness :
  submit integral_toString sample_env [quiz2] "t1" both_one
  = (Json 200 (sub2, Number.of_Z 50), push_result "t1" sub2 [quiz2])
  /\ exists sub data2,
      submit integral_toString later_env (push_result "t1" sub2 [quiz2]) "t1" both_one
      = (Json 200 (sub, Number.of_Z 50), data2)
      /\ Submission.score sub = Submission.score sub2
      /\ map Answer.correct (Submission.answers sub)
         = map Answer.correct (Submission.answers sub2).
Proof.
  assert (H : submit integral_toString sample_env [quiz2] "t1" both_one
              = (Json 200 (sub2, Number.of_Z 50), push_result "t1" sub2 [quiz2]))
    by (vm_compute; reflexivity).
  split; [exact H|].
  exact (C9_idempotent_grading integral_toString sample_env later_env _ _ _ _ _ _ _ H).
Defined.

(** C10 fails in the code when entries are filed under [__proto__].  Two
    entries for the question named [__proto__], the last one selecting the
    correct index 1, are recorded as no selection; and an earlier
    [__proto__] entry whose value is an object decides the selections of the
    questions [q1] and [q2], although a later entry of the same qId follows
    it: without the earlier entry both questions are recorded as unanswered. *)
Theorem C10_proto_entries :
  fst (submit integral_toString sample_env [quiz_proto] "t1" proto_twice)
  = Json 200 (submission 0 [graded "__proto__" (-1) 1 false], Number.of_Z 0)
  /\ fst (submit integral_toString sample_env [quiz2] "t1" proto_object_then_number)
     = Json 200 (submission 100 [graded "q1" 1 1 true; graded "q2" 0 0 true],
                 Number.of_Z 100)
  /\ fst (submit integral_toString sample_env [quiz2] "t1" proto_number_only)
     = Json 200 (submission 0 [graded "q1" (-1) 1 false; graded "q2" (-1) 0 false],
                 Number.of_Z 0).
Proof. repeat split; vm_compute; reflexivity. Qed.

(** ** The further properties at the samples *)

(** A stored test that already has the id the next create request makes. *)
Definition same_id_test : Test.t := quiz "test_lx2k9_7" [].

(** The second question made of [one_candidate], at position 1. *)
Definition normalized_second : Question.t :=
  Question.mk (VStr "q_lx2k9_1") (VStr "Q1") (VArr [VStr "a"; VStr "b"]) (num 5).

(** [both_one] followed by an entry for a question the test does not have. *)
Definition with_unknown : value :=
  answers_body [answer "q1" (num 1); answer "zz" (num 0)].

(** The body [createTest] posts for the sample name and text. *)
Definition create_body_6 : value :=
  VObj [("name", VStr "Quiz"); ("text", VStr "Passage"); ("requested", num 6)].

(** An upload as the component sends it, a data URL. *)
Definition image_header : string := "data:image/png;".
Definition image_payload : string := "iVBORw0KGgo=".
Definition ocr_body : value :=
  VObj [("imageBase64", VStr "data:image/png;base64,iVBORw0KGgo=")].

(** The learner selected choice 1 of [q1] and nothing for [q2]. *)
Definition picked_q1 : gmap string nat := <["q1" := 1%nat]> ∅.

Lemma create_then_list_witness :
  create integral_toString (parse_table sample_table) stringify_sample
    (always (reply_with (fenced one_question_text))) sample_env [] create_body
  = (Json 201 created_meta, [created_test])
  /\ list_tests [created_test] = Json 200 (map summary [] ++ [created_meta])%list.
Proof.
  assert (H : create integral_toString (parse_table sample_table) stringify_sample
                (always (reply_with (fenced one_question_text)))
                sample_env [] create_body
              = (Json 201 created_meta, [created_test]))
    by (vm_compute; reflexivity).
  split; [exact H|].
  exact (create_then_list integral_toString (parse_table sample_table)
           stringify_sample _ sample_env [] _ create_body _ _ H).
Defined.


Lemma create_id_collision_witness :
  create integral_toString (parse_table sample_table) stringify_sample
    (always (reply_with (fenced one_question_text))) sample_env [same_id_test]
    create_body
  = (Json 201 created_meta, [same_id_test; created_test])
  /\ find_test (meta_id created_meta) [same_id_test] = Some same_id_test
  /\ length [same_id_test; created_test] = S (length [same_id_test])
  /\ get_test [same_id_test; created_test] (meta_id created_meta)
     = Json 200 same_id_test.
Proof.
  assert (H : create integral_toString (parse_table sample_table) stringify_sample
                (always (reply_with (fenced one_question_text)))
                sample_env [same_id_test] create_body
              = (Json 201 created_meta, [same_id_test; created_test]))
    by (vm_compute; reflexivity).
  assert (Hold : find_test (meta_id created_meta) [same_id_test] = Some same_id_test)
    by reflexivity.
  split; [exact H|]. split; [exact Hold|].
  exact (create_id_collision integral_toString (parse_table sample_table)
           stringify_sample _ sample_env [same_id_test] _ create_body _ _ _ H Hold).
Defined.

Lemma submit_appends_witness :
  submit integral_toString sample_env [quiz2] "t1" both_one
  = (Json 200 (sub2, Number.of_Z 50), push_result "t1" sub2 [quiz2])
  /\ exists (i : nat) (test : Test.t),
      find_test "t1" [quiz2] = Some test
      /\ [quiz2] !! i = Some test
      /\ push_result "t1" sub2 [quiz2] = <[i := with_result test sub2]> [quiz2].
Proof.
  assert (H : submit integral_toString sample_env [quiz2] "t1" both_one
              = (Json 200 (sub2, Number.of_Z 50), push_result "t1" sub2 [quiz2]))
    by (vm_compute; reflexivity).
  split; [exact H|].
  exact (submit_appends integral_toString sample_env _ _ _ _ _ _ _ H).
Defined.

Lemma history_append_only_witness :
  find_test "t1" [quiz2] = Some quiz2
  /\ exists test',
      find_test "t1"
        (snd (submit_run integral_toString [(sample_env, "t1", both_one)] [quiz2]))
      = Some test'
      /\ Test.questions test' = Test.questions quiz2
      /\ Test.results test' =
         (Test.results quiz2 ++
            map snd (List.filter (fun p => String.eqb (fst p) "t1")
                       (fst (submit_run integral_toString
                               [(sample_env, "t1", both_one)] [quiz2]))))%list.
Proof.
  assert (H : find_test "t1" [quiz2] = Some quiz2) by reflexivity.
  split; [exact H|].
  exact (history_append_only integral_toString [(sample_env, "t1", both_one)]
           [quiz2] "t1" quiz2 H).
Defined.

Lemma unknown_entry_ignored_witness :
  find_test "t1" [quiz2] = Some quiz2
  /\ entry_key integral_toString (answer "zz" (num 0)) = Some "zz"
  /\ Forall (fun q => ToString integral_toString (Question.id q) <> Some "zz")
       (Test.questions quiz2)
  /\ submit integral_toString sample_env [quiz2] "t1" with_unknown
     = submit integral_toString sample_env [quiz2] "t1" only_q1.
Proof.
  assert (Hfind : find_test "t1" [quiz2] = Some quiz2) by reflexivity.
  assert (Hkey : entry_key integral_toString (answer "zz" (num 0)) = Some "zz")
    by reflexivity.
  assert (Hnone : Forall (fun q => ToString integral_toString (Question.id q) <> Some "zz")
                    (Test.questions quiz2))
    by (repeat constructor; discriminate).
  assert (Hplain : Forall (fun a => entry_key integral_toString a <> Some "__proto__")
                     ([answer "q1" (num 1)] ++ answer "zz" (num 0) :: []))
    by (repeat constructor; discriminate).
  split; [exact Hfind|]. split; [exact Hkey|]. split; [exact Hnone|].
  exact (unknown_entry_ignored integral_toString sample_env [quiz2] "t1"
           with_unknown only_q1 quiz2 [answer "q1" (num 1)] [] (answer "zz" (num 0))
           "zz" Hfind eq_refl eq_refl eq_refl Hplain Hkey Hnone).
Defined.


Lemma empty_request_graded_witness :
  find_test "t1" [quiz2] = Some quiz2
  /\ js_or (request_answers (answers_body [])) (VArr []) = VArr []
  /\ exists sub sc,
      submit integral_toString sample_env [quiz2] "t1" (answers_body [])
      = (Json 200 (sub, sc), push_result "t1" sub [quiz2])
      /\ length (Submission.answers sub) = length (Test.questions quiz2)
      /\ Forall (fun a => Answer.selectedIndex a = Number.of_Z (-1))
           (Submission.answers sub).
Proof.
  assert (Hfind : find_test "t1" [quiz2] = Some quiz2) by reflexivity.
  assert (He : js_or (request_answers (answers_body [])) (VArr []) = VArr [])
    by reflexivity.
  assert (Hids : Forall (fun q => is_Some (ToString integral_toString (Question.id q)))
                   (Test.questions quiz2))
    by (repeat constructor; eexists; reflexivity).
  split; [exact Hfind|]. split; [exact He|].
  exact (empty_request_graded integral_toString sample_env [quiz2] "t1"
           (answers_body []) quiz2 Hfind He Hids).
Defined.

Lemma justify_order_irrelevant_witness :
  (forall y, In y [VStr "q1"; VStr "q2"] <-> In y [VStr "q2"; VStr "q1"])
  /\ justify integral_toString (parse_table sample_table) stringify_sample
       (always (reply_with stale_text)) [quiz2] "t1"
       (justify_body [VStr "q1"; VStr "q2"])
     = justify integral_toString (parse_table sample_table) stringify_sample
         (always (reply_with stale_text)) [quiz2] "t1"
         (justify_body [VStr "q2"; VStr "q1"]).
Proof.
  assert (Hsame : forall y, In y [VStr "q1"; VStr "q2"] <-> In y [VStr "q2"; VStr "q1"]).
  { intros y. simpl. split; intros [H|[H|[]]]; auto. }
  split; [exact Hsame|].
  exact (justify_order_irrelevant integral_toString (parse_table sample_table)
           stringify_sample (always (reply_with stale_text)) [quiz2] "t1"
           (justify_body [VStr "q1"; VStr "q2"]) (justify_body [VStr "q2"; VStr "q1"])
           [VStr "q1"; VStr "q2"] [VStr "q2"; VStr "q1"]
           eq_refl eq_refl Hsame eq_refl).
Defined.

Lemma clean_reply_parsed_as_is_witness :
  has_fence no_questions_text = false
  /\ starts_with is_open no_questions_text = true
  /\ ends_with is_close no_questions_text = true
  /\ json_candidate no_questions_text = no_questions_text
  /\ json_candidate (json_fence no_questions_text) = no_questions_text
  /\ safelyParseJsonFromText integral_toString (parse_table sample_table)
       (VStr no_questions_text)
     = Some (default VNull (parse_table sample_table no_questions_text))
  /\ safelyParseJsonFromText integral_toString (parse_table sample_table)
       (VStr (json_fence no_questions_text))
     = Some (default VNull (parse_table sample_table no_questions_text)).
Proof.
  assert (H1 : has_fence no_questions_text = false) by (vm_compute; reflexivity).
  assert (H2 : starts_with is_open no_questions_text = true) by (vm_compute; reflexivity).
  assert (H3 : ends_with is_close no_questions_text = true) by (vm_compute; reflexivity).
  split; [exact H1|]. split; [exact H2|]. split; [exact H3|].
  exact (clean_reply_parsed_as_is integral_toString (parse_table sample_table)
           no_questions_text H1 H2 H3).
Defined.

Lemma score_bounds_witness :
  submit integral_toString sample_env [quiz2] "t1" both_one
  = (Json 200 (sub2, Number.of_Z 50), push_result "t1" sub2 [quiz2])
  /\ find_test "t1" [quiz2] = Some quiz2
  /\ (length (Test.questions quiz2) <= 200)%nat
  /\ exists z : Z,
      Submission.score sub2 = Number.of_Z z
      /\ 0 <= z <= 100
      /\ spec_score (length (List.filter Answer.correct (Submission.answers sub2)))
           (length (Test.questions quiz2)) - 1 <= z
         <= spec_score (length (List.filter Answer.correct (Submission.answers sub2)))
              (length (Test.questions quiz2)).
Proof.
  assert (H : submit integral_toString sample_env [quiz2] "t1" both_one
              = (Json 200 (sub2, Number.of_Z 50), push_result "t1" sub2 [quiz2]))
    by (vm_compute; reflexivity).
  assert (Hfind : find_test "t1" [quiz2] = Some quiz2) by reflexivity.
  assert (Hn : (length (Test.questions quiz2) <= 200)%nat) by (simpl; lia).
  split; [exact H|]. split; [exact Hfind|]. split; [exact Hn|].
  exact (proj1 (score_bounds integral_toString sample_env _ _ _ _ _ _ _ _ H Hfind Hn)).
Defined.

Lemma fillGap_selects_the_mistakes_witness :
  submit integral_toString sample_env [quiz2] "t1" both_one
  = (Json 200 (sub2, Number.of_Z 50), push_result "t1" sub2 [quiz2])
  /\ find_test "t1" (push_result "t1" sub2 [quiz2]) = Some (with_result quiz2 sub2)
  /\ NoDup (map Question.id (Test.questions (with_result quiz2 sub2)))
  /\ (forall req, fillGap_request (with_result quiz2 sub2) sub2 = Some req ->
        exists x l, request_qIds req = VArr (x :: l)
                    /\ selected_questions (x :: l) (with_result quiz2 sub2)
                       = mistakes (with_result quiz2 sub2) sub2)
  /\ (fillGap_request (with_result quiz2 sub2) sub2 = None <->
      Forall (fun a => Answer.correct a = true) (Submission.answers sub2)).
Proof.
  assert (H : submit integral_toString sample_env [quiz2] "t1" both_one
              = (Json 200 (sub2, Number.of_Z 50), push_result "t1" sub2 [quiz2]))
    by (vm_compute; reflexivity).
  assert (Hfind : find_test "t1" (push_result "t1" sub2 [quiz2])
                  = Some (with_result quiz2 sub2)) by reflexivity.
  assert (Hstr : Forall (fun q => exists s, Question.id q = VStr s)
                   (Test.questions (with_result quiz2 sub2)))
    by (repeat constructor; eexists; reflexivity).
  assert (Hnd : NoDup (map Question.id (Test.questions (with_result quiz2 sub2)))).
  { simpl. apply NoDup_cons_2; [|apply NoDup_singleton].
    intros Hin. apply list_elem_of_In in Hin. simpl in Hin.
    destruct Hin as [Hin|[]]. discriminate. }
  split; [exact H|]. split; [exact Hfind|]. split; [exact Hnd|].
  exact (fillGap_selects_the_mistakes integral_toString sample_env _ _ _ _ _ _ _ _
           H Hfind Hstr Hnd).
Defined.

Lemma selections_recorded_witness :
  find_test "t1" [quiz2] = Some quiz2
  /\ Forall (fun q => exists s, Question.id q = VStr s /\ s <> "__proto__")
       (Test.questions quiz2)
  /\ exists body sub,
      submitAnswers_payload integral_toString quiz2 picked_q1 = Some body
      /\ submit integral_toString sample_env [quiz2] "t1" body
         = (Json 200 (sub, Submission.score sub), push_result "t1" sub [quiz2])
      /\ Forall2 (fun q r => exists s, Question.id q = VStr s
                    /\ Answer.qId r = VStr s
                    /\ Answer.selectedIndex r = selection_of picked_q1 s)
           (Test.questions quiz2) (Submission.answers sub).
Proof.
  assert (Hfind : find_test "t1" [quiz2] = Some quiz2) by reflexivity.
  assert (Hids : Forall (fun q => exists s, Question.id q = VStr s /\ s <> "__proto__")
                   (Test.questions quiz2))
    by (repeat constructor; eexists; (split; [reflexivity|discriminate])).
  split; [exact Hfind|]. split; [exact Hids|].
  exact (selections_recorded integral_toString sample_env [quiz2] "t1" quiz2
           picked_q1 Hfind Hids).
Defined.

Lemma submit_keeps_listing_witness :
  submit integral_toString sample_env [quiz2] "t1" both_one
  = (Json 200 (sub2, Number.of_Z 50), push_result "t1" sub2 [quiz2])
  /\ list_tests (push_result "t1" sub2 [quiz2]) = list_tests [quiz2]
  /\ forall id', id' <> "t1" ->
       get_test (push_result "t1" sub2 [quiz2]) id' = get_test [quiz2] id'.
Proof.
  assert (H : submit integral_toString sample_env [quiz2] "t1" both_one
              = (Json 200 (sub2, Number.of_Z 50), push_result "t1" sub2 [quiz2]))
    by (vm_compute; reflexivity).
  split; [exact H|].
  exact (submit_keeps_listing integral_toString sample_env _ _ _ _ _ H).
Defined.

Lemma submitted_result_is_latest_witness :
  submit integral_toString sample_env [quiz2] "t1" both_one
  = (Json 200 (sub2, Number.of_Z 50), push_result "t1" sub2 [quiz2])
  /\ exists test,
      get_test (push_result "t1" sub2 [quiz2]) "t1" = Json 200 test
      /\ latest_result test = Some sub2.
Proof.
  assert (H : submit integral_toString sample_env [quiz2] "t1" both_one
              = (Json 200 (sub2, Number.of_Z 50), push_result "t1" sub2 [quiz2]))
    by (vm_compute; reflexivity).
  split; [exact H|].
  exact (submitted_result_is_latest integral_toString sample_env _ _ _ _ _ _ _ H).
Defined.

Lemma createTest_passes_the_check_witness :
  createTest_request "Quiz" "Passage" = Some create_body_6
  /\ (forall msg,
        fst (create integral_toString (parse_table sample_table) stringify_sample
               (always (reply_with (fenced one_question_text))) sample_env []
               create_body_6)
        <> Error 400 msg)
  /\ create integral_toString (parse_table sample_table) stringify_sample
       (always (reply_with (fenced one_question_text))) sample_env [] create_body_6
     = create integral_toString (parse_table sample_table) stringify_sample
         (always (reply_with (fenced one_question_text))) sample_env [] create_body.
Proof.
  assert (H : createTest_request "Quiz" "Passage" = Some create_body_6)
    by (vm_compute; reflexivity).
  split; [exact H|].
  destruct (createTest_passes_the_check integral_toString (parse_table sample_table)
              stringify_sample (always (reply_with (fenced one_question_text)))
              sample_env [] "Quiz" "Passage" create_body_6 H) as (H1 & H2 & _).
  split; [exact H1|exact H2].
Defined.

Lemma ocr_sends_the_image_data_witness :
  any is_comma image_header = false
  /\ any is_comma image_payload = false
  /\ image_payload <> ""
  /\ request_imageBase64 ocr_body
     = VStr (image_header +:+ "base64," +:+ image_payload)
  /\ ocr_start integral_toString true ocr_body = Requested (VStr image_payload).
Proof.
  assert (H1 : any is_comma image_header = false) by (vm_compute; reflexivity).
  assert (H2 : any is_comma image_payload = false) by (vm_compute; reflexivity).
  assert (H3 : image_payload <> "") by discriminate.
  assert (H4 : request_imageBase64 ocr_body
               = VStr (image_header +:+ "base64," +:+ image_payload))
    by (vm_compute; reflexivity).
  split; [exact H1|]. split; [exact H2|]. split; [exact H3|]. split; [exact H4|].
  exact (ocr_sends_the_image_data integral_toString ocr_body image_header
           image_payload H1 H2 H3 (or_introl H4)).
Defined.

Lemma fallback_ids_distinct_witness :
  normalize_from sample_env 0 [one_candidate; one_candidate]
  = Some [normalized_candidate; normalized_second]
  /\ Forall (fun q => truthy (get_opt q "id") = false) [one_candidate; one_candidate]
  /\ NoDup (map Question.id [normalized_candidate; normalized_second])
  /\ Forall (fun q => exists s, Question.id q = VStr s)
       [normalized_candidate; normalized_second].
Proof.
  assert (H : normalize_from sample_env 0 [one_candidate; one_candidate]
              = Some [normalized_candidate; normalized_second])
    by (vm_compute; reflexivity).
  assert (Hid : Forall (fun q => truthy (get_opt q "id") = false)
                  [one_candidate; one_candidate])
    by (repeat constructor).
  split; [exact H|]. split; [exact Hid|].
  exact (fallback_ids_distinct sample_env _ _ H Hid).
Defined.

(** ** The stored document at the samples *)

(** A candidate whose [correctIndex] is written [1e999], which [JSON.parse]
    reads as [Infinity]. *)
Definition overflow_text : string :=
  dq "{'questions':[{'question':'Q1','choices':['a','b'],'correctIndex':1e999}]}".
Definition overflow_candidate : value :=
  VObj [("question", VStr "Q1"); ("choices", VArr [VStr "a"; VStr "b"]);
        ("correctIndex", VNum (S754_infinity false))].
Definition overflow_table : list (string * value) :=
  [(overflow_text, VObj [("questions", VArr [overflow_candidate])])].

(** A reply with a [null] behind a candidate. *)
Definition with_null_text : string :=
  dq "{'questions':[{'question':'Q1','choices':['a','b'],'correctIndex':5},null]}".
Definition with_null_table : list (string * value) :=
  [(with_null_text, VObj [("questions", VArr [one_candidate; VNull])])].

(** An entry whose [selectedIndex] is written [1e999]. *)
Definition overflow_answer : value :=
  answers_body [answer "q1" (VNum (S754_infinity false)); answer "q2" (num 1)].

Lemma C4_witness :
  truthy (request_name create_body) = true
  /\ truthy (request_text create_body) = true
  /\ ToString integral_toString (request_requested create_body) = Some "6"
  /\ ToString integral_toString (request_text create_body) = Some "Passage"
  /\ ToString integral_toString (create_rawOut stringify_sample unparsable)
     = Some "Sorry, no questions today."
  /\ parse_table sample_table (json_candidate "Sorry, no questions today.") = None
  /\ create integral_toString (parse_table sample_table) stringify_sample
       (always unparsable) sample_env [] create_body
     = (Error 500 "Invalid JSON output from model", []).
Proof.
  assert (H1 : truthy (request_name create_body) = true) by reflexivity.
  assert (H2 : truthy (request_text create_body) = true) by reflexivity.
  assert (H3 : ToString integral_toString (request_requested create_body) = Some "6")
    by (vm_compute; reflexivity).
  assert (H4 : ToString integral_toString (request_text create_body) = Some "Passage")
    by reflexivity.
  assert (H5 : ToString integral_toString (create_rawOut stringify_sample unparsable)
               = Some "Sorry, no questions today.") by reflexivity.
  assert (H6 : parse_table sample_table (json_candidate "Sorry, no questions today.")
               = None) by (vm_compute; reflexivity).
  repeat (split; [assumption|]).
  destruct (C4_defensive_parse integral_toString (parse_table sample_table)
              stringify_sample (always unparsable))
    as (_ & _ & _ & _ & Hcreate & _).
  exact (Hcreate sample_env [] create_body "6" "Passage" _ unparsable
           H1 H2 H3 H4 eq_refl H5 H6).
Defined.

(** C5 as the specification states it does not hold: a [correctIndex]
    written [1e999] is a Number, the candidate is stored, and its stored
    [correctIndex] is [null]. *)
Lemma C5_counterexample :
  exists meta test qv,
    create integral_toString (parse_table overflow_table) stringify_sample
      (always (reply_with (fenced overflow_text))) sample_env [] create_body
    = (Json 201 meta, [test])
    /\ typeof (get_opt overflow_candidate "correctIndex") = "number"
    /\ get_opt (stored_test test) "questions" = VArr [qv]
    /\ get_opt qv "correctIndex" = VNull
    /\ get_opt qv "correctIndex" <> get_opt overflow_candidate "correctIndex".
Proof.
  eexists _, _, _. split; [vm_compute; reflexivity|].
  split; [reflexivity|]. split; [vm_compute; reflexivity|].
  split; [vm_compute; reflexivity|]. vm_compute. discriminate.
Qed.

(** A [null] behind a candidate loses the candidate too. *)
Lemma null_candidate_fails :
  create integral_toString (parse_table with_null_table) stringify_sample
    (always (reply_with (fenced with_null_text))) sample_env [] create_body
  = (Error 500 "Could not create test", []).
Proof. vm_compute. reflexivity. Qed.

Lemma C5_witness :
  safelyParseJsonFromText integral_toString (parse_table sample_table)
    (create_rawOut stringify_sample (reply_with (fenced one_question_text)))
  = Some one_question
  /\ Forall non_null [one_candidate]
  /\ exists meta test qvs,
      create integral_toString (parse_table sample_table) stringify_sample
        (always (reply_with (fenced one_question_text))) sample_env [] create_body
      = (Json 201 meta, ([] ++ [test])%list)
      /\ get_opt (stored_test test) "questions" = VArr qvs
      /\ length qvs = length [one_candidate].
Proof.
  assert (Hp : safelyParseJsonFromText integral_toString (parse_table sample_table)
                 (create_rawOut stringify_sample (reply_with (fenced one_question_text)))
               = Some one_question) by (vm_compute; reflexivity).
  assert (Hall : Forall non_null [one_candidate])
    by (repeat constructor; discriminate).
  assert (H3 : ToString integral_toString (request_requested create_body) = Some "6")
    by (vm_compute; reflexivity).
  split; [exact Hp|]. split; [exact Hall|].
  destruct (proj1 (C5_lenient_normalization integral_toString (parse_table sample_table)
                     stringify_sample (always (reply_with (fenced one_question_text)))
                     sample_env [] create_body "6" "Passage" _ one_question
                     [one_candidate] eq_refl eq_refl H3 eq_refl eq_refl Hp
                     eq_refl eq_refl) Hall)
    as (meta & test & qvs & Hc & Hq & Hlen & _).
  exists meta, test, qvs. split; [exact Hc|]. split; [exact Hq|exact Hlen].
Defined.

Lemma C6_witness :
  create integral_toString (parse_table sample_table) stringify_sample
    (always (reply_with (fenced one_question_text))) sample_env [] create_body
  = (Json 201 created_meta, [created_test])
  /\ exists prompt modelResp parsed items test,
      (always (reply_with (fenced one_question_text))) prompt 1000%nat
      = Some modelResp
      /\ safelyParseJsonFromText integral_toString (parse_table sample_table)
           (create_rawOut stringify_sample modelResp) = Some parsed
      /\ get_opt parsed "questions" = VArr items
      /\ 201%nat = 201%nat
      /\ [created_test] = ([] ++ [test])%list
      /\ length (Test.questions test) = length items
      /\ questionCount created_meta = length items.
Proof.
  assert (H : create integral_toString (parse_table sample_table) stringify_sample
                (always (reply_with (fenced one_question_text)))
                sample_env [] create_body
              = (Json 201 created_meta, [created_test]))
    by (vm_compute; reflexivity).
  split; [exact H|].
  exact (proj1 (C6_created_question_count integral_toString (parse_table sample_table)
                  stringify_sample _ sample_env [] create_body) _ _ _ H).
Defined.

Lemma create_then_get_witness :
  create integral_toString (parse_table sample_table) stringify_sample
    (always (reply_with (fenced one_question_text))) sample_env [] create_body
  = (Json 201 created_meta, [created_test])
  /\ find_test (meta_id created_meta) [] = None
  /\ exists test tv qvs,
      fetched [created_test] (meta_id created_meta) = Json 200 tv
      /\ tv = stored_test test
      /\ Forall well_formed (Test.questions test)
      /\ get_opt tv "id" = VStr (meta_id created_meta)
      /\ get_opt tv "results" = VArr []
      /\ get_opt tv "sourceText" = json_value (request_text create_body)
      /\ get_opt tv "questions" = VArr qvs
      /\ qvs = map (fun q => json_value (question_value q)) (Test.questions test)
      /\ length qvs = questionCount created_meta
      /\ Forall stored_well_formed qvs.
Proof.
  assert (H : create integral_toString (parse_table sample_table) stringify_sample
                (always (reply_with (fenced one_question_text)))
                sample_env [] create_body
              = (Json 201 created_meta, [created_test]))
    by (vm_compute; reflexivity).
  assert (Hfresh : find_test (meta_id created_meta) [] = None) by reflexivity.
  split; [exact H|]. split; [exact Hfresh|].
  exact (create_then_get integral_toString (parse_table sample_table)
           stringify_sample _ sample_env [] _ create_body _ _ H Hfresh).
Defined.

Lemma last_number_recorded_witness :
  exists sub sc,
    submit integral_toString sample_env [quiz2] "t1" overflow_answer
    = (Json 200 (sub, sc), push_result "t1" sub [quiz2])
    /\ entries (request_answers overflow_answer)
       = ([] ++ answer "q1" (VNum (S754_infinity false)) :: [answer "q2" (num 1)])%list
    /\ exists test avs,
        find_test "t1" [quiz2] = Some test
        /\ get_opt (get_opt (submit_reply_value sub sc) "submission") "answers" = VArr avs
        /\ length avs = length (Test.questions test)
        /\ forall (i : nat) (q : Question.t),
             Test.questions test !! i = Some q ->
             ToString integral_toString (Question.id q) = Some "q1" ->
             exists a av,
               Submission.answers sub !! i = Some a
               /\ avs !! i = Some av
               /\ Answer.selectedIndex a = S754_infinity false
               /\ get_opt av "selectedIndex" = VNull.
Proof.
  eexists _, _.
  assert (H : submit integral_toString sample_env [quiz2] "t1" overflow_answer
              = (Json 200
                   (Submission.mk "sub_lx2k9_7" VNull "2024-01-01T00:00:00.000Z"
                      (Number.of_Z 0)
                      [Answer.mk (VStr "q1") (VStr "Prompt q1") (S754_infinity false)
                         (Number.of_Z 1) false;
                       graded "q2" 1 0 false], Number.of_Z 0),
                 push_result "t1"
                   (Submission.mk "sub_lx2k9_7" VNull "2024-01-01T00:00:00.000Z"
                      (Number.of_Z 0)
                      [Answer.mk (VStr "q1") (VStr "Prompt q1") (S754_infinity false)
                         (Number.of_Z 1) false;
                       graded "q2" 1 0 false]) [quiz2])).
  { vm_compute. reflexivity. }
  split; [exact H|]. split; [reflexivity|].
  assert (Hplain : Forall (fun a => entry_key integral_toString a <> Some "__proto__")
                     ([] ++ answer "q1" (VNum (S754_infinity false))
                         :: [answer "q2" (num 1)]))
    by (repeat constructor; discriminate).
  assert (Hlast : Forall (fun a => entry_key integral_toString a <> Some "q1")
                    [answer "q2" (num 1)])
    by (repeat constructor; discriminate).
  exact (last_number_recorded integral_toString sample_env _ _ _ _ _ _ _
           [] [answer "q2" (num 1)] (answer "q1" (VNum (S754_infinity false)))
           (VNum (S754_infinity false)) "q1" H eq_refl Hplain eq_refl eq_refl Hlast).
Defined.
